(** * SceneManager: preparing and rendering the replica-computer scene

    A shallow embedding of [Source/SceneManager.cpp].  The class members
    and the external world the class talks to (the OpenGL texture
    subsystem, the shader program's uniforms behind [ShaderManager], the
    image decoder, the meshes behind [ShapeMeshes] and the console) are
    one explicit state; every method is a function on that state in a
    small state-and-undefined-behaviour monad.  The statements of the
    [Draw...] methods and of [RenderScene] are kept as the list of calls
    they make, run by [exec]. *)

From stdpp Require Import gmap strings list fin_maps.
From Stdlib Require Import QArith ZArith Lia.

Close Scope Q_scope.
Local Open Scope string_scope.

(** ** Values of the graphics maths library

    A [float] is kept as the expression the source evaluates: literals as
    they are written (a signed decimal), the conversions and the
    arithmetic the code applies to them.  Rounding to binary32 is a
    function of that expression, so equal expressions are equal floats. *)

Inductive float : Type :=
| FLit (q : Q)                 (* a literal: 0.35f as 0.35, the int 1 as 1 *)
| FOfInt (i : Z)               (* an int converted to float *)
| FNeg (a : float)
| FAdd (a b : float)
| FSub (a b : float)
| FMul (a b : float)
| FDiv (a b : float)
| glm_radians (degrees : float)
| FIndeterminate.              (* the value of an uninitialised float *)

Coercion FLit : Q >-> float.

Declare Scope float_scope.
Delimit Scope float_scope with float.
Bind Scope float_scope with float.
Notation "a + b" := (FAdd a b) : float_scope.
Notation "a - b" := (FSub a b) : float_scope.
Notation "a * b" := (FMul a b) : float_scope.
Notation "a / b" := (FDiv a b) : float_scope.
Notation "- a" := (FNeg a) : float_scope.

Record vec2 : Type := glm_vec2 { v2_x : float; v2_y : float }.
Record vec3 : Type := glm_vec3 { v3_x : float; v3_y : float; v3_z : float }.
Record vec4 : Type :=
  glm_vec4 { v4_r : float; v4_g : float; v4_b : float; v4_a : float }.

(** [positionXYZ + offset]: componentwise. *)
Definition vec3_add (a b : vec3) : vec3 :=
  glm_vec3 (v3_x a + v3_x b) (v3_y a + v3_y b) (v3_z a + v3_z b).

(** [scaleCable.y = v] *)
Definition vec3_set_y (a : vec3) (v : float) : vec3 :=
  glm_vec3 (v3_x a) v (v3_z a).

(** A default-constructed glm vector holds indeterminate components. *)
Definition vec3_uninitialised : vec3 :=
  glm_vec3 FIndeterminate FIndeterminate FIndeterminate.

(** 4x4 matrices, as built by glm's transform functions and [operator*]. *)
Inductive mat4 : Type :=
| glm_scale (v : vec3)
| glm_rotate (angle : float) (axis : vec3)
| glm_translate (v : vec3)
| mat4_mul (a b : mat4).

Declare Scope mat4_scope.
Delimit Scope mat4_scope with mat4.
Bind Scope mat4_scope with mat4.
Notation "a * b" := (mat4_mul a b) : mat4_scope.

(** ** Data of the scene manager *)

(** [TEXTURE_INFO] and [OBJECT_MATERIAL] are declared in SceneManager.h;
    the fields are the ones this file reads and writes. *)
Record TEXTURE_INFO : Type := { ID : N; tag : string }.

Record OBJECT_MATERIAL : Type := {
  diffuseColor : vec3;
  specularColor : vec3;
  shininess : float;
  material_tag : string            (* [tag] in the source *)
}.

(** A local [OBJECT_MATERIAL material;] before anything is assigned.
    [FIndeterminate] only names such a content: two uninitialised locals
    need not hold the same bits, so no statement below rests on two
    indeterminate values being equal; where runs are compared the
    materials asked for are assumed to be in the list. *)
Definition OBJECT_MATERIAL_uninitialised : OBJECT_MATERIAL :=
  {| diffuseColor := vec3_uninitialised;
     specularColor := vec3_uninitialised;
     shininess := FIndeterminate;
     material_tag := "" |}.

(** Modelled from the spec: SceneManager.h is not part of the sources; the
    array [m_textureIDs] it declares has 16 slots. *)
Definition MAX_TEXTURES : Z := 16.

Inductive pointer : Type := NULL | NonNull.

Inductive mesh : Type := PlaneMesh | BoxMesh | PrismMesh | CylinderMesh.

(** ** The external world *)

Inductive GLenum : Type :=
| GL_TEXTURE_2D | GL_TEXTURE_WRAP_S | GL_TEXTURE_WRAP_T
| GL_TEXTURE_MIN_FILTER | GL_TEXTURE_MAG_FILTER
| GL_REPEAT | GL_LINEAR
| GL_RGB8 | GL_RGB | GL_RGBA8 | GL_RGBA | GL_UNSIGNED_BYTE.

(** What [stbi_load] hands back for a file it can decode. *)
Record stb_image : Type := {
  width : Z; height : Z; colorChannels : Z; pixels : list N
}.

(** The image a texture object holds after [glTexImage2D]. *)
Record tex_image : Type := {
  internalformat : GLenum; tex_width : Z; tex_height : Z; border : Z;
  format : GLenum; pixel_type : GLenum; tex_pixels : list N
}.

Inductive gl_call : Type :=
| glGenTextures_call (returned : N)
| glBindTexture_call (target : GLenum) (texture : N)
| glTexParameteri_call (target pname param : GLenum)
| glTexImage2D_call (target : GLenum) (level : Z) (img : tex_image)
| glGenerateMipmap_call (target : GLenum)
| glActiveTexture_call (texture_unit : Z).

Inductive uniform_value : Type :=
| UInt (i : Z)
| UBool (b : bool)
| UFloat (f : float)
| UVec2 (v : vec2)
| UVec3 (v : vec3)
| UVec4 (v : vec4)
| UMat4 (m : mat4)
| USampler2D (slot : Z).

(** One piece of a line sent to [std::cout]. *)
Inductive piece : Type := Str (s : string) | Int (i : Z).

(** Everything the class does to the outside, in program order. *)
Inductive event : Type :=
| Cout (line : list piece)
| Stbi_set_flip_vertically_on_load (b : bool)
| Stbi_load (filename : string)
| Stbi_image_free
| GLCall (c : gl_call)
| SetUniform (name : string) (v : uniform_value)
| LoadMesh (m : mesh)
| DrawMesh (m : mesh).

Record GLState : Type := {
  gl_next_name : N;                       (* names below it were generated *)
  gl_active_texture : Z;                  (* unit chosen by glActiveTexture *)
  gl_texture_binding : gmap Z N;          (* unit -> texture on GL_TEXTURE_2D *)
  gl_texture_image : gmap N tex_image     (* texture -> uploaded image *)
}.

Record State : Type := {
  (* members of SceneManager *)
  m_pShaderManager : pointer;
  m_textureIDs : list TEXTURE_INFO;
  m_loadedTextures : Z;
  m_objectMaterials : list OBJECT_MATERIAL;
  (* the process and the libraries *)
  working_directory : string;
  image_files : gmap string stb_image;    (* what stbi_load can decode *)
  gl : GLState;
  uniforms : gmap string uniform_value;   (* the shader program's uniforms *)
  trace : list event
}.

Definition set_textureIDs (v : list TEXTURE_INFO) (s : State) : State :=
  {| m_pShaderManager := m_pShaderManager s; m_textureIDs := v;
     m_loadedTextures := m_loadedTextures s;
     m_objectMaterials := m_objectMaterials s;
     working_directory := working_directory s; image_files := image_files s;
     gl := gl s; uniforms := uniforms s; trace := trace s |}.

Definition set_loadedTextures (v : Z) (s : State) : State :=
  {| m_pShaderManager := m_pShaderManager s; m_textureIDs := m_textureIDs s;
     m_loadedTextures := v;
     m_objectMaterials := m_objectMaterials s;
     working_directory := working_directory s; image_files := image_files s;
     gl := gl s; uniforms := uniforms s; trace := trace s |}.

Definition set_objectMaterials (v : list OBJECT_MATERIAL) (s : State) : State :=
  {| m_pShaderManager := m_pShaderManager s; m_textureIDs := m_textureIDs s;
     m_loadedTextures := m_loadedTextures s;
     m_objectMaterials := v;
     working_directory := working_directory s; image_files := image_files s;
     gl := gl s; uniforms := uniforms s; trace := trace s |}.

Definition set_gl (v : GLState) (s : State) : State :=
  {| m_pShaderManager := m_pShaderManager s; m_textureIDs := m_textureIDs s;
     m_loadedTextures := m_loadedTextures s;
     m_objectMaterials := m_objectMaterials s;
     working_directory := working_directory s; image_files := image_files s;
     gl := v; uniforms := uniforms s; trace := trace s |}.

Definition set_uniforms (v : gmap string uniform_value) (s : State) : State :=
  {| m_pShaderManager := m_pShaderManager s; m_textureIDs := m_textureIDs s;
     m_loadedTextures := m_loadedTextures s;
     m_objectMaterials := m_objectMaterials s;
     working_directory := working_directory s; image_files := image_files s;
     gl := gl s; uniforms := v; trace := trace s |}.

Definition set_trace (v : list event) (s : State) : State :=
  {| m_pShaderManager := m_pShaderManager s; m_textureIDs := m_textureIDs s;
     m_loadedTextures := m_loadedTextures s;
     m_objectMaterials := m_objectMaterials s;
     working_directory := working_directory s; image_files := image_files s;
     gl := gl s; uniforms := uniforms s; trace := v |}.

(** ** The monad: state, or undefined behaviour *)

Inductive undefined : Type :=
| NullShaderManager         (* a call through m_pShaderManager == NULL *)
| TextureSlotOutOfBounds.   (* m_textureIDs[i] outside the array *)

Inductive outcome (A : Type) : Type :=
| Done (a : A) (s : State)
| Undefined (u : undefined).
Arguments Done {A} a s.
Arguments Undefined {A} u.

Definition M (A : Type) : Type := State -> outcome A.

Global Instance M_ret : MRet M := fun A (a : A) s => Done a s.

Global Instance M_bind : MBind M := fun A B (k : A -> M B) (m : M A) s =>
  match m s with
  | Done a s' => k a s'
  | Undefined u => Undefined u
  end.

Definition get {A} (f : State -> A) : M A := fun s => Done (f s) s.
Definition modify (f : State -> State) : M unit := fun s => Done tt (f s).
Definition undefined_behaviour {A} (u : undefined) : M A :=
  fun _ => Undefined u.

Definition emit (e : event) : M unit :=
  modify (fun s => set_trace (trace s ++ [e]) s).

(** [for (int i = 0; i < n; i++) body(i)] *)
Fixpoint for_loop_from (count : nat) (i : Z) (body : Z -> M unit) : M unit :=
  match count with
  | O => mret tt
  | S count' => body i;; for_loop_from count' (i + 1)%Z body
  end.

Definition for_loop (n : Z) (body : Z -> M unit) : M unit :=
  for_loop_from (Z.to_nat n) 0%Z body.

(** ** Calls into the libraries *)

Definition cout (line : list piece) : M unit := emit (Cout line).

Definition GetCurrentDirectoryA : M string := get working_directory.

Definition stbi_set_flip_vertically_on_load (b : bool) : M unit :=
  emit (Stbi_set_flip_vertically_on_load b).

Definition stbi_load (filename : string) : M (option stb_image) :=
  emit (Stbi_load filename);;
  get (fun s => image_files s !! filename).

Definition stbi_image_free : M unit := emit Stbi_image_free.

Definition set_gl_next_name (n : N) (g : GLState) : GLState :=
  {| gl_next_name := n; gl_active_texture := gl_active_texture g;
     gl_texture_binding := gl_texture_binding g;
     gl_texture_image := gl_texture_image g |}.

Definition set_gl_active_texture (u : Z) (g : GLState) : GLState :=
  {| gl_next_name := gl_next_name g; gl_active_texture := u;
     gl_texture_binding := gl_texture_binding g;
     gl_texture_image := gl_texture_image g |}.

Definition set_gl_texture_binding (b : gmap Z N) (g : GLState) : GLState :=
  {| gl_next_name := gl_next_name g;
     gl_active_texture := gl_active_texture g;
     gl_texture_binding := b;
     gl_texture_image := gl_texture_image g |}.

Definition set_gl_texture_image (i : gmap N tex_image) (g : GLState) : GLState :=
  {| gl_next_name := gl_next_name g;
     gl_active_texture := gl_active_texture g;
     gl_texture_binding := gl_texture_binding g;
     gl_texture_image := i |}.

(** The texture bound to GL_TEXTURE_2D on the active unit (0: none). *)
Definition gl_bound_texture (g : GLState) : N :=
  default 0%N (gl_texture_binding g !! gl_active_texture g).

(** [glGenTextures(1, &id)]: a name that was never handed out before. *)
Definition glGenTextures : M N :=
  name ← get (fun s => gl_next_name (gl s));
  modify (fun s => set_gl (set_gl_next_name (N.succ name) (gl s)) s);;
  emit (GLCall (glGenTextures_call name));;
  mret name.

Definition glBindTexture (target : GLenum) (texture : N) : M unit :=
  modify (fun s =>
    set_gl (set_gl_texture_binding
              (<[gl_active_texture (gl s) := texture]>
                 (gl_texture_binding (gl s))) (gl s)) s);;
  emit (GLCall (glBindTexture_call target texture)).

Definition glTexParameteri (target pname param : GLenum) : M unit :=
  emit (GLCall (glTexParameteri_call target pname param)).

Definition glTexImage2D (target : GLenum) (level : Z) (img : tex_image)
  : M unit :=
  modify (fun s =>
    set_gl (set_gl_texture_image
              (<[gl_bound_texture (gl s) := img]>
                 (gl_texture_image (gl s))) (gl s)) s);;
  emit (GLCall (glTexImage2D_call target level img)).

Definition glGenerateMipmap (target : GLenum) : M unit :=
  emit (GLCall (glGenerateMipmap_call target)).

(** [glActiveTexture(GL_TEXTURE0 + i)] *)
Definition glActiveTexture (texture_unit : Z) : M unit :=
  modify (fun s => set_gl (set_gl_active_texture texture_unit (gl s)) s);;
  emit (GLCall (glActiveTexture_call texture_unit)).

(** A setter called through [m_pShaderManager]; the pointer is
    dereferenced, so a null pointer is undefined behaviour.  The methods
    that test the pointer do so before they get here. *)
Definition shader_set (name : string) (v : uniform_value) : M unit :=
  p ← get m_pShaderManager;
  match p with
  | NULL => undefined_behaviour NullShaderManager
  | NonNull =>
      modify (fun s => set_uniforms (<[name := v]> (uniforms s)) s);;
      emit (SetUniform name v)
  end.

Definition setIntValue (name : string) (i : Z) := shader_set name (UInt i).
Definition setBoolValue (name : string) (b : bool) :=
  shader_set name (UBool b).
Definition setFloatValue (name : string) (f : float) :=
  shader_set name (UFloat f).
Definition setVec2Value (name : string) (v : vec2) :=
  shader_set name (UVec2 v).
Definition setVec3Value (name : string) (v : vec3) :=
  shader_set name (UVec3 v).
Definition setVec4Value (name : string) (v : vec4) :=
  shader_set name (UVec4 v).
Definition setMat4Value (name : string) (m : mat4) :=
  shader_set name (UMat4 m).
Definition setSampler2DValue (name : string) (slot : Z) :=
  shader_set name (USampler2D slot).

(** [m_basicMeshes->Draw...Mesh()] and [m_basicMeshes->Load...Mesh()] *)
Definition DrawMeshCall (m : mesh) : M unit := emit (DrawMesh m).
Definition LoadMeshCall (m : mesh) : M unit := emit (LoadMesh m).

(** ** Global names *)

Definition g_ModelName : string := "model".
Definition g_ColorValueName : string := "objectColor".
Definition g_TextureValueName : string := "objectTexture".
Definition g_UseTextureName : string := "bUseTexture".
Definition g_UseLightingName : string := "bUseLighting".

(** ** The array of texture slots

    [m_textureIDs[i]] names an element only inside the array; anywhere
    else the access is undefined behaviour. *)

Definition read_textureIDs (i : Z) : M TEXTURE_INFO :=
  a ← get m_textureIDs;
  if (0 <=? i)%Z then
    match a !! Z.to_nat i with
    | Some t => mret t
    | None => undefined_behaviour TextureSlotOutOfBounds
    end
  else undefined_behaviour TextureSlotOutOfBounds.

Definition write_textureIDs (i : Z) (f : TEXTURE_INFO -> TEXTURE_INFO)
  : M unit :=
  t ← read_textureIDs i;
  modify (fun s => set_textureIDs (<[Z.to_nat i := f t]> (m_textureIDs s)) s).

Definition with_ID (id : N) (t : TEXTURE_INFO) : TEXTURE_INFO :=
  {| ID := id; tag := tag t |}.
Definition with_tag (g : string) (t : TEXTURE_INFO) : TEXTURE_INFO :=
  {| ID := ID t; tag := g |}.

(** ** Texture loading *)

Definition CreateGLTexture (filename : string) (tag : string) : M bool :=
  buffer ← GetCurrentDirectoryA;
  cout [Str "Runtime working directory: "; Str buffer];;
  stbi_set_flip_vertically_on_load true;;
  cout [Str "Attemping to load image: "; Str filename];;
  image ← stbi_load filename;
  match image with
  | Some img =>
      cout [Str "Successfully loaded image:"; Str filename;
            Str ", width:"; Int (width img);
            Str ", height:"; Int (height img);
            Str ", channels:"; Int (colorChannels img)];;
      textureID ← glGenTextures;
      glBindTexture GL_TEXTURE_2D textureID;;
      glTexParameteri GL_TEXTURE_2D GL_TEXTURE_WRAP_S GL_REPEAT;;
      glTexParameteri GL_TEXTURE_2D GL_TEXTURE_WRAP_T GL_REPEAT;;
      glTexParameteri GL_TEXTURE_2D GL_TEXTURE_MIN_FILTER GL_LINEAR;;
      glTexParameteri GL_TEXTURE_2D GL_TEXTURE_MAG_FILTER GL_LINEAR;;
      let upload (internal fmt : GLenum) :=
        glTexImage2D GL_TEXTURE_2D 0
          {| internalformat := internal; tex_width := width img;
             tex_height := height img; border := 0; format := fmt;
             pixel_type := GL_UNSIGNED_BYTE; tex_pixels := pixels img |} in
      let register : M bool :=
        glGenerateMipmap GL_TEXTURE_2D;;
        stbi_image_free;;
        glBindTexture GL_TEXTURE_2D 0;;
        index ← get m_loadedTextures;
        write_textureIDs index (with_ID textureID);;
        write_textureIDs index (with_tag tag);;
        modify (fun s => set_loadedTextures (m_loadedTextures s + 1)%Z s);;
        mret true in
      if (colorChannels img =? 3)%Z then
        upload GL_RGB8 GL_RGB;; register
      else if (colorChannels img =? 4)%Z then
        upload GL_RGBA8 GL_RGBA;; register
      else
        cout [Str "Not implemented to handle image with ";
              Int (colorChannels img); Str " channels"];;
        mret false
  | None =>
      cout [Str "Could not load image:"; Str filename];;
      mret false
  end.

Definition BindGLTextures : M unit :=
  n ← get m_loadedTextures;
  for_loop n (fun i =>
    glActiveTexture i;;
    t ← read_textureIDs i;
    glBindTexture GL_TEXTURE_2D (ID t)).

Definition DestroyGLTextures : M unit :=
  n ← get m_loadedTextures;
  for_loop n (fun i =>
    name ← glGenTextures;
    write_textureIDs i (with_ID name)).

(** The search loop of [FindTextureID] and [FindTextureSlot]: [index]
    runs up to [m_loadedTextures] and stops at the first slot with the
    tag; [count] bounds the iterations left. *)
Fixpoint find_texture_from (count : nat) (index : Z) (tag0 : string)
  : M (option (Z * TEXTURE_INFO)) :=
  match count with
  | O => mret None
  | S count' =>
      t ← read_textureIDs index;
      if String.eqb (tag t) tag0 then mret (Some (index, t))
      else find_texture_from count' (index + 1)%Z tag0
  end.

(** [int textureID = m_textureIDs[index].ID]: the texture name is a
    [GLuint] (its address is handed to [glGenTextures]); as an [int] it
    is its 32 bits read as a signed number. *)
Definition GLuint_to_int (name : N) : Z :=
  let bits := (Z.of_N name mod 2 ^ 32)%Z in
  if (bits <? 2 ^ 31)%Z then bits else (bits - 2 ^ 32)%Z.

Definition FindTextureID (tag : string) : M Z :=
  n ← get m_loadedTextures;
  found ← find_texture_from (Z.to_nat n) 0 tag;
  mret (match found with
        | Some (_, t) => GLuint_to_int (ID t)
        | None => (-1)%Z
        end).

Definition FindTextureSlot (tag : string) : M Z :=
  n ← get m_loadedTextures;
  found ← find_texture_from (Z.to_nat n) 0 tag;
  mret (match found with
        | Some (index, _) => index
        | None => (-1)%Z
        end).

(** ** Materials *)

(** The [while] loop of [FindMaterial], over the materials from [index]
    on: the first one with the tag has its three values copied into
    [material]; the tag of [material] is not assigned. *)
Fixpoint FindMaterial_loop (rest : list OBJECT_MATERIAL) (tag : string)
  (material : OBJECT_MATERIAL) : OBJECT_MATERIAL :=
  match rest with
  | [] => material
  | m :: rest' =>
      if String.eqb (material_tag m) tag then
        {| diffuseColor := diffuseColor m;
           specularColor := specularColor m;
           shininess := shininess m;
           material_tag := material_tag material |}
      else FindMaterial_loop rest' tag material
  end.

(** Returns the [bool] and the final content of the reference argument. *)
Definition FindMaterial (tag : string) (material : OBJECT_MATERIAL)
  : M (bool * OBJECT_MATERIAL) :=
  mats ← get m_objectMaterials;
  if (length mats =? 0)%nat then mret (false, material)
  else mret (true, FindMaterial_loop mats tag material).

(** ** Shader state *)

Definition SetTransformations (scaleXYZ : vec3)
  (XrotationDegrees YrotationDegrees ZrotationDegrees : float)
  (positionXYZ offset : vec3) : M unit :=
  let scale := glm_scale scaleXYZ in
  let rotationX :=
    glm_rotate (glm_radians XrotationDegrees) (glm_vec3 1.0%Q 0.0%Q 0.0%Q) in
  let rotationY :=
    glm_rotate (glm_radians YrotationDegrees) (glm_vec3 0.0%Q 1.0%Q 0.0%Q) in
  let rotationZ :=
    glm_rotate (glm_radians ZrotationDegrees) (glm_vec3 0.0%Q 0.0%Q 1.0%Q) in
  let translation := glm_translate (vec3_add positionXYZ offset) in
  let modelView :=
    (translation * rotationZ * rotationY * rotationX * scale)%mat4 in
  p ← get m_pShaderManager;
  match p with
  | NULL => mret tt
  | NonNull => setMat4Value g_ModelName modelView
  end.

Definition SetShaderColor
  (redColorValue greenColorValue blueColorValue alphaValue : float)
  : M unit :=
  let currentColor :=
    glm_vec4 redColorValue greenColorValue blueColorValue alphaValue in
  p ← get m_pShaderManager;
  match p with
  | NULL => mret tt
  | NonNull =>
      setIntValue g_UseTextureName (Z.b2z false);;
      setVec4Value g_ColorValueName currentColor
  end.

Definition SetShaderTexture (textureTag : string) : M unit :=
  p ← get m_pShaderManager;
  match p with
  | NULL => mret tt
  | NonNull =>
      setIntValue g_UseTextureName (Z.b2z true);;
      textureID ← FindTextureSlot textureTag;
      setSampler2DValue g_TextureValueName textureID
  end.

Definition SetTextureUVScale (u v : float) : M unit :=
  p ← get m_pShaderManager;
  match p with
  | NULL => mret tt
  | NonNull => setVec2Value "UVscale" (glm_vec2 u v)
  end.

Definition SetShaderMaterial (materialTag : string) : M unit :=
  mats ← get m_objectMaterials;
  if (0 <? length mats)%nat then
    '(bReturn, material) ←
      FindMaterial materialTag OBJECT_MATERIAL_uninitialised;
    if (bReturn : bool) then
      setVec3Value "material.diffuseColor" (diffuseColor material);;
      setVec3Value "material.specularColor" (specularColor material);;
      setFloatValue "material.shininess" (shininess material)
    else (mret tt : M unit)
  else mret tt.

(** ** Preparing the scene *)

Section Scene.

Local Open Scope Q_scope.
Local Open Scope float_scope.

(** The default arguments that SceneManager.h gives to the last parameter
    of [SetTransformations] and of [DrawKey]; the header is not part of
    the sources, so both are parameters. *)
Variable default_offset : vec3.
Variable default_keyScale : vec3.

Definition push_back_material (m : OBJECT_MATERIAL) : M unit :=
  modify (fun s => set_objectMaterials (m_objectMaterials s ++ [m]) s).

Definition DefineObjectMaterials : M unit :=
  let cementMaterial :=
    {| diffuseColor := glm_vec3 0.5 0.5 0.5;
       specularColor := glm_vec3 0.4 0.4 0.4;
       shininess := 0.5;
       material_tag := "cement" |} in
  push_back_material cementMaterial;;
  let plasticMaterial :=
    {| diffuseColor := glm_vec3 1.0 1.0 1.0;
       specularColor := glm_vec3 0.2 0.2 0.2;
       shininess := 2.0;
       material_tag := "plastic" |} in
  push_back_material plasticMaterial.

Definition SetupSceneLights : M unit :=
  setBoolValue g_UseLightingName true;;
  setVec3Value "pointLights[0].position" (glm_vec3 0.0 9.5 2.5);;
  setVec3Value "pointLights[0].ambient" (glm_vec3 0.15 0.15 0.15);;
  setVec3Value "pointLights[0].diffuse" (glm_vec3 0.6 0.6 0.6);;
  setVec3Value "pointLights[0].specular" (glm_vec3 0.5 0.5 0.5);;
  setFloatValue "pointLights[0].constant" 1.0;;
  setFloatValue "pointLights[0].linear" 0.045;;
  setFloatValue "pointLights[0].quadratic" 0.0075;;
  setBoolValue "pointLights[0].bActive" true;;
  setVec3Value "pointLights[1].position" (glm_vec3 (-1.25) 3.5 3.0);;
  setVec3Value "pointLights[1].ambient" (glm_vec3 0.05 0.1 0.2);;
  setVec3Value "pointLights[1].diffuse" (glm_vec3 0.2 0.4 0.8);;
  setVec3Value "pointLights[1].specular" (glm_vec3 0.1 0.2 0.4);;
  setFloatValue "pointLights[1].constant" 1.0;;
  setFloatValue "pointLights[1].linear" 0.22;;
  setFloatValue "pointLights[1].quadratic" 0.2;;
  setBoolValue "pointLights[1].bActive" true;;
  setBoolValue g_UseLightingName true.

Definition PrepareScene : M unit :=
  DefineObjectMaterials;;
  SetupSceneLights;;
  LoadMeshCall PlaneMesh;;
  LoadMeshCall BoxMesh;;
  LoadMeshCall PrismMesh;;
  LoadMeshCall CylinderMesh;;
  CreateGLTexture "textures/computer_case_texture_2.jpg" "ComputerCase";;
  CreateGLTexture "textures/crt_on_texture_1.jpg" "CRTScreen";;
  CreateGLTexture "textures/table_texture_1.jpeg" "TableTexture";;
  BindGLTextures.

(** ** Rendering

    The bodies of [RenderScene] and of the [Draw...] methods are straight
    lines of calls to the six methods below, so each body is kept as the
    list of its calls, in order. *)

Inductive call : Type :=
| Call_SetTransformations (scaleXYZ : vec3)
    (XrotationDegrees YrotationDegrees ZrotationDegrees : float)
    (positionXYZ offset : vec3)
| Call_SetShaderColor (r g b a : float)
| Call_SetShaderTexture (textureTag : string)
| Call_SetTextureUVScale (u v : float)
| Call_SetShaderMaterial (materialTag : string)
| Call_DrawMesh (m : mesh).

Definition exec (c : call) : M unit :=
  match c with
  | Call_SetTransformations s x y z p o => SetTransformations s x y z p o
  | Call_SetShaderColor r g b a => SetShaderColor r g b a
  | Call_SetShaderTexture t => SetShaderTexture t
  | Call_SetTextureUVScale u v => SetTextureUVScale u v
  | Call_SetShaderMaterial t => SetShaderMaterial t
  | Call_DrawMesh m => DrawMeshCall m
  end.

Fixpoint run (body : list call) : M unit :=
  match body with
  | [] => mret tt
  | c :: body' => exec c;; run body'
  end.

Definition DrawMainBody : list call :=
  let scaleXYZ := glm_vec3 7.0 5.0 5.0 in
  let positionXYZ := glm_vec3 0.0 3.5 0.0 in
  [ Call_SetTransformations scaleXYZ 0 0 0 positionXYZ default_offset;
    Call_SetShaderTexture "ComputerCase";
    Call_SetShaderMaterial "plastic";
    Call_SetTextureUVScale 2.0 2.0;
    Call_DrawMesh BoxMesh ].

Definition DrawBackBase : list call :=
  let scaleXYZ := glm_vec3 7.0 2.5 3.0 in
  let positionXYZ := glm_vec3 0.0 1.25 (-1.0) in
  [ Call_SetTransformations scaleXYZ 0 0 0 positionXYZ default_offset;
    Call_SetShaderTexture "ComputerCase";
    Call_SetShaderMaterial "plastic";
    Call_SetTextureUVScale 2.0 2.0;
    Call_DrawMesh BoxMesh ].

Definition DrawFeet : list call :=
  (* Left Front Foot Box *)
  let scaleXYZ := glm_vec3 1.0 1.0 0.2 in
  let positionXYZ := glm_vec3 (-3.0) 0.5 0.6 in
  [ Call_SetTransformations scaleXYZ 0 0 0 positionXYZ default_offset;
    Call_SetShaderTexture "ComputerCase";
    Call_SetShaderMaterial "plastic";
    Call_SetTextureUVScale 2.0 2.0;
    Call_DrawMesh BoxMesh ] ++
  (* Left Front Foot *)
  let scaleXYZ := glm_vec3 1.0 1.0 0.5 in
  let positionXYZ := glm_vec3 (-3.0) 0.25 0.7 in
  [ Call_SetTransformations scaleXYZ (-90.0) 90.0 0.0 positionXYZ
      default_offset;
    Call_SetShaderTexture "ComputerCase";
    Call_SetShaderMaterial "plastic";
    Call_SetTextureUVScale 2.0 2.0;
    Call_DrawMesh PrismMesh ] ++
  (* Right Front Foot Box *)
  let scaleXYZ := glm_vec3 1.0 1.0 0.2 in
  let positionXYZ := glm_vec3 3.0 0.5 0.6 in
  [ Call_SetTransformations scaleXYZ 0 0 0 positionXYZ default_offset;
    Call_SetShaderTexture "ComputerCase";
    Call_SetShaderMaterial "plastic";
    Call_SetTextureUVScale 2.0 2.0;
    Call_DrawMesh BoxMesh ] ++
  (* Right Front Foot Wedge *)
  let scaleXYZ := glm_vec3 1.0 1.0 0.5 in
  let positionXYZ := glm_vec3 3.0 0.25 0.7 in
  [ Call_SetTransformations scaleXYZ (-90.0) 90.0 0.0 positionXYZ
      default_offset;
    Call_SetShaderTexture "ComputerCase";
    Call_SetShaderMaterial "plastic";
    Call_SetTextureUVScale 2.0 2.0;
    Call_DrawMesh PrismMesh ].

Definition DrawFloppyDrive : list call :=
  (* Floppy Drive Indentation *)
  let scaleXYZ := glm_vec3 2.0 2.5 0.2 in
  let positionXYZ := glm_vec3 2.0 3.5 2.6 in
  [ Call_SetTransformations scaleXYZ 0 0 0 positionXYZ default_offset;
    Call_SetShaderTexture "ComputerCase";
    Call_SetShaderMaterial "plastic";
    Call_SetTextureUVScale 2.0 2.0;
    Call_DrawMesh BoxMesh ] ++
  (* Upper Floppy Slot *)
  let scaleXYZ := glm_vec3 1.5 0.1 0.05 in
  let positionXYZ := glm_vec3 2.0 4.4 2.7 in
  [ Call_SetTransformations scaleXYZ 0 0 0 positionXYZ default_offset;
    Call_SetShaderColor 0.1 0.1 0.1 1;
    Call_DrawMesh BoxMesh ] ++
  (* Lower Floppy Slot *)
  let scaleXYZ := glm_vec3 1.5 0.1 0.05 in
  let positionXYZ := glm_vec3 2.0 2.8 2.7 in
  [ Call_SetTransformations scaleXYZ 0 0 0 positionXYZ default_offset;
    Call_SetShaderColor 0.1 0.1 0.1 1;
    Call_DrawMesh BoxMesh ].

Definition DrawCRTPanel : list call :=
  let scaleXYZ := glm_vec3 3.5 2.8 0.2 in
  let positionXYZ := glm_vec3 (-1.25) 3.5 2.6 in
  [ Call_SetTransformations scaleXYZ 0 0 0 positionXYZ default_offset;
    Call_SetShaderTexture "CRTScreen";
    Call_SetTextureUVScale 1.0 1.0;
    Call_DrawMesh BoxMesh ].

Definition DrawProFile : list call :=
  (* ProFile Main Body *)
  let scaleXYZ := glm_vec3 6.5 1.0 4.0 in
  let positionXYZ := glm_vec3 0.0 6.7 0.0 in
  [ Call_SetTransformations scaleXYZ 0 0 0 positionXYZ default_offset;
    Call_SetShaderTexture "ComputerCase";
    Call_SetShaderMaterial "plastic";
    Call_SetTextureUVScale 2.0 2.0;
    Call_DrawMesh BoxMesh ] ++
  (* Rubber Feet *)
  let footScale := glm_vec3 0.3 0.2 0.3 in
  let baseY : float := 6.10 in
  let xInset : float := 2.75 in
  let zInset : float := 1.5 in
  [ (* Top-Left Foot *)
    Call_SetTransformations footScale 0 0 0
      (glm_vec3 (- xInset) baseY (- zInset)) default_offset;
    Call_SetShaderColor 0.05 0.05 0.05 1;
    Call_DrawMesh BoxMesh;
    (* Top-Right Foot *)
    Call_SetTransformations footScale 0 0 0
      (glm_vec3 xInset baseY (- zInset)) default_offset;
    Call_SetShaderColor 0.05 0.05 0.05 1;
    Call_DrawMesh BoxMesh;
    (* Bottom-Left Foot *)
    Call_SetTransformations footScale 0 0 0
      (glm_vec3 (- xInset) baseY zInset) default_offset;
    Call_SetShaderColor 0.05 0.05 0.05 1;
    Call_DrawMesh BoxMesh;
    (* Bottom-Right Foot *)
    Call_SetTransformations footScale 0 0 0
      (glm_vec3 xInset baseY zInset) default_offset;
    Call_SetShaderColor 0.05 0.05 0.05 1;
    Call_DrawMesh BoxMesh ].

Definition DrawMouse : list call :=
  (* Mouse Base *)
  let baseScale := glm_vec3 1.5 0.2 2.5 in
  let basePosition := glm_vec3 6.0 0.1 4.0 in
  (* Mouse Top *)
  let topScale := glm_vec3 1.5 0.5 2.5 in
  let topPosition := glm_vec3 6.0 0.1 4.0 in
  let slopeDegrees : float := 7.0 in
  (* Mouse Button *)
  let buttonScale := glm_vec3 1.2 0.05 0.5 in
  let buttonPosition := glm_vec3 6.0 0.45 3.3 in
  [ Call_SetTransformations baseScale 0.0 0.0 0.0 basePosition default_offset;
    Call_SetShaderColor 0.96 0.91 0.76 1.0;
    Call_DrawMesh BoxMesh;
    Call_SetTransformations topScale slopeDegrees 0.0 0.0 topPosition
      default_offset;
    Call_SetShaderColor 0.96 0.91 0.76 1.0;
    Call_DrawMesh BoxMesh;
    Call_SetTransformations buttonScale slopeDegrees 0.0 0.0 buttonPosition
      default_offset;
    Call_SetShaderColor 0.2 0.2 0.2 1.0;
    Call_DrawMesh BoxMesh ].

Definition DrawMouseCable : list call :=
  let scaleCable := glm_vec3 0.05 0.5 0.05 in
  [ Call_SetShaderColor 0.1 0.1 0.1 1.0 ] ++
  (* Segment 1 *)
  let scaleCable := vec3_set_y scaleCable 7.5 in
  [ Call_SetTransformations scaleCable 90.0 0.0 0.25 (glm_vec3 6.0 0.0 (-3.0))
      default_offset;
    Call_DrawMesh CylinderMesh ] ++
  (* Segment 2 *)
  let scaleCable := vec3_set_y scaleCable 1.0 in
  [ Call_SetTransformations scaleCable 90.0 0.0 0.25
      (glm_vec3 1.25 0.0 (-3.0)) default_offset;
    Call_DrawMesh CylinderMesh ] ++
  (* Segment 3 *)
  let scaleCable := vec3_set_y scaleCable 4.85 in
  [ Call_SetTransformations scaleCable 0.0 0.0 90.0
      (glm_vec3 6.05 0.0 (-3.0)) default_offset;
    Call_DrawMesh CylinderMesh ].

Definition DrawKey (x y z slopeDegrees : float) (keyScale : vec3)
  : list call :=
  [ Call_SetTransformations keyScale slopeDegrees 0.0 0.0 (glm_vec3 x y z)
      default_offset;
    Call_SetShaderMaterial "plastic";
    Call_SetShaderColor 0.2 0.2 0.2 1.0;
    Call_DrawMesh BoxMesh ].

(** The inner loop of the special bottom row, from key [i] on: one
    [DrawKey] call per width, [xCursor] carried along. *)
Fixpoint DrawKeyboard_special_row (widths : list float)
  (xCursor customRowY customZ slopeDegrees spacing : float)
  : list (list call) :=
  match widths with
  | [] => []
  | keyWidth :: widths' =>
      let keyScale := glm_vec3 keyWidth 0.1 0.3 in
      DrawKey (xCursor + keyWidth / 2.0) customRowY customZ slopeDegrees
        keyScale
      :: DrawKeyboard_special_row widths' (xCursor + (keyWidth + spacing))
           customRowY customZ slopeDegrees spacing
  end.

(** The loop nest of [DrawKeyboard]: the [DrawKey] calls it makes, one
    element per call, in the order of the iterations. *)
Definition DrawKeyboard_keys : list (list call) :=
  let slopeDegrees : float := 7.0 in
  let rows : Z := 5%Z in
  let cols : Z := 14%Z in
  let keySpacingX : float := 0.35 in
  let keySpacingZ : float := 0.35 in
  let gridStartX : float := - (FOfInt (cols - 1) * keySpacingX) / 2.0 in
  let gridStartZ : float := 5.3 in
  let y : float := 0.55 in
  row ← seqZ 0%Z rows;
  if (row <? 4)%Z then
    col ← seqZ 0%Z cols;
    let x := gridStartX + FOfInt col * keySpacingX in
    let z := gridStartZ - FOfInt row * keySpacingZ in
    let adjustedY := y in
    let adjustedY := if (row =? 3)%Z then adjustedY + 0.1 else adjustedY in
    let adjustedY := if (row =? 2)%Z then adjustedY + 0.06 else adjustedY in
    let adjustedY := if (row =? 1)%Z then adjustedY + 0.02 else adjustedY in
    let adjustedY := if (row =? 0)%Z then adjustedY - 0.02 else adjustedY in
    [ DrawKey x adjustedY z slopeDegrees default_keyScale ]
  else
    let customRowY := y - 0.05 in
    let customZ := gridStartZ + keySpacingZ * 1.2 in
    let slopeDegrees : float := 7.0 in
    let spacing : float := 0.05 in
    let widths : list float :=
      [ FLit 0.3; FLit 0.6; FLit 1.8; FLit 0.6; FLit 0.3 ] in
    let totalKeyWidth : float := 0.3 + 0.6 + 1.8 + 0.6 + 0.3 in
    let totalSpacing := spacing * 4 in
    let totalRowWidth := totalKeyWidth + totalSpacing in
    let xCursor := - totalRowWidth / 2.0 in
    DrawKeyboard_special_row widths xCursor customRowY customZ slopeDegrees
      spacing.

Definition DrawKeyboard : list call :=
  (* BASE *)
  let baseScale := glm_vec3 5.0 0.5 2.0 in
  let basePosition := glm_vec3 0.0 0.1 5.0 in
  (* SLOPED UPPER HALF *)
  let topScale := glm_vec3 5.0 0.4 2.0 in
  let topPosition := glm_vec3 0.0 0.35 5.0 in
  let slopeDegrees : float := 7.0 in
  [ Call_SetTransformations baseScale 0.0 0.0 0.0 basePosition default_offset;
    Call_SetShaderMaterial "plastic";
    Call_SetShaderColor 0.96 0.91 0.76 1.0;
    Call_DrawMesh BoxMesh;
    Call_SetTransformations topScale slopeDegrees 0.0 0.0 topPosition
      default_offset;
    Call_SetShaderMaterial "plastic";
    Call_SetShaderColor 0.96 0.91 0.76 1.0;
    Call_DrawMesh BoxMesh ] ++
  (* Letter section keys *)
  concat DrawKeyboard_keys.

Definition DrawKeyboardCable : list call :=
  let cableThickness := glm_vec3 0.05 0.5 0.05 in
  (* Segment 1 *)
  let backCenter := glm_vec3 0.0 0.1 3.5 in
  (* Segment 2 *)
  let nextCableScale := glm_vec3 0.05 2.02 0.05 in
  let segment2Center := glm_vec3 2.0 0.1 3.5 in
  (* Segment 3 *)
  let segment3Scale := glm_vec3 0.05 3.0 0.05 in
  let segment3Center := glm_vec3 2.0 0.1 0.5 in
  [ Call_SetShaderColor 0.1 0.1 0.1 1.0;
    Call_SetTransformations cableThickness 90.0 0.0 0.0 backCenter
      default_offset;
    Call_DrawMesh CylinderMesh;
    Call_SetTransformations nextCableScale 0.0 0.0 90.0 segment2Center
      default_offset;
    Call_DrawMesh CylinderMesh;
    Call_SetTransformations segment3Scale 90.0 0.0 0.0 segment3Center
      default_offset;
    Call_DrawMesh CylinderMesh ].

Definition RenderScene : list call :=
  let scaleXYZ := glm_vec3 20.0 1.0 10.0 in
  let XrotationDegrees : float := 0.0 in
  let YrotationDegrees : float := 0.0 in
  let ZrotationDegrees : float := 0.0 in
  let positionXYZ := glm_vec3 0.0 0.0 0.0 in
  [ Call_SetTransformations scaleXYZ XrotationDegrees YrotationDegrees
      ZrotationDegrees positionXYZ default_offset;
    Call_SetShaderTexture "TableTexture";
    Call_SetShaderMaterial "cement";
    Call_DrawMesh PlaneMesh ] ++
  DrawMainBody ++
  DrawBackBase ++
  DrawFeet ++
  DrawFloppyDrive ++
  DrawCRTPanel ++
  DrawProFile ++
  DrawMouse ++
  DrawMouseCable ++
  DrawKeyboard ++
  DrawKeyboardCable.

End Scene.

(** * Vocabulary of the properties *)

(** The state a run ends in (the start state if the run is undefined). *)
Definition state_after {A} (m : M A) (s : State) : State :=
  match m s with
  | Done _ s' => s'
  | Undefined _ => s
  end.

(** ** Texture slots *)

(** [m_textureIDs[m_loadedTextures]] names an element of the array. *)
Definition slot_in_bounds (s : State) : Prop :=
  (0 <= m_loadedTextures s)%Z /\
  (Z.to_nat (m_loadedTextures s) < length (m_textureIDs s))%nat.

(** The file decodes, to an image of three or of four channels. *)
Definition decodes_supported (s : State) (filename : string) : bool :=
  match image_files s !! filename with
  | Some img => (colorChannels img =? 3)%Z || (colorChannels img =? 4)%Z
  | None => false
  end.

(** The line [CreateGLTexture] ends its console output with. *)
Definition outcome_message (s : State) (filename : string) : list piece :=
  match image_files s !! filename with
  | Some img =>
      if (colorChannels img =? 3)%Z || (colorChannels img =? 4)%Z then
        [Str "Successfully loaded image:"; Str filename;
         Str ", width:"; Int (width img);
         Str ", height:"; Int (height img);
         Str ", channels:"; Int (colorChannels img)]
      else
        [Str "Not implemented to handle image with ";
         Int (colorChannels img); Str " channels"]
  | None => [Str "Could not load image:"; Str filename]
  end.

(** The events of a load, up to the call of the decoder. *)
Definition load_prologue (s : State) (filename : string) : list event :=
  [ Cout [Str "Runtime working directory: "; Str (working_directory s)];
    Stbi_set_flip_vertically_on_load true;
    Cout [Str "Attemping to load image: "; Str filename];
    Stbi_load filename ].

(** ** States to run the code on *)

Definition sample_image (channels : Z) : stb_image :=
  {| width := 2; height := 1; colorChannels := channels;
     pixels := [255; 128; 0; 255; 128; 0]%N |}.

Definition sample_state : State :=
  {| m_pShaderManager := NonNull;
     m_textureIDs := replicate 16 {| ID := 0; tag := "" |};
     m_loadedTextures := 0;
     m_objectMaterials := [];
     working_directory := "C:/scene";
     image_files :=
       {[ "textures/computer_case_texture_2.jpg" := sample_image 3;
          "textures/crt_on_texture_1.jpg" := sample_image 4;
          "textures/table_texture_1.jpeg" := sample_image 3;
          "textures/grey.png" := sample_image 1 ]};
     gl := {| gl_next_name := 1; gl_active_texture := 0;
              gl_texture_binding := ∅; gl_texture_image := ∅ |};
     uniforms := ∅;
     trace := [] |}.

(** [sample_state] once all sixteen slots are taken. *)
Definition sample_state_full : State :=
  set_loadedTextures MAX_TEXTURES sample_state.

(** ** Shader state *)

(** The matrix the specification gives for the uniform "model":
    translation, then the rotations about z, y and x (angles given in
    degrees), then the scale. *)
Definition claimed_model_matrix (scaleXYZ : vec3)
  (XrotationDegrees YrotationDegrees ZrotationDegrees : float)
  (positionXYZ offset : vec3) : mat4 :=
  let Rx := glm_rotate (glm_radians XrotationDegrees)
              (glm_vec3 1.0%Q 0.0%Q 0.0%Q) in
  let Ry := glm_rotate (glm_radians YrotationDegrees)
              (glm_vec3 0.0%Q 1.0%Q 0.0%Q) in
  let Rz := glm_rotate (glm_radians ZrotationDegrees)
              (glm_vec3 0.0%Q 0.0%Q 1.0%Q) in
  (glm_translate (vec3_add positionXYZ offset) * Rz * Ry * Rx
   * glm_scale scaleXYZ)%mat4.

(** No material of the list carries the tag. *)
Definition no_material_tagged (tag : string) (mats : list OBJECT_MATERIAL)
  : Prop :=
  forall m, m ∈ mats -> material_tag m ≠ tag.

(** [sample_state] with the two materials of [DefineObjectMaterials]. *)
Definition sample_state_materials : State :=
  state_after DefineObjectMaterials sample_state.

(** [sample_state] for a scene manager built on a null shader manager. *)
Definition sample_state_null : State :=
  {| m_pShaderManager := NULL;
     m_textureIDs := m_textureIDs sample_state;
     m_loadedTextures := m_loadedTextures sample_state;
     m_objectMaterials := m_objectMaterials sample_state;
     working_directory := working_directory sample_state;
     image_files := image_files sample_state;
     gl := gl sample_state; uniforms := uniforms sample_state;
     trace := trace sample_state |}.

(** A write to a uniform of [pointLights[0]], of [pointLights[1]], or to
    the lighting switch. *)
Definition is_light_write (e : event) : Prop :=
  match e with
  | SetUniform name _ =>
      name = "bUseLighting" \/
      String.prefix "pointLights[0]." name = true \/
      String.prefix "pointLights[1]." name = true
  | _ => False
  end.

(** The name is written by none of the events. *)
Definition not_written (name : string) (delta : list event) : Prop :=
  forall v, SetUniform name v ∉ delta.

(** ** Effects as events

    What a list of events does to the state: each one joins the trace,
    and a write to a uniform also sets it. *)
Definition replay_event (s : State) (e : event) : State :=
  let s' := set_trace (trace s ++ [e]) s in
  match e with
  | SetUniform name v => set_uniforms (<[name := v]> (uniforms s)) s'
  | _ => s'
  end.

Definition replay (es : list event) (s : State) : State :=
  foldl replay_event s es.

(** The value the last write to [name] among the events gave it. *)
Fixpoint last_write (name : string) (es : list event) : option uniform_value :=
  match es with
  | [] => None
  | e :: es' =>
      match last_write name es' with
      | Some v => Some v
      | None =>
          match e with
          | SetUniform n v => if String.eqb n name then Some v else None
          | _ => None
          end
      end
  end.

(** ** Texture names *)

(** Every texture object that holds an image carries a name that
    [glGenTextures] has handed out. *)
Definition gl_names_generated (s : State) : Prop :=
  forall name, (gl_next_name (gl s) <= name)%N ->
    gl_texture_image (gl s) !! name = None.

(** The calls of [glGenTextures] that hand out [count] names from
    [first] on. *)
Definition glGenTextures_calls (first : N) (count : nat) : list event :=
  (fun k => GLCall (glGenTextures_call (first + N.of_nat k))) <$> seq 0 count.

(** [sample_state] after the first two loads of [PrepareScene]. *)
Definition sample_state_two_textures : State :=
  state_after
    (CreateGLTexture "textures/computer_case_texture_2.jpg" "ComputerCase";;
     CreateGLTexture "textures/crt_on_texture_1.jpg" "CRTScreen")
    sample_state.

(** ** Rendering *)

(** The state [RenderScene] is meant to run in: a shader manager is
    there, and the loaded textures fit the array of slots. *)
Definition renderable (s : State) : Prop :=
  m_pShaderManager s = NonNull /\
  (Z.to_nat (m_loadedTextures s) <= length (m_textureIDs s))%nat.

(** The search of [FindTextureSlot] on the array itself. *)
Fixpoint find_texture_in (slots : list TEXTURE_INFO) (count : nat)
  (index : Z) (tag0 : string) : option (Z * TEXTURE_INFO) :=
  match count with
  | O => None
  | S count' =>
      match slots !! Z.to_nat index with
      | Some t =>
          if String.eqb (tag t) tag0 then Some (index, t)
          else find_texture_in slots count' (index + 1)%Z tag0
      | None => None
      end
  end.

Definition texture_slot (s : State) (tag0 : string) : Z :=
  match find_texture_in (m_textureIDs s) (Z.to_nat (m_loadedTextures s)) 0
          tag0 with
  | Some (index, _) => index
  | None => (-1)%Z
  end.

(** The events of one call, in a renderable state. *)
Definition call_events (s : State) (c : call) : list event :=
  match c with
  | Call_SetTransformations scaleXYZ x y z positionXYZ offset =>
      [SetUniform "model"
         (UMat4 (claimed_model_matrix scaleXYZ x y z positionXYZ offset))]
  | Call_SetShaderColor r g b a =>
      [SetUniform "bUseTexture" (UInt 0);
       SetUniform "objectColor" (UVec4 (glm_vec4 r g b a))]
  | Call_SetShaderTexture t =>
      [SetUniform "bUseTexture" (UInt 1);
       SetUniform "objectTexture" (USampler2D (texture_slot s t))]
  | Call_SetTextureUVScale u v =>
      [SetUniform "UVscale" (UVec2 (glm_vec2 u v))]
  | Call_SetShaderMaterial t =>
      match m_objectMaterials s with
      | [] => []
      | mats =>
          let material :=
            FindMaterial_loop mats t OBJECT_MATERIAL_uninitialised in
          [SetUniform "material.diffuseColor" (UVec3 (diffuseColor material));
           SetUniform "material.specularColor"
             (UVec3 (specularColor material));
           SetUniform "material.shininess" (UFloat (shininess material))]
      end
  | Call_DrawMesh m => [DrawMesh m]
  end.

Definition body_events (s : State) (body : list call) : list event :=
  flat_map (call_events s) body.

(** The draw calls among the events, and among the calls of a body. *)
Definition draw_calls (es : list event) : list mesh :=
  omap (fun e => match e with DrawMesh m => Some m | _ => None end) es.

Definition body_draw_calls (body : list call) : list mesh :=
  omap (fun c => match c with Call_DrawMesh m => Some m | _ => None end) body.

(** One draw call for each primitive of the scene, in drawing order. *)
Definition scene_draw_calls : list mesh :=
  [PlaneMesh] ++                                   (* the plane *)
  [BoxMesh] ++                                     (* main body *)
  [BoxMesh] ++                                     (* back base *)
  [BoxMesh; PrismMesh; BoxMesh; PrismMesh] ++      (* feet *)
  [BoxMesh; BoxMesh; BoxMesh] ++                   (* floppy drive *)
  [BoxMesh] ++                                     (* CRT panel *)
  replicate 5 BoxMesh ++                           (* ProFile and its feet *)
  replicate 3 BoxMesh ++                           (* mouse *)
  replicate 3 CylinderMesh ++                      (* mouse cable *)
  replicate 2 BoxMesh ++                           (* keyboard body *)
  replicate 61 BoxMesh ++                          (* keyboard keys *)
  replicate 3 CylinderMesh.                        (* keyboard cable *)

(** How the next mesh will be shaded. *)
Inductive shading : Type :=
| Textured (textureTag : string)
| Coloured (c : vec4).

Definition shading_after (sh : option shading) (c : call) : option shading :=
  match c with
  | Call_SetShaderColor r g b a => Some (Coloured (glm_vec4 r g b a))
  | Call_SetShaderTexture textureTag => Some (Textured textureTag)
  | _ => sh
  end.

(** The shading the last [SetShaderColor] or [SetShaderTexture] of the
    calls chose. *)
Definition last_shading (body : list call) : option shading :=
  foldl shading_after None body.

Definition transform_after (m : option mat4) (c : call) : option mat4 :=
  match c with
  | Call_SetTransformations scaleXYZ x y z positionXYZ offset =>
      Some (claimed_model_matrix scaleXYZ x y z positionXYZ offset)
  | Call_DrawMesh _ => None
  | _ => m
  end.

(** The matrix set by [SetTransformations] since the last draw call. *)
Definition pending_transform (body : list call) : option mat4 :=
  foldl transform_after None body.

Definition is_some {A} (o : option A) : bool :=
  match o with Some _ => true | None => false end.

(** Values for the two default arguments of the header. *)
Definition sample_offset : vec3 := glm_vec3 0.0%Q 0.0%Q 0.0%Q.
Definition sample_keyScale : vec3 := glm_vec3 0.3%Q 0.1%Q 0.3%Q.

(** [sample_state] after [PrepareScene]. *)
Definition sample_state_prepared : State :=
  state_after PrepareScene sample_state.

(** The number of keyboard keys the specification counts. *)
Definition claimed_keyboard_keys : nat := 63.

(** The value of "bUseTexture" that goes with a shading. *)
Definition bUseTexture_of (sh : shading) : uniform_value :=
  match sh with
  | Textured _ => UInt (Z.b2z true)
  | Coloured _ => UInt (Z.b2z false)
  end.

(** * Further vocabulary *)

(** No slot among the first [n] of the array carries the tag. *)
Definition no_texture_tagged (tag0 : string) (n : nat)
  (slots : list TEXTURE_INFO) : Prop :=
  forall j t, (j < n)%nat -> slots !! j = Some t -> tag t ≠ tag0.

(** The loaded textures fit the array of slots. *)
Definition textures_fit (s : State) : Prop :=
  (Z.to_nat (m_loadedTextures s) <= length (m_textureIDs s))%nat.

(** [sample_state_prepared] with a count beyond the sixteen slots. *)
Definition sample_state_overrun : State :=
  set_loadedTextures 17 sample_state_prepared.

(** The image [CreateGLTexture] uploads for a decoded file. *)
Definition uploaded_image (img : stb_image) : tex_image :=
  {| internalformat :=
       if (colorChannels img =? 3)%Z then GL_RGB8 else GL_RGBA8;
     tex_width := width img; tex_height := height img; border := 0;
     format := if (colorChannels img =? 3)%Z then GL_RGB else GL_RGBA;
     pixel_type := GL_UNSIGNED_BYTE; tex_pixels := pixels img |}.

(** The members of the scene manager besides the texture slots, the
    files and the uniforms are the same in both states. *)
Definition same_surroundings (s s' : State) : Prop :=
  m_pShaderManager s' = m_pShaderManager s /\
  m_objectMaterials s' = m_objectMaterials s /\
  working_directory s' = working_directory s /\
  image_files s' = image_files s /\
  uniforms s' = uniforms s.

(** The calls [BindGLTextures] makes for the [count] slots from [first]
    on: the unit is chosen, then the texture of the slot is bound. *)
Definition BindGLTextures_calls (slots : list TEXTURE_INFO)
  (first count : nat) : list event :=
  flat_map
    (fun k =>
       match slots !! k with
       | Some t =>
           [GLCall (glActiveTexture_call (Z.of_nat k));
            GLCall (glBindTexture_call GL_TEXTURE_2D (ID t))]
       | None => []
       end)
    (seq first count).

(** The two materials [DefineObjectMaterials] appends. *)
Definition cementMaterial : OBJECT_MATERIAL :=
  {| diffuseColor := glm_vec3 0.5%Q 0.5%Q 0.5%Q;
     specularColor := glm_vec3 0.4%Q 0.4%Q 0.4%Q;
     shininess := 0.5%Q;
     material_tag := "cement" |}.

Definition plasticMaterial : OBJECT_MATERIAL :=
  {| diffuseColor := glm_vec3 1.0%Q 1.0%Q 1.0%Q;
     specularColor := glm_vec3 0.2%Q 0.2%Q 0.2%Q;
     shininess := 2.0%Q;
     material_tag := "plastic" |}.

(** [sample_state_null] with the two materials defined. *)
Definition sample_state_null_materials : State :=
  state_after DefineObjectMaterials sample_state_null.

(** A scene manager whose one loaded texture has the largest name a
    [GLuint] holds. *)
Definition sample_state_max_name : State :=
  set_loadedTextures 1
    (set_textureIDs
       (<[0%nat := {| ID := 4294967295; tag := "max" |}]>
          (m_textureIDs sample_state))
       sample_state).

(** The first material with the tag, as the loop of [FindMaterial] meets
    it. *)
Definition first_material (tag0 : string) (mats : list OBJECT_MATERIAL)
  : option OBJECT_MATERIAL :=
  List.find (fun m => String.eqb (material_tag m) tag0) mats.

(** [material] after the three assignments from [m]. *)
Definition with_values_of (m material : OBJECT_MATERIAL) : OBJECT_MATERIAL :=
  {| diffuseColor := diffuseColor m;
     specularColor := specularColor m;
     shininess := shininess m;
     material_tag := material_tag material |}.

(** The events of a call when there is neither a shader manager nor a
    material. *)
Definition call_draws (c : call) : list event :=
  match c with
  | Call_DrawMesh m => [DrawMesh m]
  | _ => []
  end.

(** The array of slots after a load into slot [i] that succeeded or
    not. *)
Definition loaded_into (ok : bool) (i : Z) (t : TEXTURE_INFO)
  (slots : list TEXTURE_INFO) : list TEXTURE_INFO :=
  if ok then <[Z.to_nat i := t]> slots else slots.

(** The index [FindTextureSlot] gives for a texture that [before] earlier
    loads precede, -1 when its own load failed. *)
Definition slot_if (ok : bool) (before : Z) : Z :=
  if ok then before else (-1)%Z.

(** [sample_state] without the file of the first texture of the scene. *)
Definition sample_state_missing_file : State :=
  {| m_pShaderManager := m_pShaderManager sample_state;
     m_textureIDs := m_textureIDs sample_state;
     m_loadedTextures := m_loadedTextures sample_state;
     m_objectMaterials := m_objectMaterials sample_state;
     working_directory := working_directory sample_state;
     image_files :=
       delete "textures/computer_case_texture_2.jpg"
         (image_files sample_state);
     gl := gl sample_state; uniforms := uniforms sample_state;
     trace := trace sample_state |}.

(** The arguments of the last [SetTextureUVScale] among the calls. *)
Definition uvscale_after (cur : option vec2) (c : call) : option vec2 :=
  match c with
  | Call_SetTextureUVScale u v => Some (glm_vec2 u v)
  | _ => cur
  end.

Definition last_uvscale (body : list call) : option vec2 :=
  foldl uvscale_after None body.

(** The tag of the last [SetShaderMaterial] among the calls. *)
Definition material_after (cur : option string) (c : call) : option string :=
  match c with
  | Call_SetShaderMaterial t => Some t
  | _ => cur
  end.

Definition last_material (body : list call) : option string :=
  foldl material_after None body.

(** The material tag in force when the scene draws a mesh. *)
Definition scene_material (m : mesh) : string :=
  match m with
  | PlaneMesh => "cement"
  | _ => "plastic"
  end.

(** Every draw call of the body comes with [scene_material] as the last
    material asked for. *)
Definition draws_with_scene_material (body : list call) : bool :=
  forallb
    (fun k =>
       match body !! k with
       | Some (Call_DrawMesh m) =>
           match last_material (take k body) with
           | Some t => String.eqb t (scene_material m)
           | None => false
           end
       | _ => true
       end)
    (seq 0 (length body)).

(** A write to a uniform or a draw call: the only things the rendering
    methods do to the outside. *)
Definition is_shader_or_draw (e : event) : bool :=
  match e with
  | SetUniform _ _ | DrawMesh _ => true
  | _ => false
  end.

(** The uniforms the rendering methods write. *)
Definition scene_uniforms : list string :=
  ["model"; "bUseTexture"; "objectColor"; "objectTexture"; "UVscale";
   "material.diffuseColor"; "material.specularColor"; "material.shininess"].

(** The materials [RenderScene] asks for are in the list, or the list is
    empty: [SetShaderMaterial] then never passes on the content of its
    uninitialised local. *)
Definition scene_materials_found (s : State) : Prop :=
  m_objectMaterials s = [] \/
  (is_Some (first_material "cement" (m_objectMaterials s)) /\
   is_Some (first_material "plastic" (m_objectMaterials s))).

(** The three writes of [SetShaderMaterial] for a material. *)
Definition material_writes (m : OBJECT_MATERIAL) : list event :=
  [SetUniform "material.diffuseColor" (UVec3 (diffuseColor m));
   SetUniform "material.specularColor" (UVec3 (specularColor m));
   SetUniform "material.shininess" (UFloat (shininess m))].

(** The material tags the calls ask for are "cement" and "plastic". *)
Definition asks_scene_materials (body : list call) : bool :=
  forallb
    (fun c =>
       match c with
       | Call_SetShaderMaterial t =>
           String.eqb t "cement" || String.eqb t "plastic"
       | _ => true
       end)
    body.

(** ** The shader state of a primitive *)

(** The calls made since the last draw call: the ones made for the
    primitive that is drawn next. *)
Definition since_last_draw (pre : list call) : list call :=
  foldl (fun (own : list call) c =>
           match c with
           | Call_DrawMesh _ => []
           | _ => (own ++ [c])%list
           end) [] pre.

(** The specification's reading of the calls before a draw call: the
    calls made for the primitive write its shader state, which is its
    matrix, its colour or texture, its material and, with a texture, the
    UV scale. *)
Definition claimed_written_for_primitive (pre : list call) : bool :=
  let own := since_last_draw pre in
  is_some (pending_transform own) &&
  is_some (last_material own) &&
  match last_shading own with
  | Some (Textured _) => is_some (last_uvscale own)
  | Some (Coloured _) => true
  | None => false
  end.

(** What the code has before a draw call: a matrix set for this
    primitive, and a colour or texture and a material asked for at some
    time before. *)
Definition draw_prepared (pre : list call) : bool :=
  is_some (pending_transform pre) &&
  is_some (last_shading pre) &&
  is_some (last_material pre).

Definition draws_prepared (body : list call) : bool :=
  forallb
    (fun k =>
       match body !! k with
       | Some (Call_DrawMesh _) => draw_prepared (take k body)
       | _ => true
       end)
    (seq 0 (length body)).

(** The numbers, counted from 0 in drawing order, of the draw calls of
    the body whose preceding calls satisfy [p]. *)
Definition draws_where (p : list call -> bool) (body : list call)
  : list nat :=
  omap
    (fun k =>
       match body !! k with
       | Some (Call_DrawMesh _) =>
           if p (take k body)
           then Some (length (body_draw_calls (take k body)))
           else None
       | _ => None
       end)
    (seq 0 (length body)).

(** No colour or texture, no material, no UV scale for a texture among
    the calls made for the primitive. *)
Definition no_shading_of_its_own (pre : list call) : bool :=
  negb (is_some (last_shading (since_last_draw pre))).

Definition no_material_of_its_own (pre : list call) : bool :=
  negb (is_some (last_material (since_last_draw pre))).

Definition textured_without_uvscale (pre : list call) : bool :=
  match last_shading pre with
  | Some (Textured _) => negb (is_some (last_uvscale pre))
  | _ => false
  end.

(** The calls of [RenderScene] with the sample values for the default
    arguments. *)
Definition sample_scene : list call :=
  RenderScene sample_offset sample_keyScale.

(** * Properties *)

(** ** Running the monad by hand *)

Ltac mrun :=
  unfold cout, GetCurrentDirectoryA, stbi_set_flip_vertically_on_load,
       stbi_load, stbi_image_free, glGenTextures, glBindTexture,
       glTexParameteri, glTexImage2D, glGenerateMipmap, glActiveTexture,
       DrawMeshCall, LoadMeshCall;
  unfold emit;
  unfold mbind, M_bind, mret, M_ret, get, modify, undefined_behaviour;
  cbn [set_textureIDs set_loadedTextures set_objectMaterials set_gl
       set_uniforms set_trace set_gl_next_name set_gl_active_texture
       set_gl_texture_binding set_gl_texture_image
       m_pShaderManager m_textureIDs m_loadedTextures m_objectMaterials
       working_directory image_files gl uniforms trace gl_next_name
       gl_active_texture gl_texture_binding gl_texture_image].

(** ** Texture slots *)

Lemma read_textureIDs_Some i t s :
  (0 <= i)%Z -> m_textureIDs s !! Z.to_nat i = Some t ->
  read_textureIDs i s = Done t s.
Proof.
  intros Hi Ht. unfold read_textureIDs. mrun.
  rewrite Ht. destruct (Z.leb_spec 0 i); [reflexivity | lia].
Qed.

Lemma read_textureIDs_out i s :
  ~ ((0 <= i)%Z /\ (Z.to_nat i < length (m_textureIDs s))%nat) ->
  read_textureIDs i s = Undefined TextureSlotOutOfBounds.
Proof.
  intros Hout. unfold read_textureIDs. mrun.
  destruct (Z.leb_spec 0 i) as [Hi|]; [|reflexivity].
  destruct (m_textureIDs s !! Z.to_nat i) eqn:Ht; [|reflexivity].
  apply lookup_lt_Some in Ht. tauto.
Qed.

Lemma write_textureIDs_Some i f t s :
  (0 <= i)%Z -> m_textureIDs s !! Z.to_nat i = Some t ->
  write_textureIDs i f s =
  Done tt (set_textureIDs (<[Z.to_nat i := f t]> (m_textureIDs s)) s).
Proof.
  intros Hi Ht. unfold write_textureIDs.
  unfold mbind at 1, M_bind. rewrite (read_textureIDs_Some i t) by assumption.
  reflexivity.
Qed.

Lemma write_textureIDs_out i f s :
  ~ ((0 <= i)%Z /\ (Z.to_nat i < length (m_textureIDs s))%nat) ->
  write_textureIDs i f s = Undefined TextureSlotOutOfBounds.
Proof.
  intros Hout. unfold write_textureIDs.
  unfold mbind at 1, M_bind. by rewrite read_textureIDs_out.
Qed.

Lemma decodes_supported_true s filename :
  decodes_supported s filename = true ->
  exists img, image_files s !! filename = Some img /\
    (colorChannels img = 3 \/ colorChannels img = 4)%Z.
Proof.
  unfold decodes_supported. destruct (image_files s !! filename) as [img|];
    [|discriminate].
  intros H. exists img. split; [reflexivity|].
  apply orb_true_iff in H. lia.
Qed.

(** A load that cannot be used: [false], with the array of slots and the
    count as they were. *)
Lemma CreateGLTexture_rejects filename tag0 s :
  decodes_supported s filename = false ->
  exists s' delta,
    CreateGLTexture filename tag0 s = Done false s' /\
    m_textureIDs s' = m_textureIDs s /\
    m_loadedTextures s' = m_loadedTextures s /\
    trace s' =
      (trace s ++ load_prologue s filename ++ delta ++
       [Cout (outcome_message s filename)])%list.
Proof.
  unfold decodes_supported, outcome_message, CreateGLTexture, load_prologue.
  mrun. destruct (image_files s !! filename) as [img|]; mrun.
  - intros Hch. rewrite Hch. apply orb_false_iff in Hch as [-> ->].
    eexists _, [_; _; _; _; _; _; _].
    split; [reflexivity|]. mrun.
    split; [reflexivity|]. split; [reflexivity|].
    rewrite <- !app_assoc. reflexivity.
  - intros _. eexists _, []. split; [reflexivity|]. mrun.
    split; [reflexivity|]. split; [reflexivity|].
    rewrite <- !app_assoc. reflexivity.
Qed.

(** A load that can be used, with the next slot inside the array: [true],
    the slot holds the generated name and the tag, the count is one up. *)
Lemma CreateGLTexture_accepts filename tag0 s :
  decodes_supported s filename = true ->
  slot_in_bounds s ->
  exists s' delta,
    CreateGLTexture filename tag0 s = Done true s' /\
    m_textureIDs s' =
      <[Z.to_nat (m_loadedTextures s) :=
          {| ID := gl_next_name (gl s); tag := tag0 |}]> (m_textureIDs s) /\
    m_loadedTextures s' = (m_loadedTextures s + 1)%Z /\
    trace s' =
      (trace s ++ load_prologue s filename ++
       Cout (outcome_message s filename) ::
       GLCall (glGenTextures_call (gl_next_name (gl s))) :: delta)%list.
Proof.
  intros Hdec [Hn Hlen].
  destruct (decodes_supported_true _ _ Hdec) as (img & Himg & Hch).
  destruct (lookup_lt_is_Some_2 _ _ Hlen) as [t Ht].
  unfold CreateGLTexture, load_prologue, outcome_message. mrun.
  rewrite Himg. mrun.
  destruct Hch as [E | E];
    [ rewrite (proj2 (Z.eqb_eq _ 3) E)
    | rewrite (proj2 (Z.eqb_neq _ 3)) by lia;
      rewrite (proj2 (Z.eqb_eq _ 4) E) ]; cbn [orb]; mrun.
  all: rewrite (write_textureIDs_Some _ _ t) by assumption; mrun.
  all: erewrite write_textureIDs_Some;
    [ | assumption | mrun; apply list_lookup_insert_eq; assumption ]; mrun.
  all: eexists _, _; split; [reflexivity|]; mrun.
  all: rewrite list_insert_insert_eq.
  all: split; [reflexivity|]; split; [reflexivity|].
  all: rewrite <- !app_assoc; reflexivity.
Qed.

(** A load that can be used, with the next slot outside the array: the
    upload is done and the write to the slot is undefined; [false] is not
    returned. *)
Lemma CreateGLTexture_overruns filename tag0 s :
  decodes_supported s filename = true ->
  ~ slot_in_bounds s ->
  CreateGLTexture filename tag0 s = Undefined TextureSlotOutOfBounds.
Proof.
  intros Hdec Hout.
  destruct (decodes_supported_true _ _ Hdec) as (img & Himg & Hch).
  unfold CreateGLTexture. mrun. rewrite Himg. mrun.
  destruct Hch as [E | E];
    [ rewrite (proj2 (Z.eqb_eq _ 3) E)
    | rewrite (proj2 (Z.eqb_neq _ 3)) by lia;
      rewrite (proj2 (Z.eqb_eq _ 4) E) ]; mrun.
  all: rewrite write_textureIDs_out; [reflexivity | exact Hout].
Qed.

Lemma slot_in_bounds_dec s : {slot_in_bounds s} + {~ slot_in_bounds s}.
Proof.
  unfold slot_in_bounds.
  destruct (Z_le_dec 0 (m_loadedTextures s));
    destruct (lt_dec (Z.to_nat (m_loadedTextures s))
                (length (m_textureIDs s))); tauto.
Qed.

(** ** Loading a texture *)

(** C1: a call of [CreateGLTexture] that returns [true] has put the name
    it generated and the tag into the slot at the old count, left the
    other slots alone and raised the count by one; a call that returns
    [false] has left the slots and the count as they were. *)
Theorem CreateGLTexture_registers_or_leaves filename tag0 s b s' :
  CreateGLTexture filename tag0 s = Done b s' ->
  if b then
    m_textureIDs s' !! Z.to_nat (m_loadedTextures s) =
      Some {| ID := gl_next_name (gl s); tag := tag0 |} /\
    (forall j, j ≠ Z.to_nat (m_loadedTextures s) ->
       m_textureIDs s' !! j = m_textureIDs s !! j) /\
    length (m_textureIDs s') = length (m_textureIDs s) /\
    m_loadedTextures s' = (m_loadedTextures s + 1)%Z /\
    exists before after,
      trace s' =
        (trace s ++ before ++
         GLCall (glGenTextures_call (gl_next_name (gl s))) :: after)%list
  else
    m_textureIDs s' = m_textureIDs s /\
    m_loadedTextures s' = m_loadedTextures s.
Proof.
  intros Hrun.
  destruct (decodes_supported s filename) eqn:Hdec.
  - destruct (slot_in_bounds_dec s) as [Hin | Hout].
    + destruct (CreateGLTexture_accepts filename tag0 s Hdec Hin)
        as (s1 & delta & Hrun1 & Harr & Hn & Htr).
      rewrite Hrun1 in Hrun. injection Hrun as <- <-.
      destruct Hin as [Hn0 Hlen].
      rewrite Harr. split; [by apply list_lookup_insert_eq|].
      split; [intros j Hj; by apply list_lookup_insert_ne|].
      split; [apply length_insert|]. split; [exact Hn|].
      exists (load_prologue s filename ++
              [Cout (outcome_message s filename)])%list, delta.
      rewrite Htr, <- !app_assoc. reflexivity.
    + rewrite CreateGLTexture_overruns in Hrun by assumption. discriminate.
  - destruct (CreateGLTexture_rejects filename tag0 s Hdec)
      as (s1 & delta & Hrun1 & Harr & Hn & _).
    rewrite Hrun1 in Hrun. injection Hrun as <- <-. by split.
Qed.

Lemma CreateGLTexture_registers_or_leaves_witness :
  exists s',
    CreateGLTexture "textures/computer_case_texture_2.jpg" "ComputerCase"
      sample_state = Done true s' /\
    m_textureIDs s' !! 0%nat = Some {| ID := 1; tag := "ComputerCase" |} /\
    m_loadedTextures s' = 1%Z.
Proof.
  set (load := CreateGLTexture "textures/computer_case_texture_2.jpg"
                 "ComputerCase").
  assert (Hrun : load sample_state = Done true (state_after load sample_state))
    by (vm_compute; reflexivity).
  exists (state_after load sample_state). split; [exact Hrun|].
  pose proof (CreateGLTexture_registers_or_leaves _ _ _ _ _ Hrun) as H.
  cbv iota in H. destruct H as (Hslot & _ & _ & Hn & _).
  split; [exact Hslot | exact Hn].
Defined.

Lemma decodes_supported_iff s filename :
  decodes_supported s filename = true <->
  exists img, image_files s !! filename = Some img /\
    (colorChannels img = 3 \/ colorChannels img = 4)%Z.
Proof.
  split; [apply decodes_supported_true|].
  intros (img & Himg & Hch). unfold decodes_supported. rewrite Himg.
  apply orb_true_iff. lia.
Qed.

(** C2: [CreateGLTexture] returns [true] exactly when the file decodes to
    an image of three or of four channels, and [false] for every other
    input; whatever it returns, it has written the console line of that
    outcome.  It does return whenever the load is rejected or the next
    slot lies inside the array. *)
Theorem CreateGLTexture_reports filename tag0 s :
  (forall b s', CreateGLTexture filename tag0 s = Done b s' ->
     (b = true <->
      exists img, image_files s !! filename = Some img /\
        (colorChannels img = 3 \/ colorChannels img = 4)%Z) /\
     exists before after,
       trace s' =
         (trace s ++ before ++
          Cout (outcome_message s filename) :: after)%list) /\
  (decodes_supported s filename = false \/ slot_in_bounds s ->
   exists s',
     CreateGLTexture filename tag0 s =
       Done (decodes_supported s filename) s').
Proof.
  split.
  - intros b s' Hrun. rewrite <- decodes_supported_iff.
    destruct (decodes_supported s filename) eqn:Hdec.
    + destruct (slot_in_bounds_dec s) as [Hin | Hout].
      * destruct (CreateGLTexture_accepts filename tag0 s Hdec Hin)
          as (s1 & delta & Hrun1 & _ & _ & Htr).
        rewrite Hrun1 in Hrun. injection Hrun as <- <-.
        split; [tauto|]. eexists (load_prologue s filename), (_ :: delta).
        exact Htr.
      * rewrite CreateGLTexture_overruns in Hrun by assumption. discriminate.
    + destruct (CreateGLTexture_rejects filename tag0 s Hdec)
        as (s1 & delta & Hrun1 & _ & _ & Htr).
      rewrite Hrun1 in Hrun. injection Hrun as <- <-.
      split; [split; discriminate|].
      exists (load_prologue s filename ++ delta)%list, [].
      by rewrite Htr, <- !app_assoc.
  - destruct (decodes_supported s filename) eqn:Hdec.
    + intros [? | Hin]; [discriminate|].
      destruct (CreateGLTexture_accepts filename tag0 s Hdec Hin)
        as (s1 & _ & Hrun1 & _). by exists s1.
    + intros _.
      destruct (CreateGLTexture_rejects filename tag0 s Hdec)
        as (s1 & _ & Hrun1 & _). by exists s1.
Qed.

Lemma CreateGLTexture_reports_witness :
  (exists s' before after,
     CreateGLTexture "textures/grey.png" "Grey" sample_state =
       Done false s' /\
     trace s' =
       (before ++
        Cout [Str "Not implemented to handle image with "; Int 1;
              Str " channels"] :: after)%list) /\
  (exists s',
     CreateGLTexture "textures/crt_on_texture_1.jpg" "CRTScreen"
       sample_state = Done true s').
Proof.
  split.
  - set (load := CreateGLTexture "textures/grey.png" "Grey").
    assert (Hrun : load sample_state
                   = Done false (state_after load sample_state))
      by (vm_compute; reflexivity).
    destruct (CreateGLTexture_reports "textures/grey.png" "Grey"
                sample_state) as [Hret _].
    destruct (Hret _ _ Hrun) as (_ & before & after & Htr).
    exists (state_after load sample_state), before, after.
    split; [exact Hrun | exact Htr].
  - destruct (CreateGLTexture_reports "textures/crt_on_texture_1.jpg"
                "CRTScreen" sample_state) as [_ Hdef].
    apply Hdef. right. split; [vm_compute; discriminate | vm_compute; lia].
Defined.

(** C9: [CreateGLTexture] does not compare [m_loadedTextures] with the
    sixteen slots of [m_textureIDs].  A load that can be used writes the
    slot at [m_loadedTextures]: with fewer than sixteen textures loaded
    that slot is in the array; otherwise the write is outside it and the
    call is undefined, it does not return [false]. *)
Theorem CreateGLTexture_slot_unchecked filename tag0 s :
  length (m_textureIDs s) = Z.to_nat MAX_TEXTURES ->
  decodes_supported s filename = true ->
  ((0 <= m_loadedTextures s < MAX_TEXTURES)%Z ->
   exists s',
     CreateGLTexture filename tag0 s = Done true s' /\
     m_textureIDs s' !! Z.to_nat (m_loadedTextures s) =
       Some {| ID := gl_next_name (gl s); tag := tag0 |}) /\
  (~ (0 <= m_loadedTextures s < MAX_TEXTURES)%Z ->
   CreateGLTexture filename tag0 s = Undefined TextureSlotOutOfBounds).
Proof.
  intros Hcap Hdec. split.
  - intros Hn.
    assert (Hin : slot_in_bounds s) by (unfold slot_in_bounds; lia).
    destruct (CreateGLTexture_accepts filename tag0 s Hdec Hin)
      as (s1 & _ & Hrun1 & Harr & _).
    exists s1. split; [exact Hrun1|].
    rewrite Harr. apply list_lookup_insert_eq. apply Hin.
  - intros Hn. apply CreateGLTexture_overruns; [exact Hdec|].
    unfold slot_in_bounds. lia.
Qed.

Lemma CreateGLTexture_slot_unchecked_witness :
  (exists s',
     CreateGLTexture "textures/crt_on_texture_1.jpg" "CRTScreen"
       sample_state = Done true s' /\
     m_textureIDs s' !! 0%nat = Some {| ID := 1; tag := "CRTScreen" |}) /\
  CreateGLTexture "textures/crt_on_texture_1.jpg" "CRTScreen"
    sample_state_full = Undefined TextureSlotOutOfBounds.
Proof.
  split.
  - apply (CreateGLTexture_slot_unchecked "textures/crt_on_texture_1.jpg"
             "CRTScreen" sample_state); vm_compute; try reflexivity.
    split; [discriminate | reflexivity].
  - apply (CreateGLTexture_slot_unchecked "textures/crt_on_texture_1.jpg"
             "CRTScreen" sample_state_full); vm_compute; try reflexivity.
    intros [_ H]. discriminate H.
Defined.

(** ** Shader state *)

Ltac mrun_shader :=
  unfold setIntValue, setBoolValue, setFloatValue, setVec2Value,
    setVec3Value, setVec4Value, setMat4Value, setSampler2DValue;
  unfold shader_set; mrun.

(** C4: with a shader manager, [SetTransformations] sets the uniform
    "model", and only it, to translate(positionXYZ + offset) * Rz * Ry *
    Rx * scale(scaleXYZ), the angles converted from degrees to radians;
    with a null shader manager it writes nothing. *)
Theorem SetTransformations_model scaleXYZ Xdeg Ydeg Zdeg positionXYZ offset s :
  (m_pShaderManager s = NonNull ->
   exists s',
     SetTransformations scaleXYZ Xdeg Ydeg Zdeg positionXYZ offset s
       = Done tt s' /\
     uniforms s' !! "model" =
       Some (UMat4 (claimed_model_matrix scaleXYZ Xdeg Ydeg Zdeg
                      positionXYZ offset)) /\
     (forall name, name ≠ "model" -> uniforms s' !! name = uniforms s !! name) /\
     trace s' =
       (trace s ++
        [SetUniform "model"
           (UMat4 (claimed_model_matrix scaleXYZ Xdeg Ydeg Zdeg
                     positionXYZ offset))])%list) /\
  (m_pShaderManager s = NULL ->
   SetTransformations scaleXYZ Xdeg Ydeg Zdeg positionXYZ offset s
     = Done tt s).
Proof.
  unfold SetTransformations, claimed_model_matrix, g_ModelName.
  split; intros Hp; mrun_shader; rewrite Hp; [|reflexivity].
  mrun. rewrite Hp. eexists. split; [reflexivity|]. mrun.
  split; [apply lookup_insert_eq|].
  split; [|reflexivity].
  intros name Hname. by apply lookup_insert_ne.
Qed.

Lemma SetTransformations_model_witness :
  (exists s',
     SetTransformations (glm_vec3 7.0%Q 5.0%Q 5.0%Q) 0%Q 0%Q 0%Q
       (glm_vec3 0.0%Q 3.5%Q 0.0%Q) (glm_vec3 0.0%Q 0.0%Q 0.0%Q)
       sample_state = Done tt s' /\
     uniforms s' !! "model" =
       Some (UMat4 (claimed_model_matrix (glm_vec3 7.0%Q 5.0%Q 5.0%Q)
                      0%Q 0%Q 0%Q (glm_vec3 0.0%Q 3.5%Q 0.0%Q)
                      (glm_vec3 0.0%Q 0.0%Q 0.0%Q)))) /\
  SetTransformations (glm_vec3 7.0%Q 5.0%Q 5.0%Q) 0%Q 0%Q 0%Q
    (glm_vec3 0.0%Q 3.5%Q 0.0%Q) (glm_vec3 0.0%Q 0.0%Q 0.0%Q)
    sample_state_null = Done tt sample_state_null.
Proof.
  split.
  - destruct (SetTransformations_model (glm_vec3 7.0%Q 5.0%Q 5.0%Q)
                0%Q 0%Q 0%Q (glm_vec3 0.0%Q 3.5%Q 0.0%Q)
                (glm_vec3 0.0%Q 0.0%Q 0.0%Q) sample_state) as [Hset _].
    destruct (Hset eq_refl) as (s' & Hrun & Hmodel & _).
    exists s'. split; [exact Hrun | exact Hmodel].
  - apply (SetTransformations_model (glm_vec3 7.0%Q 5.0%Q 5.0%Q)
             0%Q 0%Q 0%Q (glm_vec3 0.0%Q 3.5%Q 0.0%Q)
             (glm_vec3 0.0%Q 0.0%Q 0.0%Q) sample_state_null).
    reflexivity.
Defined.


(** ** Effects as events *)

Lemma replay_app es1 es2 s : replay (es1 ++ es2) s = replay es2 (replay es1 s).
Proof. apply foldl_app. Qed.

Lemma replay_snoc es e s : replay (es ++ [e]) s = replay_event (replay es s) e.
Proof. apply replay_app. Qed.

Lemma trace_replay es s : trace (replay es s) = (trace s ++ es)%list.
Proof.
  revert s. induction es as [|e es IH]; intros s; cbn [replay foldl].
  - by rewrite app_nil_r.
  - fold (replay es (replay_event s e)). rewrite IH.
    destruct e; cbn; by rewrite <- app_assoc.
Qed.

Lemma replay_frame es s :
  m_pShaderManager (replay es s) = m_pShaderManager s /\
  m_textureIDs (replay es s) = m_textureIDs s /\
  m_loadedTextures (replay es s) = m_loadedTextures s /\
  m_objectMaterials (replay es s) = m_objectMaterials s /\
  gl (replay es s) = gl s.
Proof.
  revert s. induction es as [|e es IH]; intros s; cbn [replay foldl].
  - done.
  - fold (replay es (replay_event s e)).
    destruct (IH (replay_event s e)) as (-> & -> & -> & -> & ->).
    by destruct e.
Qed.

Lemma last_write_app name es1 es2 :
  last_write name (es1 ++ es2) =
  match last_write name es2 with
  | Some v => Some v
  | None => last_write name es1
  end.
Proof.
  induction es1 as [|e es1 IH]; cbn [app last_write].
  - by destruct (last_write name es2).
  - rewrite IH. by destruct (last_write name es2).
Qed.

Lemma uniforms_replay name es s :
  uniforms (replay es s) !! name =
  match last_write name es with
  | Some v => Some v
  | None => uniforms s !! name
  end.
Proof.
  revert s. induction es as [|e es IH]; intros s;
    cbn [replay foldl last_write]; [reflexivity|].
  fold (replay es (replay_event s e)). rewrite IH.
  destruct (last_write name es); [reflexivity|].
  destruct e; try reflexivity. cbn.
  destruct (String.eqb_spec name0 name) as [->|Hne].
  - apply lookup_insert_eq.
  - by apply lookup_insert_ne.
Qed.

Lemma last_write_not_written name es :
  not_written name es -> last_write name es = None.
Proof.
  induction es as [|e es IH]; intros Hnw; cbn [last_write]; [reflexivity|].
  rewrite IH.
  - destruct e; try reflexivity.
    destruct (String.eqb_spec name0 name) as [->|Hne]; [|reflexivity].
    destruct (Hnw v). apply list_elem_of_here.
  - intros v Hv. apply (Hnw v). by apply list_elem_of_further.
Qed.

(** A setter through a non-null [m_pShaderManager] is one event; the
    state is kept as the events replayed so far. *)
Lemma shader_set_replay name v es s :
  m_pShaderManager s = NonNull ->
  shader_set name v (replay es s) =
  Done tt (replay (es ++ [SetUniform name v]) s).
Proof.
  intros Hp. unfold shader_set. mrun.
  destruct (replay_frame es s) as (-> & _). rewrite Hp.
  by rewrite replay_snoc.
Qed.

Lemma bind_Done {A B} (m : M A) (k : A -> M B) s a s1 :
  m s = Done a s1 -> (m ≫= k) s = k a s1.
Proof. intros H. unfold mbind, M_bind. by rewrite H. Qed.

Lemma emit_replay e es s :
  (forall name v, e ≠ SetUniform name v) ->
  emit e (replay es s) = Done tt (replay (es ++ [e]) s).
Proof.
  intros He. rewrite replay_snoc. unfold emit, modify, replay_event.
  destruct e; try reflexivity. by destruct (He name v).
Qed.

Ltac shader_steps Hp :=
  unfold setIntValue, setBoolValue, setFloatValue, setVec2Value,
    setVec3Value, setVec4Value, setMat4Value, setSampler2DValue;
  repeat (erewrite bind_Done; [| by apply shader_set_replay ]);
  try (rewrite shader_set_replay by exact Hp).

(** ** Lighting *)

Lemma SetupSceneLights_events s :
  m_pShaderManager s = NonNull ->
  exists delta,
    SetupSceneLights s = Done tt (replay delta s) /\
    Forall is_light_write delta /\
    last_write "pointLights[0].position" delta =
      Some (UVec3 (glm_vec3 0.0%Q 9.5%Q 2.5%Q)) /\
    last_write "pointLights[1].position" delta =
      Some (UVec3 (glm_vec3 (-1.25)%Q 3.5%Q 3.0%Q)) /\
    last_write "pointLights[0].bActive" delta = Some (UBool true) /\
    last_write "pointLights[1].bActive" delta = Some (UBool true) /\
    last_write "bUseLighting" delta = Some (UBool true).
Proof.
  intros Hp. eexists. split.
  - unfold SetupSceneLights, g_UseLightingName.
    change s with (replay [] s) at 1. shader_steps Hp. reflexivity.
  - cbn [app]. split; [|by repeat split].
    repeat (constructor; [cbn; auto|]). constructor.
Qed.

(** C5: with a shader manager, [SetupSceneLights] places
    [pointLights[0]] at (0.0, 9.5, 2.5) and [pointLights[1]] at
    (-1.25, 3.5, 3.0), switches both on and switches lighting on; every
    uniform it writes belongs to one of these two lights or is the
    lighting switch, and every other uniform keeps its value. *)
Theorem SetupSceneLights_two_point_lights s :
  m_pShaderManager s = NonNull ->
  exists s' delta,
    SetupSceneLights s = Done tt s' /\
    trace s' = (trace s ++ delta)%list /\
    Forall is_light_write delta /\
    uniforms s' !! "pointLights[0].position" =
      Some (UVec3 (glm_vec3 0.0%Q 9.5%Q 2.5%Q)) /\
    uniforms s' !! "pointLights[1].position" =
      Some (UVec3 (glm_vec3 (-1.25)%Q 3.5%Q 3.0%Q)) /\
    uniforms s' !! "pointLights[0].bActive" = Some (UBool true) /\
    uniforms s' !! "pointLights[1].bActive" = Some (UBool true) /\
    uniforms s' !! "bUseLighting" = Some (UBool true) /\
    (forall name, not_written name delta ->
       uniforms s' !! name = uniforms s !! name).
Proof.
  intros Hp.
  destruct (SetupSceneLights_events s Hp)
    as (delta & Hrun & Hall & H0 & H1 & A0 & A1 & HL).
  exists (replay delta s), delta. split; [exact Hrun|].
  split; [apply trace_replay|]. split; [exact Hall|].
  rewrite !uniforms_replay, H0, H1, A0, A1, HL.
  do 5 (split; [reflexivity|]).
  intros name Hname. by rewrite uniforms_replay, last_write_not_written.
Qed.

Lemma SetupSceneLights_two_point_lights_witness :
  exists s',
    SetupSceneLights sample_state = Done tt s' /\
    uniforms s' !! "pointLights[0].position" =
      Some (UVec3 (glm_vec3 0.0%Q 9.5%Q 2.5%Q)) /\
    uniforms s' !! "pointLights[1].position" =
      Some (UVec3 (glm_vec3 (-1.25)%Q 3.5%Q 3.0%Q)).
Proof.
  destruct (SetupSceneLights_two_point_lights sample_state eq_refl)
    as (s' & delta & Hrun & _ & _ & H0 & H1 & _).
  exists s'. split; [exact Hrun|]. split; [exact H0 | exact H1].
Defined.

(** ** Materials *)

Lemma FindMaterial_loop_no_match mats tag0 material :
  no_material_tagged tag0 mats ->
  FindMaterial_loop mats tag0 material = material.
Proof.
  induction mats as [|m mats IH]; intros Hno; cbn [FindMaterial_loop];
    [reflexivity|].
  destruct (String.eqb_spec (material_tag m) tag0) as [Heq|_].
  - destruct (Hno m); [apply list_elem_of_here | exact Heq].
  - apply IH. intros m' Hm'. apply Hno. by apply list_elem_of_further.
Qed.

(** C7: [FindMaterial] returns [false] exactly when the list of materials
    is empty; with a non-empty list and no material of the tag it returns
    [true] and leaves its output argument as it was.  So
    [SetShaderMaterial], called with such a tag, still writes the three
    material uniforms, with the indeterminate values of its uninitialised
    local [OBJECT_MATERIAL]. *)
Theorem FindMaterial_true_unless_empty tag0 s :
  (forall material,
     exists b material',
       FindMaterial tag0 material s = Done (b, material') s /\
       (b = false <-> m_objectMaterials s = []) /\
       (no_material_tagged tag0 (m_objectMaterials s) ->
        material' = material)) /\
  (m_pShaderManager s = NonNull ->
   m_objectMaterials s ≠ [] ->
   no_material_tagged tag0 (m_objectMaterials s) ->
   exists s',
     SetShaderMaterial tag0 s = Done tt s' /\
     trace s' =
       (trace s ++
        [SetUniform "material.diffuseColor" (UVec3 vec3_uninitialised);
         SetUniform "material.specularColor" (UVec3 vec3_uninitialised);
         SetUniform "material.shininess" (UFloat FIndeterminate)])%list /\
     uniforms s' !! "material.diffuseColor" =
       Some (UVec3 vec3_uninitialised) /\
     uniforms s' !! "material.specularColor" =
       Some (UVec3 vec3_uninitialised) /\
     uniforms s' !! "material.shininess" = Some (UFloat FIndeterminate)).
Proof.
  split.
  - intros material. unfold FindMaterial. mrun.
    destruct (m_objectMaterials s) as [|m mats] eqn:Hmats; cbn [length Nat.eqb].
    + exists false, material. by repeat split.
    + exists true, (FindMaterial_loop (m :: mats) tag0 material).
      split; [reflexivity|]. split; [split; discriminate|].
      apply FindMaterial_loop_no_match.
  - intros Hp Hne Hno. unfold SetShaderMaterial.
    rewrite (bind_Done _ _ s (m_objectMaterials s) s) by reflexivity.
    destruct (m_objectMaterials s) as [|m mats] eqn:Hmats; [done|].
    cbn [length Nat.ltb Nat.leb].
    erewrite bind_Done;
      [| unfold FindMaterial;
         rewrite (bind_Done _ _ s (m_objectMaterials s) s) by reflexivity;
         rewrite Hmats; reflexivity ].
    rewrite (FindMaterial_loop_no_match _ _ _ Hno).
    cbn [diffuseColor specularColor shininess OBJECT_MATERIAL_uninitialised].
    change s with (replay [] s) at 1. shader_steps Hp.
    eexists. split; [reflexivity|]. cbn [app].
    rewrite trace_replay, !uniforms_replay. by repeat split.
Qed.

Lemma FindMaterial_true_unless_empty_witness :
  (exists material',
     FindMaterial "glass" OBJECT_MATERIAL_uninitialised
       sample_state_materials = Done (true, material') sample_state_materials /\
     material' = OBJECT_MATERIAL_uninitialised) /\
  (exists s',
     SetShaderMaterial "glass" sample_state_materials = Done tt s' /\
     uniforms s' !! "material.shininess" = Some (UFloat FIndeterminate)).
Proof.
  assert (Hno : no_material_tagged "glass"
                  (m_objectMaterials sample_state_materials)).
  { intros m Hm. vm_compute in Hm.
    repeat (apply elem_of_cons in Hm as [-> | Hm]; [discriminate|]).
    by apply elem_of_nil in Hm. }
  destruct (FindMaterial_true_unless_empty "glass" sample_state_materials)
    as [Hfind Hset].
  split.
  - destruct (Hfind OBJECT_MATERIAL_uninitialised)
      as (b & material' & Hrun & Hb & Hsame).
    exists material'.
    destruct b; [|destruct Hb as [Hb _]; discriminate (Hb eq_refl)].
    split; [exact Hrun | exact (Hsame Hno)].
  - destruct (Hset eq_refl) as (s' & Hrun & _ & _ & _ & Hshin);
      [discriminate | exact Hno |].
    exists s'. split; [exact Hrun | exact Hshin].
Defined.

(** ** Destroying the textures *)

(** The loop of [DestroyGLTextures] over the [count] slots from [i] on. *)
Lemma DestroyGLTextures_loop count : forall (i : nat) s,
  (i + count <= length (m_textureIDs s))%nat ->
  exists s',
    for_loop_from count (Z.of_nat i)
      (fun i => name ← glGenTextures; write_textureIDs i (with_ID name)) s
      = Done tt s' /\
    m_loadedTextures s' = m_loadedTextures s /\
    length (m_textureIDs s') = length (m_textureIDs s) /\
    gl_next_name (gl s') = (gl_next_name (gl s) + N.of_nat count)%N /\
    gl_texture_image (gl s') = gl_texture_image (gl s) /\
    (forall j t, m_textureIDs s !! j = Some t ->
       m_textureIDs s' !! j =
         Some (if bool_decide (i <= j < i + count)%nat
               then {| ID := gl_next_name (gl s) + N.of_nat (j - i);
                       tag := tag t |}
               else t)) /\
    trace s' =
      (trace s ++ glGenTextures_calls (gl_next_name (gl s)) count)%list.
Proof.
  induction count as [|count IH]; intros i s Hlen; cbn [for_loop_from].
  - exists s. split; [reflexivity|]. rewrite N.add_0_r.
    do 4 (split; [reflexivity|]). split.
    + intros j t Hj. rewrite bool_decide_eq_false_2 by lia. exact Hj.
    + unfold glGenTextures_calls. cbn. by rewrite app_nil_r.
  - destruct (lookup_lt_is_Some_2 (m_textureIDs s) i) as [ti Hti]; [lia|].
    set (s1 := set_textureIDs
                 (<[i := with_ID (gl_next_name (gl s)) ti]> (m_textureIDs s))
                 (set_trace
                    (trace s ++
                     [GLCall (glGenTextures_call (gl_next_name (gl s)))])
                    (set_gl
                       (set_gl_next_name (N.succ (gl_next_name (gl s)))
                          (gl s)) s))).
    destruct (IH (S i) s1) as (s' & Hrun & Hn & Hl & Hnext & Himg & Harr & Htr).
    { subst s1. cbn. rewrite length_insert. clear -Hlen. lia. }
    exists s'. split.
    { erewrite bind_Done; [| erewrite bind_Done; [| reflexivity ];
        apply (write_textureIDs_Some _ _ ti); [lia|];
        rewrite Nat2Z.id; exact Hti ].
      rewrite Nat2Z.id. fold s1.
      replace (Z.of_nat i + 1)%Z with (Z.of_nat (S i)) by lia. exact Hrun. }
    subst s1. cbn in Hn, Hl, Hnext, Himg, Harr, Htr.
    rewrite length_insert in Hl.
    split; [exact Hn|]. split; [exact Hl|].
    split; [rewrite Hnext; lia|]. split; [exact Himg|]. split.
    + intros j t Hj. destruct (decide (j = i)) as [->|Hne].
      * rewrite Hti in Hj. injection Hj as ->.
        rewrite (Harr i (with_ID (gl_next_name (gl s)) t))
          by (apply list_lookup_insert_eq; lia).
        rewrite bool_decide_eq_false_2, bool_decide_eq_true_2 by lia.
        rewrite Nat.sub_diag, N.add_0_r. reflexivity.
      * rewrite (Harr j t) by (by rewrite list_lookup_insert_ne).
        destruct (decide (i <= j < i + S count)%nat) as [Hin|Hout].
        -- rewrite !bool_decide_eq_true_2 by lia. do 2 f_equal. lia.
        -- by rewrite !bool_decide_eq_false_2 by lia.
    + rewrite Htr, <- app_assoc. f_equal. unfold glGenTextures_calls.
      cbn [seq fmap list_fmap]. rewrite N.add_0_r. f_equal.
      rewrite <- seq_shift, <- !list_fmap_compose. apply list_fmap_ext.
      intros k x _. cbn. do 2 f_equal. lia.
Qed.



(** ** Rendering *)

Lemma find_texture_from_in count : forall index tag0 s,
  (0 <= index)%Z ->
  (Z.to_nat index + count <= length (m_textureIDs s))%nat ->
  find_texture_from count index tag0 s =
  Done (find_texture_in (m_textureIDs s) count index tag0) s.
Proof.
  induction count as [|count IH]; intros index tag0 s Hi Hlen;
    cbn [find_texture_from find_texture_in]; [reflexivity|].
  destruct (lookup_lt_is_Some_2 (m_textureIDs s) (Z.to_nat index))
    as [t Ht]; [lia|].
  rewrite (bind_Done _ _ _ _ _ (read_textureIDs_Some _ _ _ Hi Ht)), Ht.
  destruct (String.eqb (tag t) tag0); [reflexivity|].
  apply IH; lia.
Qed.

Lemma FindTextureSlot_replay tag0 es s :
  renderable s ->
  FindTextureSlot tag0 (replay es s) =
  Done (texture_slot s tag0) (replay es s).
Proof.
  intros [_ Hlen]. unfold FindTextureSlot, texture_slot.
  destruct (replay_frame es s) as (_ & Harr & Hn & _).
  erewrite bind_Done by reflexivity.
  erewrite bind_Done by (apply find_texture_from_in; [lia|];
                         rewrite Harr, Hn; clear -Hlen; lia).
  by rewrite Harr, Hn.
Qed.

(** A call, in a renderable state, does what its events say. *)
Lemma exec_replay c es s :
  renderable s ->
  exec c (replay es s) = Done tt (replay (es ++ call_events s c) s).
Proof.
  intros Hr. pose proof Hr as [Hp _].
  destruct (replay_frame es s) as (Hp' & _ & _ & Hmats & _).
  destruct c; cbn [exec call_events].
  - unfold SetTransformations, g_ModelName.
    erewrite bind_Done by reflexivity. rewrite Hp', Hp.
    shader_steps Hp. reflexivity.
  - unfold SetShaderColor, g_UseTextureName, g_ColorValueName.
    erewrite bind_Done by reflexivity. rewrite Hp', Hp.
    shader_steps Hp. by rewrite <- app_assoc.
  - unfold SetShaderTexture, g_UseTextureName, g_TextureValueName.
    erewrite bind_Done by reflexivity. rewrite Hp', Hp.
    shader_steps Hp.
    erewrite bind_Done by (by apply FindTextureSlot_replay).
    shader_steps Hp. by rewrite <- app_assoc.
  - unfold SetTextureUVScale.
    erewrite bind_Done by reflexivity. rewrite Hp', Hp.
    shader_steps Hp. reflexivity.
  - unfold SetShaderMaterial, FindMaterial.
    erewrite bind_Done by reflexivity. rewrite Hmats.
    destruct (m_objectMaterials s) as [|m mats] eqn:Hm.
    + cbn. by rewrite app_nil_r.
    + cbn [length Nat.ltb Nat.leb].
      erewrite bind_Done;
        [| erewrite bind_Done by reflexivity; rewrite Hmats;
           reflexivity ].
      shader_steps Hp. by rewrite <- !app_assoc.
  - unfold DrawMeshCall. by apply emit_replay.
Qed.

Lemma run_replay body : forall es s,
  renderable s ->
  run body (replay es s) = Done tt (replay (es ++ body_events s body) s).
Proof.
  induction body as [|c body IH]; intros es s Hr;
    cbn [run body_events flat_map].
  - by rewrite app_nil_r.
  - erewrite bind_Done by (by apply exec_replay).
    rewrite IH by exact Hr. by rewrite <- app_assoc.
Qed.

Lemma run_events body s :
  renderable s -> run body s = Done tt (replay (body_events s body) s).
Proof. intros Hr. exact (run_replay body [] s Hr). Qed.

Lemma renderable_replay es s : renderable s -> renderable (replay es s).
Proof.
  intros [Hp Hlen]. destruct (replay_frame es s) as (Hp' & Harr & Hn & _).
  unfold renderable. by rewrite Hp', Harr, Hn.
Qed.

Lemma draw_calls_app es1 es2 :
  draw_calls (es1 ++ es2) = (draw_calls es1 ++ draw_calls es2)%list.
Proof. apply omap_app. Qed.

Lemma draw_calls_body_events s body :
  draw_calls (body_events s body) = body_draw_calls body.
Proof.
  induction body as [|c body IH]; [reflexivity|].
  cbn [body_events flat_map]. rewrite draw_calls_app.
  fold (body_events s body). rewrite IH.
  destruct c; try reflexivity.
  cbn [call_events]. by destruct (m_objectMaterials s).
Qed.

(** C3, as the code has it: in a renderable state [RenderScene] returns
    and issues one draw call for each primitive of the scene, 88 in all:
    the plane, the boxes, prisms and cylinders of the computer, feet,
    floppy drive, CRT panel, ProFile, mouse and cables, the two boxes of
    the keyboard body and one box for each of the 61 keys.  The sequence
    does not depend on the state, and the state stays renderable. *)
Theorem RenderScene_draw_calls off ks s :
  renderable s ->
  exists s',
    run (RenderScene off ks) s = Done tt s' /\
    draw_calls (trace s') = (draw_calls (trace s) ++ scene_draw_calls)%list /\
    length scene_draw_calls = 88%nat /\
    length (DrawKeyboard_keys off ks) = 61%nat /\
    Forall (fun key => body_draw_calls key = [BoxMesh])
      (DrawKeyboard_keys off ks) /\
    renderable s'.
Proof.
  intros Hr. exists (replay (body_events s (RenderScene off ks)) s).
  split; [by apply run_events|].
  split.
  { rewrite trace_replay, draw_calls_app, draw_calls_body_events.
    apply f_equal. vm_compute. reflexivity. }
  split; [reflexivity|]. split; [vm_compute; reflexivity|].
  split; [|by apply renderable_replay].
  vm_compute. repeat (constructor; [reflexivity|]). constructor.
Qed.

(** C3, as stated, counts 63 keyboard keys: the loops of [DrawKeyboard]
    call [DrawKey] 61 times (four rows of fourteen keys and a bottom row
    of five). *)
Lemma RenderScene_keyboard_keys_not_63 :
  length (DrawKeyboard_keys sample_offset sample_keyScale) = 61%nat /\
  length (DrawKeyboard_keys sample_offset sample_keyScale)
    ≠ claimed_keyboard_keys.
Proof. split; [vm_compute; reflexivity | vm_compute; discriminate]. Qed.

Lemma RenderScene_draw_calls_witness :
  exists s',
    run (RenderScene sample_offset sample_keyScale) sample_state_prepared
      = Done tt s' /\
    draw_calls (trace s') = scene_draw_calls.
Proof.
  destruct (RenderScene_draw_calls sample_offset sample_keyScale
              sample_state_prepared) as (s' & Hrun & Hdraws & _).
  - split; [vm_compute; reflexivity | vm_compute; lia].
  - exists s'. split; [exact Hrun|]. rewrite Hdraws.
    vm_compute. reflexivity.
Defined.

(** ** Shader state at the draw calls *)

Lemma body_events_snoc s pre c :
  body_events s (pre ++ [c]) = (body_events s pre ++ call_events s c)%list.
Proof.
  unfold body_events. rewrite flat_map_app. cbn [flat_map].
  by rewrite app_nil_r.
Qed.

(** A matrix pending at the end of the calls is the value of "model". *)
Lemma pending_transform_model s pre : forall M,
  pending_transform pre = Some M ->
  last_write "model" (body_events s pre) = Some (UMat4 M).
Proof.
  unfold pending_transform.
  induction pre as [|c pre IH] using rev_ind; intros M; [discriminate|].
  rewrite foldl_snoc, body_events_snoc, last_write_app.
  destruct c; cbn [transform_after call_events]; intros HM.
  - injection HM as <-. reflexivity.
  - cbn. by apply IH.
  - cbn. by apply IH.
  - cbn. by apply IH.
  - destruct (m_objectMaterials s); cbn; by apply IH.
  - discriminate.
Qed.


(** ** The last material and UV scale asked for *)

Lemma FindMaterial_loop_first_material mats tag0 material :
  FindMaterial_loop mats tag0 material =
  match first_material tag0 mats with
  | Some m => with_values_of m material
  | None => material
  end.
Proof.
  induction mats as [|m mats IH]; cbn [FindMaterial_loop first_material find];
    [reflexivity|].
  destruct (String.eqb (material_tag m) tag0); [reflexivity | exact IH].
Qed.

Lemma last_write_UVscale s body :
  last_write "UVscale" (body_events s body) = UVec2 <$> last_uvscale body.
Proof.
  unfold last_uvscale.
  induction body as [|c body IH] using rev_ind; [reflexivity|].
  rewrite foldl_snoc, body_events_snoc, last_write_app.
  destruct c; cbn [uvscale_after call_events]; try (cbn; exact IH).
  - reflexivity.
  - destruct (m_objectMaterials s); cbn; exact IH.
Qed.

Lemma last_write_material s body t mat :
  last_material body = Some t ->
  first_material t (m_objectMaterials s) = Some mat ->
  last_write "material.diffuseColor" (body_events s body)
    = Some (UVec3 (diffuseColor mat)) /\
  last_write "material.specularColor" (body_events s body)
    = Some (UVec3 (specularColor mat)) /\
  last_write "material.shininess" (body_events s body)
    = Some (UFloat (shininess mat)).
Proof.
  unfold last_material.
  induction body as [|c body IH] using rev_ind; [discriminate|].
  rewrite foldl_snoc, body_events_snoc, !last_write_app.
  destruct c; cbn [material_after call_events]; intros Ht Hmat;
    try (cbn; by apply IH).
  injection Ht as ->.
  destruct (m_objectMaterials s) as [|m0 mats] eqn:Hm; [discriminate|].
  cbv zeta. rewrite FindMaterial_loop_first_material, Hmat.
  by repeat split.
Qed.


(** ** Shader state at the draw calls *)

(** The shading last chosen is what "bUseTexture" says; a colour last
    chosen is the value of "objectColor", a texture last chosen has its
    slot in "objectTexture". *)
Lemma last_shading_uniforms s pre : forall sh,
  last_shading pre = Some sh ->
  last_write "bUseTexture" (body_events s pre) = Some (bUseTexture_of sh) /\
  (forall c, sh = Coloured c ->
     last_write "objectColor" (body_events s pre) = Some (UVec4 c)) /\
  (forall textureTag, sh = Textured textureTag ->
     last_write "objectTexture" (body_events s pre)
     = Some (USampler2D (texture_slot s textureTag))).
Proof.
  unfold last_shading.
  induction pre as [|c pre IH] using rev_ind; intros sh; [discriminate|].
  rewrite foldl_snoc, body_events_snoc, !last_write_app.
  destruct c; cbn [shading_after call_events]; intros Hsh.
  - cbn. by apply IH.
  - injection Hsh as <-. split; [reflexivity|]. split.
    + intros c [= <-]. reflexivity.
    + discriminate.
  - injection Hsh as <-. split; [reflexivity|]. split.
    + discriminate.
    + intros t [= <-]. reflexivity.
  - cbn. by apply IH.
  - destruct (m_objectMaterials s); cbn; by apply IH.
  - cbn. by apply IH.
Qed.

Lemma draws_prepared_at body pre mesh0 post :
  draws_prepared body = true ->
  body = (pre ++ Call_DrawMesh mesh0 :: post)%list ->
  draw_prepared pre = true.
Proof.
  unfold draws_prepared. rewrite forallb_forall. intros Hall ->.
  specialize (Hall (length pre)).
  rewrite list_lookup_middle, take_app_length in Hall by reflexivity.
  apply Hall, in_seq. rewrite length_app. cbn [length]. lia.
Qed.

Lemma RenderScene_prepared_check off ks :
  draws_prepared (RenderScene off ks) = true.
Proof. vm_compute. reflexivity. Qed.

(** C6, as stated, has the shader state of every primitive written
    before its draw call.  For 17 of the 88 draw calls the calls made for
    the primitive leave part of it out.  The plane is drawn with a
    texture before any [SetTextureUVScale]: in the prepared scene
    "UVscale" has never been written at its draw call.  The second
    segment of the mouse cable is drawn after a [SetTransformations]
    alone: between the draw call of the first segment and its own the
    only write is to "model".  The CRT panel is drawn without a
    [SetShaderMaterial] of its own. *)
Lemma RenderScene_state_not_set_per_draw :
  draws_where (fun pre => negb (claimed_written_for_primitive pre))
    sample_scene
    = ([0; 8; 9; 10] ++ seq 12 10 ++ [85; 86; 87])%list /\
  (sample_scene !! 3%nat = Some (Call_DrawMesh PlaneMesh) /\
   last_shading (take 3 sample_scene) = Some (Textured "TableTexture") /\
   last_uvscale (take 3 sample_scene) = None /\
   uniforms (state_after (run (take 3 sample_scene)) sample_state_prepared)
     !! "UVscale" = None) /\
  (sample_scene !! 77%nat = Some (Call_DrawMesh CylinderMesh) /\
   sample_scene !! 79%nat = Some (Call_DrawMesh CylinderMesh) /\
   last_shading (since_last_draw (take 79 sample_scene)) = None /\
   exists M,
     trace (state_after (run (take 79 sample_scene)) sample_state_prepared)
     = (trace (state_after (run (take 78 sample_scene))
                 sample_state_prepared)
        ++ [SetUniform "model" (UMat4 M)])%list) /\
  (sample_scene !! 48%nat = Some (Call_DrawMesh BoxMesh) /\
   last_material (since_last_draw (take 48 sample_scene)) = None).
Proof.
  split; [vm_compute; reflexivity|].
  split; [by repeat (split; [vm_compute; reflexivity|]); vm_compute|].
  split.
  - do 3 (split; [vm_compute; reflexivity|]).
    eexists. vm_compute. reflexivity.
  - split; vm_compute; reflexivity.
Qed.

(** C6, as the code has it.  With a shader manager, [SetShaderColor]
    sets "bUseTexture" to false and "objectColor" to the colour given, and
    [SetShaderTexture] sets "bUseTexture" to true and "objectTexture" to
    the slot of the tag.  Before every draw call of [RenderScene] a
    [SetTransformations] has been made since the previous draw call, and
    "model" holds its matrix.  The other uniforms hold what the most
    recent call of the frame wrote, whichever primitive it was made for:
    "bUseTexture" and "objectColor" or "objectTexture" reflect the last
    [SetShaderColor] or [SetShaderTexture], "UVscale" the last
    [SetTextureUVScale], or its value from before the frame when there was
    none yet, and the material uniforms the material found for the tag of
    the last [SetShaderMaterial].  The draw calls 20, 21, 86 and 87 (the
    second and third segment of the two cables) come without a colour or
    texture call of their own, sixteen draw calls without a
    [SetShaderMaterial] of their own, and draw call 0, the plane, is
    textured with no [SetTextureUVScale] before it. *)
Theorem RenderScene_draw_state off ks :
  (forall r g b a s,
     m_pShaderManager s = NonNull ->
     exists s',
       SetShaderColor r g b a s = Done tt s' /\
       uniforms s' !! "bUseTexture" = Some (UInt (Z.b2z false)) /\
       uniforms s' !! "objectColor" = Some (UVec4 (glm_vec4 r g b a))) /\
  (forall textureTag s,
     renderable s ->
     exists s',
       SetShaderTexture textureTag s = Done tt s' /\
       uniforms s' !! "bUseTexture" = Some (UInt (Z.b2z true)) /\
       uniforms s' !! "objectTexture"
         = Some (USampler2D (texture_slot s textureTag))) /\
  (forall s pre mesh0 post,
     renderable s ->
     RenderScene off ks = (pre ++ Call_DrawMesh mesh0 :: post)%list ->
     exists s1 M sh materialTag,
       run pre s = Done tt s1 /\
       pending_transform pre = Some M /\
       uniforms s1 !! "model" = Some (UMat4 M) /\
       last_shading pre = Some sh /\
       uniforms s1 !! "bUseTexture" = Some (bUseTexture_of sh) /\
       (forall c, sh = Coloured c ->
          uniforms s1 !! "objectColor" = Some (UVec4 c)) /\
       (forall textureTag, sh = Textured textureTag ->
          uniforms s1 !! "objectTexture"
          = Some (USampler2D (texture_slot s textureTag))) /\
       uniforms s1 !! "UVscale" =
         match last_uvscale pre with
         | Some uv => Some (UVec2 uv)
         | None => uniforms s !! "UVscale"
         end /\
       last_material pre = Some materialTag /\
       (forall mat,
          first_material materialTag (m_objectMaterials s) = Some mat ->
          uniforms s1 !! "material.diffuseColor"
            = Some (UVec3 (diffuseColor mat)) /\
          uniforms s1 !! "material.specularColor"
            = Some (UVec3 (specularColor mat)) /\
          uniforms s1 !! "material.shininess"
            = Some (UFloat (shininess mat)))) /\
  draws_where no_shading_of_its_own (RenderScene off ks)
    = [20; 21; 86; 87]%nat /\
  draws_where no_material_of_its_own (RenderScene off ks)
    = ([8; 9; 10] ++ seq 12 10 ++ [85; 86; 87])%list /\
  draws_where textured_without_uvscale (RenderScene off ks) = [0%nat].
Proof.
  split; [|split; [|split]].
  - intros r g b a s Hp.
    unfold SetShaderColor, g_UseTextureName, g_ColorValueName.
    erewrite bind_Done by reflexivity. rewrite Hp.
    change s with (replay [] s) at 1. shader_steps Hp.
    eexists. split; [reflexivity|]. by rewrite !uniforms_replay.
  - intros textureTag s Hr.
    exists (replay (call_events s (Call_SetShaderTexture textureTag)) s).
    split; [exact (exec_replay (Call_SetShaderTexture textureTag) [] s Hr)|].
    by rewrite !uniforms_replay.
  - intros s pre mesh0 post Hr Hsplit.
    pose proof (draws_prepared_at _ _ _ _
                  (RenderScene_prepared_check off ks) Hsplit) as Hok.
    unfold draw_prepared in Hok.
    apply andb_true_iff in Hok as [Hok Hmat].
    apply andb_true_iff in Hok as [HM Hsh].
    destruct (pending_transform pre) as [M|] eqn:EM; [|discriminate].
    destruct (last_shading pre) as [sh|] eqn:Esh; [|discriminate].
    destruct (last_material pre) as [t|] eqn:Et; [|discriminate].
    destruct (last_shading_uniforms s pre sh Esh)
      as (Hmode & Hcolor & Htexture).
    exists (replay (body_events s pre) s), M, sh, t.
    split; [by apply run_events|]. split; [reflexivity|].
    rewrite !uniforms_replay, (pending_transform_model s pre M EM), Hmode.
    do 3 (split; [reflexivity|]).
    split; [intros c Hc; by rewrite (Hcolor c Hc)|].
    split; [intros tag1 Htag; by rewrite (Htexture tag1 Htag)|].
    split.
    { rewrite last_write_UVscale. by destruct (last_uvscale pre). }
    split; [reflexivity|].
    intros mat Hfound.
    destruct (last_write_material s pre t mat Et Hfound) as (Hd & Hs & Hn).
    by rewrite Hd, Hs, Hn.
  - split; [vm_compute; reflexivity|].
    split; vm_compute; reflexivity.
Qed.

(** [PrepareScene] on [sample_state]: the three textures and the two
    materials are there afterwards. *)
Lemma PrepareScene_sample :
  PrepareScene sample_state = Done tt sample_state_prepared /\
  m_loadedTextures sample_state_prepared = 3%Z /\
  length (m_objectMaterials sample_state_prepared) = 2%nat /\
  texture_slot sample_state_prepared "CRTScreen" = 1%Z /\
  texture_slot sample_state_prepared "TableTexture" = 2%Z.
Proof. do 4 (split; [vm_compute; reflexivity|]). vm_compute. reflexivity. Qed.

Lemma RenderScene_draw_state_witness :
  exists s1,
    run (take 48 sample_scene) sample_state_prepared = Done tt s1 /\
    sample_scene !! 48%nat = Some (Call_DrawMesh BoxMesh) /\
    uniforms s1 !! "model" =
      Some (UMat4 (claimed_model_matrix (glm_vec3 3.5%Q 2.8%Q 0.2%Q)
                     0%Q 0%Q 0%Q (glm_vec3 (-1.25)%Q 3.5%Q 2.6%Q)
                     sample_offset)) /\
    uniforms s1 !! "bUseTexture" = Some (UInt 1) /\
    uniforms s1 !! "objectTexture" = Some (USampler2D 1) /\
    uniforms s1 !! "UVscale" = Some (UVec2 (glm_vec2 1.0%Q 1.0%Q)) /\
    uniforms s1 !! "material.shininess" = Some (UFloat 2.0%Q).
Proof.
  destruct (RenderScene_draw_state sample_offset sample_keyScale)
    as (_ & _ & Hdraw & _).
  destruct (Hdraw sample_state_prepared
              (take 48 sample_scene) BoxMesh (drop 49 sample_scene))
    as (s1 & M & sh & t & Hrun & HM & Hmodel & Hsh & Hmode & _ & Htexture &
        Huv & Ht & Hmat).
  - split; [vm_compute; reflexivity | vm_compute; lia].
  - vm_compute. reflexivity.
  - exists s1. split; [exact Hrun|].
    split; [vm_compute; reflexivity|].
    vm_compute in HM. injection HM as <-.
    vm_compute in Hsh. injection Hsh as <-.
    vm_compute in Ht. injection Ht as <-.
    split; [exact Hmodel|]. split; [exact Hmode|].
    split.
    { rewrite (Htexture _ eq_refl). vm_compute. reflexivity. }
    split.
    { rewrite Huv.
      by replace (last_uvscale (take 48 sample_scene))
        with (Some (glm_vec2 1.0%Q 1.0%Q)) by (vm_compute; reflexivity). }
    destruct (Hmat plasticMaterial) as (_ & _ & Hshininess);
      [vm_compute; reflexivity | exact Hshininess].
Defined.

(** * Further properties *)

(** [lia] on the goal alone, for contexts whose induction hypothesis it
    stumbles over. *)
Ltac lia_goal :=
  first
    [ lia
    | repeat match goal with
             | H : ?T |- _ => lazymatch T with forall _, _ => clear H end
             end;
      lia ].

(** ** Looking a texture up *)

Lemma find_texture_in_Some slots count : forall index tag0 r t,
  (0 <= index)%Z ->
  find_texture_in slots count index tag0 = Some (r, t) ->
  (index <= r < index + Z.of_nat count)%Z /\
  slots !! Z.to_nat r = Some t /\ tag t = tag0 /\
  forall j t', (Z.to_nat index <= j < Z.to_nat r)%nat ->
    slots !! j = Some t' -> tag t' ≠ tag0.
Proof.
  induction count as [|count IH]; intros index tag0 r t Hi;
    cbn [find_texture_in]; [discriminate|].
  destruct (slots !! Z.to_nat index) as [t0|] eqn:Ht0; [|discriminate].
  destruct (String.eqb_spec (tag t0) tag0) as [Heq|Hne].
  - intros [= <- <-]. split; [lia_goal|]. split; [exact Ht0|].
    split; [exact Heq|]. intros j t' Hj. clear -Hj. lia.
  - intros Hfind.
    assert (Hi' : (0 <= index + 1)%Z) by lia_goal.
    destruct (IH _ _ _ _ Hi' Hfind) as (Hr & Hslot & Htag & Hfirst).
    split; [lia_goal|]. split; [exact Hslot|]. split; [exact Htag|].
    intros j t' Hj Hj'.
    destruct (decide (j = Z.to_nat index)) as [->|Hne'].
    + rewrite Ht0 in Hj'. by injection Hj' as <-.
    + apply (Hfirst j t'); [lia_goal | exact Hj'].
Qed.

Lemma find_texture_in_None slots count : forall index tag0,
  (0 <= index)%Z ->
  (Z.to_nat index + count <= length slots)%nat ->
  find_texture_in slots count index tag0 = None ->
  forall j t, (Z.to_nat index <= j < Z.to_nat index + count)%nat ->
    slots !! j = Some t -> tag t ≠ tag0.
Proof.
  induction count as [|count IH]; intros index tag0 Hi Hlen;
    cbn [find_texture_in]; [intros _ j t Hj; lia_goal|].
  destruct (lookup_lt_is_Some_2 slots (Z.to_nat index)) as [t0 Ht0]; [lia_goal|].
  rewrite Ht0.
  destruct (String.eqb_spec (tag t0) tag0) as [Heq|Hne]; [discriminate|].
  intros Hfind j t Hj Hj'.
  destruct (decide (j = Z.to_nat index)) as [->|Hne'].
  - rewrite Ht0 in Hj'. by injection Hj' as <-.
  - assert (Hi' : (0 <= index + 1)%Z) by lia_goal.
    assert (Hlen' : (Z.to_nat (index + 1) + count <= length slots)%nat)
      by lia_goal.
    apply (IH (index + 1)%Z tag0 Hi' Hlen' Hfind j t);
      [lia_goal | exact Hj'].
Qed.

Lemma find_texture_run tag0 s :
  textures_fit s ->
  find_texture_from (Z.to_nat (m_loadedTextures s)) 0 tag0 s =
  Done (find_texture_in (m_textureIDs s) (Z.to_nat (m_loadedTextures s)) 0
          tag0) s.
Proof. intros Hfit. apply find_texture_from_in; [lia | exact Hfit]. Qed.

(** X1: when the loaded textures fit the array, [FindTextureSlot]
    changes nothing and returns either -1, and then no loaded slot
    carries the tag, or the index of the first loaded slot that carries
    it. *)
Theorem FindTextureSlot_first_match tag0 s :
  textures_fit s ->
  exists r,
    FindTextureSlot tag0 s = Done r s /\
    ((r = (-1)%Z /\
      no_texture_tagged tag0 (Z.to_nat (m_loadedTextures s))
        (m_textureIDs s)) \/
     ((0 <= r < m_loadedTextures s)%Z /\
      (exists t, m_textureIDs s !! Z.to_nat r = Some t /\ tag t = tag0) /\
      no_texture_tagged tag0 (Z.to_nat r) (m_textureIDs s))).
Proof.
  intros Hfit. unfold FindTextureSlot.
  erewrite bind_Done by reflexivity.
  erewrite bind_Done by (by apply find_texture_run).
  destruct (find_texture_in _ _ _ _) as [[r t]|] eqn:Hfind.
  - exists r. split; [reflexivity|]. right.
    destruct (find_texture_in_Some _ _ _ _ _ _ (Z.le_refl 0) Hfind)
      as (Hr & Hslot & Htag & Hfirst).
    split; [lia|]. split; [by exists t|].
    intros j t' Hj. apply Hfirst. lia.
  - exists (-1)%Z. split; [reflexivity|]. left. split; [reflexivity|].
    intros j t Hj.
    apply (find_texture_in_None _ _ _ _ (Z.le_refl 0) Hfit Hfind). lia.
Qed.

Lemma FindTextureSlot_first_match_witness :
  exists r,
    FindTextureSlot "CRTScreen" sample_state_prepared
      = Done r sample_state_prepared /\
    ((r = (-1)%Z /\
      no_texture_tagged "CRTScreen"
        (Z.to_nat (m_loadedTextures sample_state_prepared))
        (m_textureIDs sample_state_prepared)) \/
     ((0 <= r < m_loadedTextures sample_state_prepared)%Z /\
      (exists t, m_textureIDs sample_state_prepared !! Z.to_nat r = Some t /\
                 tag t = "CRTScreen") /\
      no_texture_tagged "CRTScreen" (Z.to_nat r)
        (m_textureIDs sample_state_prepared))).
Proof.
  apply (FindTextureSlot_first_match "CRTScreen" sample_state_prepared).
  vm_compute. lia.
Defined.

Lemma GLuint_to_int_small name :
  (Z.of_N name < 2 ^ 31)%Z -> GLuint_to_int name = Z.of_N name.
Proof.
  intros Hsmall. unfold GLuint_to_int.
  rewrite Z.mod_small by lia.
  destruct (Z.ltb_spec (Z.of_N name) (2 ^ 31)); [reflexivity | lia].
Qed.

Lemma GLuint_to_int_minus_one name :
  GLuint_to_int name = (-1)%Z <->
  (Z.of_N name mod 2 ^ 32 = 2 ^ 32 - 1)%Z.
Proof.
  unfold GLuint_to_int.
  pose proof (Z.mod_pos_bound (Z.of_N name) (2 ^ 32) ltac:(lia)) as Hbits.
  destruct (Z.ltb_spec (Z.of_N name mod 2 ^ 32) (2 ^ 31)); cbv zeta; lia.
Qed.

(** X2: under the same condition [FindTextureID] returns -1 when
    [FindTextureSlot] does, and otherwise the name stored in the slot
    that [FindTextureSlot] returns, read as an [int]: the name itself
    while it is below 2^31, and -1 again exactly for the name 4294967295.
    So -1 is the answer for a tag that is not loaded and for a loaded
    texture of that name alike. *)
Theorem FindTextureID_of_slot tag0 s :
  textures_fit s ->
  exists r id,
    FindTextureSlot tag0 s = Done r s /\
    FindTextureID tag0 s = Done id s /\
    (r = (-1)%Z -> id = (-1)%Z) /\
    (r ≠ (-1)%Z ->
     exists t, m_textureIDs s !! Z.to_nat r = Some t /\
               id = GLuint_to_int (ID t) /\
               ((Z.of_N (ID t) < 2 ^ 31)%Z -> id = Z.of_N (ID t)) /\
               (id = (-1)%Z <-> (Z.of_N (ID t) mod 2 ^ 32 = 2 ^ 32 - 1)%Z)).
Proof.
  intros Hfit. unfold FindTextureSlot, FindTextureID.
  erewrite !bind_Done by first [ reflexivity | by apply find_texture_run ].
  destruct (find_texture_in _ _ _ _) as [[r t]|] eqn:Hfind.
  - destruct (find_texture_in_Some _ _ _ _ _ _ (Z.le_refl 0) Hfind)
      as (Hr & Hslot & _).
    exists r, (GLuint_to_int (ID t)). do 2 (split; [reflexivity|]).
    split; [lia|]. intros _. exists t.
    split; [exact Hslot|]. split; [reflexivity|].
    split; [apply GLuint_to_int_small | apply GLuint_to_int_minus_one].
  - exists (-1)%Z, (-1)%Z. do 2 (split; [reflexivity|]). by split.
Qed.

Lemma FindTextureID_of_slot_witness :
  (exists r id,
     FindTextureSlot "max" sample_state_max_name
       = Done r sample_state_max_name /\
     FindTextureID "max" sample_state_max_name
       = Done id sample_state_max_name /\
     (r = (-1)%Z -> id = (-1)%Z) /\
     (r ≠ (-1)%Z ->
      exists t, m_textureIDs sample_state_max_name !! Z.to_nat r = Some t /\
                id = GLuint_to_int (ID t) /\
                ((Z.of_N (ID t) < 2 ^ 31)%Z -> id = Z.of_N (ID t)) /\
                (id = (-1)%Z <->
                 (Z.of_N (ID t) mod 2 ^ 32 = 2 ^ 32 - 1)%Z))) /\
  FindTextureSlot "max" sample_state_max_name
    = Done 0%Z sample_state_max_name /\
  FindTextureID "max" sample_state_max_name
    = Done (-1)%Z sample_state_max_name.
Proof.
  split.
  - apply (FindTextureID_of_slot "max" sample_state_max_name).
    vm_compute. lia.
  - split; vm_compute; reflexivity.
Defined.

(** X3: with a count beyond the array and no slot of the array carrying
    the tag, the search of [FindTextureSlot] and [FindTextureID] runs off
    the array: the calls are undefined, -1 is not returned. *)
Theorem FindTexture_overrun tag0 s :
  (length (m_textureIDs s) < Z.to_nat (m_loadedTextures s))%nat ->
  no_texture_tagged tag0 (length (m_textureIDs s)) (m_textureIDs s) ->
  FindTextureSlot tag0 s = Undefined TextureSlotOutOfBounds /\
  FindTextureID tag0 s = Undefined TextureSlotOutOfBounds.
Proof.
  intros Hlen Hno.
  assert (Hloop : forall count index,
            (0 <= index)%Z ->
            (Z.to_nat index <= length (m_textureIDs s))%nat ->
            (length (m_textureIDs s) < Z.to_nat index + count)%nat ->
            find_texture_from count index tag0 s
            = Undefined TextureSlotOutOfBounds).
  { induction count as [|count IH]; intros index Hi Hin Hc; [lia_goal|].
    cbn [find_texture_from].
    destruct (m_textureIDs s !! Z.to_nat index) as [t|] eqn:Ht.
    - rewrite (bind_Done _ _ _ _ _ (read_textureIDs_Some _ _ _ Hi Ht)).
      pose proof (lookup_lt_Some _ _ _ Ht) as Hlt.
      destruct (String.eqb_spec (tag t) tag0) as [Heq|_].
      + by destruct (Hno _ _ Hlt Ht).
      + apply IH; lia_goal.
    - unfold mbind, M_bind. rewrite read_textureIDs_out; [reflexivity|].
      intros [_ Hlt]. apply lookup_ge_None in Ht. lia_goal. }
  unfold FindTextureSlot, FindTextureID, mbind, M_bind, get.
  rewrite Hloop by lia. by split.
Qed.

Lemma no_texture_tagged_Forall tag0 n slots :
  Forall (fun t => tag t ≠ tag0) slots -> no_texture_tagged tag0 n slots.
Proof.
  intros Hall j t _ Hj. rewrite Forall_forall in Hall.
  apply Hall. by apply list_elem_of_lookup_2 in Hj.
Qed.

Lemma FindTexture_overrun_witness :
  FindTextureSlot "Keyboard" sample_state_overrun
    = Undefined TextureSlotOutOfBounds /\
  FindTextureID "Keyboard" sample_state_overrun
    = Undefined TextureSlotOutOfBounds.
Proof.
  apply (FindTexture_overrun "Keyboard" sample_state_overrun).
  - vm_compute. lia.
  - apply no_texture_tagged_Forall. vm_compute.
    repeat (constructor; [discriminate|]). constructor.
Defined.

(** ** What a load does to OpenGL *)

Lemma CreateGLTexture_accepts_gl filename tag0 s img :
  image_files s !! filename = Some img ->
  (colorChannels img = 3 \/ colorChannels img = 4)%Z ->
  slot_in_bounds s ->
  exists s' before,
    CreateGLTexture filename tag0 s = Done true s' /\
    same_surroundings s s' /\
    gl_next_name (gl s') = N.succ (gl_next_name (gl s)) /\
    gl_active_texture (gl s') = gl_active_texture (gl s) /\
    gl_texture_binding (gl s') =
      <[gl_active_texture (gl s) := 0%N]> (gl_texture_binding (gl s)) /\
    gl_texture_image (gl s') =
      <[gl_next_name (gl s) := uploaded_image img]>
        (gl_texture_image (gl s)) /\
    trace s' =
      (trace s ++ before ++
       [GLCall (glTexImage2D_call GL_TEXTURE_2D 0 (uploaded_image img));
        GLCall (glGenerateMipmap_call GL_TEXTURE_2D);
        Stbi_image_free;
        GLCall (glBindTexture_call GL_TEXTURE_2D 0)])%list /\
    Stbi_image_free ∉ before.
Proof.
  intros Himg Hch [Hn Hlen].
  destruct (lookup_lt_is_Some_2 _ _ Hlen) as [t Ht].
  unfold CreateGLTexture, uploaded_image. mrun.
  rewrite Himg. mrun.
  destruct Hch as [E | E];
    [ rewrite !(proj2 (Z.eqb_eq _ 3) E)
    | rewrite !(proj2 (Z.eqb_neq _ 3)) by lia;
      rewrite (proj2 (Z.eqb_eq _ 4) E) ]; mrun.
  all: rewrite (write_textureIDs_Some _ _ t) by assumption; mrun.
  all: erewrite write_textureIDs_Some;
    [ | assumption | mrun; apply list_lookup_insert_eq; assumption ]; mrun.
  all: eexists _, [_; _; _; _; _; _; _; _; _; _; _];
    split; [reflexivity|]; mrun.
  all: split; [by repeat split|].
  all: unfold gl_bound_texture;
    cbn [gl_texture_binding gl_active_texture set_gl_texture_binding
         set_gl_next_name];
    rewrite lookup_insert_eq, insert_insert_eq; cbn [default].
  all: do 4 (split; [reflexivity|]).
  all: split; [rewrite <- !app_assoc; reflexivity|].
  all: intros Hin; repeat (apply elem_of_cons in Hin as [Hin|Hin];
                           [discriminate|]); by apply elem_of_nil in Hin.
Qed.

Lemma CreateGLTexture_unsupported_gl filename tag0 s img :
  image_files s !! filename = Some img ->
  colorChannels img ≠ 3%Z -> colorChannels img ≠ 4%Z ->
  exists s' delta,
    CreateGLTexture filename tag0 s = Done false s' /\
    same_surroundings s s' /\
    m_textureIDs s' = m_textureIDs s /\
    m_loadedTextures s' = m_loadedTextures s /\
    gl_next_name (gl s') = N.succ (gl_next_name (gl s)) /\
    gl_active_texture (gl s') = gl_active_texture (gl s) /\
    gl_texture_binding (gl s') =
      <[gl_active_texture (gl s) := gl_next_name (gl s)]>
        (gl_texture_binding (gl s)) /\
    gl_texture_image (gl s') = gl_texture_image (gl s) /\
    trace s' = (trace s ++ delta)%list /\
    GLCall (glGenTextures_call (gl_next_name (gl s))) ∈ delta /\
    Stbi_image_free ∉ delta.
Proof.
  intros Himg H3 H4. unfold CreateGLTexture. mrun. rewrite Himg. mrun.
  rewrite (proj2 (Z.eqb_neq _ 3) H3), (proj2 (Z.eqb_neq _ 4) H4).
  eexists _, [_; _; _; _; _; _; _; _; _; _; _; _]. split; [reflexivity|].
  mrun. split; [by repeat split|]. do 6 (split; [reflexivity|]).
  split; [rewrite <- !app_assoc; reflexivity|]. split.
  - do 5 apply list_elem_of_further. apply list_elem_of_here.
  - intros Hin. repeat (apply elem_of_cons in Hin as [Hin|Hin];
                        [discriminate|]). by apply elem_of_nil in Hin.
Qed.

Lemma CreateGLTexture_undecoded_gl filename tag0 s :
  image_files s !! filename = None ->
  exists s',
    CreateGLTexture filename tag0 s = Done false s' /\
    same_surroundings s s' /\
    m_textureIDs s' = m_textureIDs s /\
    m_loadedTextures s' = m_loadedTextures s /\
    gl s' = gl s.
Proof.
  intros Himg. unfold CreateGLTexture. mrun. rewrite Himg. mrun.
  eexists. split; [reflexivity|]. mrun. by repeat split.
Qed.

(** X4: a load that returns [true] has created one texture object: its
    name is the one that went into the slot, it holds the decoded image
    as RGB8/RGB for three channels and RGBA8/RGBA for four, the images of
    all other textures are as before, the decoded image has been freed,
    and the active unit is left with no texture bound. *)
Theorem CreateGLTexture_uploads filename tag0 s s' :
  CreateGLTexture filename tag0 s = Done true s' ->
  exists img,
    image_files s !! filename = Some img /\
    gl_texture_image (gl s') !! gl_next_name (gl s)
      = Some (uploaded_image img) /\
    (forall name, name ≠ gl_next_name (gl s) ->
       gl_texture_image (gl s') !! name = gl_texture_image (gl s) !! name) /\
    gl_texture_binding (gl s') !! gl_active_texture (gl s') = Some 0%N /\
    exists before after,
      trace s' = (trace s ++ before ++ Stbi_image_free :: after)%list /\
      (Stbi_image_free ∉ before) /\ (Stbi_image_free ∉ after).
Proof.
  intros Hrun.
  destruct (image_files s !! filename) as [img|] eqn:Himg.
  2: { destruct (CreateGLTexture_undecoded_gl filename tag0 s Himg)
         as (s1 & Hrun1 & _). rewrite Hrun1 in Hrun. discriminate. }
  destruct (decide ((colorChannels img = 3)%Z \/ (colorChannels img = 4)%Z))
    as [Hch|Hch].
  2: { destruct (CreateGLTexture_unsupported_gl filename tag0 s img Himg)
         as (s1 & delta & Hrun1 & _); [lia | lia |].
       rewrite Hrun1 in Hrun. discriminate. }
  destruct (slot_in_bounds_dec s) as [Hin|Hout].
  2: { rewrite CreateGLTexture_overruns in Hrun; [discriminate | | exact Hout].
       apply decodes_supported_iff. by exists img. }
  destruct (CreateGLTexture_accepts_gl filename tag0 s img Himg Hch Hin)
    as (s1 & before & Hrun1 & _ & _ & Hact & Hbind & Himgs & Htr & Hfree).
  rewrite Hrun1 in Hrun. injection Hrun as <-.
  exists img. split; [reflexivity|].
  rewrite Himgs, Hbind, Hact.
  split; [apply lookup_insert_eq|].
  split; [intros name Hname; by apply lookup_insert_ne|].
  split; [apply lookup_insert_eq|].
  exists (before ++
          [GLCall (glTexImage2D_call GL_TEXTURE_2D 0 (uploaded_image img));
           GLCall (glGenerateMipmap_call GL_TEXTURE_2D)])%list,
         [GLCall (glBindTexture_call GL_TEXTURE_2D 0)].
  split; [rewrite Htr, <- !app_assoc; reflexivity|]. split.
  - intros Hin'. apply elem_of_app in Hin' as [Hin'|Hin']; [by apply Hfree|].
    repeat (apply elem_of_cons in Hin' as [Hin'|Hin']; [discriminate|]).
    by apply elem_of_nil in Hin'.
  - intros Hin'. apply elem_of_cons in Hin' as [Hin'|Hin']; [discriminate|].
    by apply elem_of_nil in Hin'.
Qed.

Lemma CreateGLTexture_uploads_witness :
  exists img,
    image_files sample_state !! "textures/crt_on_texture_1.jpg" = Some img /\
    gl_texture_image
      (gl (state_after
             (CreateGLTexture "textures/crt_on_texture_1.jpg" "CRTScreen")
             sample_state)) !! 1%N = Some (uploaded_image img).
Proof.
  destruct (CreateGLTexture_uploads "textures/crt_on_texture_1.jpg"
              "CRTScreen" sample_state
              (state_after
                 (CreateGLTexture "textures/crt_on_texture_1.jpg" "CRTScreen")
                 sample_state))
    as (img & Himg & Hup & _).
  - vm_compute. reflexivity.
  - exists img. split; [exact Himg | exact Hup].
Defined.

(** X5: a file that decodes to an image of another channel count makes
    [CreateGLTexture] return [false] with a texture name used up and
    still bound on the active unit, and without the decoded image being
    freed; the slots, the count and the texture images are as before.  A
    file that does not decode leaves the whole OpenGL state as it was. *)
Theorem CreateGLTexture_rejected_leftovers filename tag0 s :
  (forall img,
     image_files s !! filename = Some img ->
     colorChannels img ≠ 3%Z -> colorChannels img ≠ 4%Z ->
     exists s' delta,
       CreateGLTexture filename tag0 s = Done false s' /\
       m_textureIDs s' = m_textureIDs s /\
       m_loadedTextures s' = m_loadedTextures s /\
       gl_next_name (gl s') = N.succ (gl_next_name (gl s)) /\
       gl_texture_binding (gl s') !! gl_active_texture (gl s')
         = Some (gl_next_name (gl s)) /\
       gl_texture_image (gl s') = gl_texture_image (gl s) /\
       trace s' = (trace s ++ delta)%list /\
       GLCall (glGenTextures_call (gl_next_name (gl s))) ∈ delta /\
       Stbi_image_free ∉ delta) /\
  (image_files s !! filename = None ->
   exists s',
     CreateGLTexture filename tag0 s = Done false s' /\
     m_textureIDs s' = m_textureIDs s /\
     m_loadedTextures s' = m_loadedTextures s /\
     gl s' = gl s).
Proof.
  split.
  - intros img Himg H3 H4.
    destruct (CreateGLTexture_unsupported_gl filename tag0 s img Himg H3 H4)
      as (s' & delta & Hrun & _ & Harr & Hn & Hnext & Hact & Hbind & Himgs
          & Htr & Hgen & Hfree).
    exists s', delta. split; [exact Hrun|].
    split; [exact Harr|]. split; [exact Hn|]. split; [exact Hnext|].
    split; [rewrite Hbind, Hact; apply lookup_insert_eq|].
    split; [exact Himgs|]. by repeat split.
  - intros Himg.
    destruct (CreateGLTexture_undecoded_gl filename tag0 s Himg)
      as (s' & Hrun & _ & Harr & Hn & Hgl).
    exists s'. by repeat split.
Qed.

Lemma CreateGLTexture_rejected_leftovers_witness :
  (exists s',
     CreateGLTexture "textures/grey.png" "Grey" sample_state = Done false s' /\
     gl_next_name (gl s') = 2%N /\
     gl_texture_binding (gl s') !! gl_active_texture (gl s') = Some 1%N) /\
  (exists s',
     CreateGLTexture "textures/missing.png" "Missing" sample_state
       = Done false s' /\
     gl s' = gl sample_state).
Proof.
  destruct (CreateGLTexture_rejected_leftovers "textures/grey.png" "Grey"
              sample_state) as [Hleak _].
  destruct (CreateGLTexture_rejected_leftovers "textures/missing.png"
              "Missing" sample_state) as [_ Hnone].
  split.
  - destruct (Hleak (sample_image 1))
      as (s' & delta & Hrun & _ & _ & Hnext & Hbind & _);
      [vm_compute; reflexivity | discriminate | discriminate |].
    exists s'. split; [exact Hrun|]. split; [exact Hnext | exact Hbind].
  - destruct Hnone as (s' & Hrun & _ & _ & Hgl);
      [vm_compute; reflexivity|].
    exists s'. split; [exact Hrun | exact Hgl].
Defined.

(** ** Loading, then looking up *)

Lemma CreateGLTexture_true_inv filename tag0 s s' :
  CreateGLTexture filename tag0 s = Done true s' ->
  slot_in_bounds s /\
  m_textureIDs s' =
    <[Z.to_nat (m_loadedTextures s) :=
        {| ID := gl_next_name (gl s); tag := tag0 |}]> (m_textureIDs s) /\
  m_loadedTextures s' = (m_loadedTextures s + 1)%Z.
Proof.
  intros Hrun. destruct (decodes_supported s filename) eqn:Hdec.
  - destruct (slot_in_bounds_dec s) as [Hin|Hout].
    + destruct (CreateGLTexture_accepts filename tag0 s Hdec Hin)
        as (s1 & delta & Hrun1 & Harr & Hn & _).
      rewrite Hrun1 in Hrun. injection Hrun as <-.
      split; [exact Hin|]. by split.
    + rewrite CreateGLTexture_overruns in Hrun by assumption. discriminate.
  - destruct (CreateGLTexture_rejects filename tag0 s Hdec)
      as (s1 & delta & Hrun1 & _). rewrite Hrun1 in Hrun. discriminate.
Qed.

(** The search over one more slot, the new one written at the end. *)
Lemma find_texture_in_insert slots n x tag1 : forall count index,
  (n < length slots)%nat ->
  (0 <= index)%Z ->
  (Z.to_nat index + count)%nat = n ->
  find_texture_in (<[n := x]> slots) (S count) index tag1 =
  match find_texture_in slots count index tag1 with
  | Some found => Some found
  | None =>
      if String.eqb (tag x) tag1 then Some (Z.of_nat n, x) else None
  end.
Proof.
  induction count as [|count IH]; intros index Hlen Hi Hn.
  - cbn [find_texture_in].
    replace (Z.to_nat index) with n by lia_goal.
    rewrite list_lookup_insert_eq by exact Hlen.
    replace (Z.of_nat n) with index by lia_goal.
    by destruct (String.eqb (tag x) tag1).
  - cbn [find_texture_in] in *.
    rewrite list_lookup_insert_ne by lia_goal.
    destruct (lookup_lt_is_Some_2 slots (Z.to_nat index)) as [t Ht];
      [lia_goal|].
    rewrite Ht. destruct (String.eqb (tag t) tag1); [reflexivity|].
    assert (Hi' : (0 <= index + 1)%Z) by lia_goal.
    assert (Hn' : (Z.to_nat (index + 1) + count)%nat = n) by lia_goal.
    exact (IH _ Hlen Hi' Hn').
Qed.

(** X6: after a load that returned [true], [FindTextureSlot] returns for
    every tag what it returned before, except that a tag it did not find
    before and that is the tag of the load is now found at the slot the
    load filled.  A tag that was loaded before keeps its old slot, so the
    second texture of one tag cannot be reached. *)
Theorem CreateGLTexture_then_FindTextureSlot filename tag0 s s' tag1 :
  CreateGLTexture filename tag0 s = Done true s' ->
  exists r r',
    FindTextureSlot tag1 s = Done r s /\
    FindTextureSlot tag1 s' = Done r' s' /\
    (r ≠ (-1)%Z -> r' = r) /\
    (r = (-1)%Z -> tag1 = tag0 -> r' = m_loadedTextures s) /\
    (r = (-1)%Z -> tag1 ≠ tag0 -> r' = (-1)%Z).
Proof.
  intros Hrun.
  destruct (CreateGLTexture_true_inv _ _ _ _ Hrun) as ([Hn Hlen] & Harr & Hn').
  assert (Hfit : textures_fit s) by (unfold textures_fit; lia).
  assert (Hfit' : textures_fit s').
  { unfold textures_fit. rewrite Harr, Hn', length_insert. lia. }
  unfold FindTextureSlot.
  erewrite !bind_Done by first [ reflexivity | by apply find_texture_run ].
  rewrite Harr, Hn'.
  replace (Z.to_nat (m_loadedTextures s + 1))
    with (S (Z.to_nat (m_loadedTextures s))) by lia.
  rewrite (find_texture_in_insert _ _ _ _ _ 0%Z Hlen (Z.le_refl 0) eq_refl).
  destruct (find_texture_in (m_textureIDs s) _ 0 tag1) as [[r t]|] eqn:Hfind.
  - destruct (find_texture_in_Some _ _ _ _ _ _ (Z.le_refl 0) Hfind)
      as (Hr & _).
    exists r, r. do 2 (split; [reflexivity|]).
    split; [reflexivity|]. split; intros; lia.
  - cbn [tag]. destruct (String.eqb_spec tag0 tag1) as [Heq|Hne].
    + exists (-1)%Z, (m_loadedTextures s).
      split; [reflexivity|]. split; [f_equal; lia|].
      split; [done|]. split; [done|]. intros _ Hne. by destruct Hne.
    + exists (-1)%Z, (-1)%Z. do 2 (split; [reflexivity|]).
      split; [done|]. split; [|done]. intros _ Heq. by destruct Hne.
Qed.

Lemma CreateGLTexture_then_FindTextureSlot_witness :
  exists r r',
    FindTextureSlot "CRTScreen" sample_state_two_textures
      = Done r sample_state_two_textures /\
    FindTextureSlot "CRTScreen"
      (state_after
         (CreateGLTexture "textures/table_texture_1.jpeg" "CRTScreen")
         sample_state_two_textures)
      = Done r'
          (state_after
             (CreateGLTexture "textures/table_texture_1.jpeg" "CRTScreen")
             sample_state_two_textures) /\
    (r ≠ (-1)%Z -> r' = r) /\
    (r = (-1)%Z -> "CRTScreen" = "CRTScreen" ->
     r' = m_loadedTextures sample_state_two_textures) /\
    (r = (-1)%Z -> "CRTScreen" ≠ "CRTScreen" -> r' = (-1)%Z).
Proof.
  apply (CreateGLTexture_then_FindTextureSlot
           "textures/table_texture_1.jpeg" "CRTScreen"
           sample_state_two_textures).
  vm_compute. reflexivity.
Defined.

(** ** Binding the textures to units *)

Lemma BindGLTextures_loop count : forall (i : nat) s,
  (i + count <= length (m_textureIDs s))%nat ->
  exists s',
    for_loop_from count (Z.of_nat i)
      (fun i => glActiveTexture i;;
                t ← read_textureIDs i;
                glBindTexture GL_TEXTURE_2D (ID t)) s
      = Done tt s' /\
    same_surroundings s s' /\
    m_textureIDs s' = m_textureIDs s /\
    m_loadedTextures s' = m_loadedTextures s /\
    gl_next_name (gl s') = gl_next_name (gl s) /\
    gl_texture_image (gl s') = gl_texture_image (gl s) /\
    (forall u : Z,
       gl_texture_binding (gl s') !! u =
       if bool_decide (Z.of_nat i <= u < Z.of_nat (i + count))%Z
       then ID <$> m_textureIDs s !! Z.to_nat u
       else gl_texture_binding (gl s) !! u) /\
    trace s' =
      (trace s ++ BindGLTextures_calls (m_textureIDs s) i count)%list.
Proof.
  induction count as [|count IH]; intros i s Hlen; cbn [for_loop_from].
  - exists s. split; [reflexivity|]. split; [by repeat split|].
    do 4 (split; [reflexivity|]). split.
    + intros u. by rewrite bool_decide_eq_false_2 by lia_goal.
    + unfold BindGLTextures_calls. cbn. by rewrite app_nil_r.
  - destruct (lookup_lt_is_Some_2 (m_textureIDs s) i) as [ti Hti];
      [lia_goal|].
    eassert (Hstep : (glActiveTexture (Z.of_nat i);;
                      t ← read_textureIDs (Z.of_nat i);
                      glBindTexture GL_TEXTURE_2D (ID t)) s = Done tt _).
    { erewrite bind_Done by reflexivity.
      erewrite bind_Done; [reflexivity|].
      apply read_textureIDs_Some; [lia_goal|].
      rewrite Nat2Z.id. exact Hti. }
    match type of Hstep with _ = Done tt ?s1 =>
      destruct (IH (S i) s1)
        as (s' & Hrun & Hsur & Harr & Hn & Hnext & Himg & Hbind & Htr)
    end.
    { cbn. lia_goal. }
    exists s'. split.
    { erewrite bind_Done by exact Hstep.
      replace (Z.of_nat i + 1)%Z with (Z.of_nat (S i)) by lia_goal.
      exact Hrun. }
    cbn in Hsur, Harr, Hn, Hnext, Himg, Hbind, Htr.
    split; [exact Hsur|]. split; [exact Harr|]. split; [exact Hn|].
    split; [exact Hnext|]. split; [exact Himg|]. split.
    + intros u. rewrite Hbind.
      destruct (decide (u = Z.of_nat i)) as [->|Hne].
      * rewrite bool_decide_eq_false_2, bool_decide_eq_true_2 by lia_goal.
        by rewrite lookup_insert_eq, Nat2Z.id, Hti.
      * rewrite lookup_insert_ne by done.
        destruct (decide (Z.of_nat i <= u < Z.of_nat (i + S count))%Z).
        -- by rewrite !bool_decide_eq_true_2 by lia_goal.
        -- by rewrite !bool_decide_eq_false_2 by lia_goal.
    + rewrite Htr, <- !app_assoc. f_equal.
      unfold BindGLTextures_calls. cbn [seq flat_map]. by rewrite Hti.
Qed.

(** X7: when the loaded textures fit the array, [BindGLTextures] binds
    the texture of every loaded slot [i] on texture unit [i], makes
    exactly these calls, and leaves the other units, the texture objects
    and the scene manager as they were; with no texture loaded it does
    nothing. *)
Theorem BindGLTextures_units s :
  textures_fit s ->
  exists s',
    BindGLTextures s = Done tt s' /\
    (forall i t, (i < Z.to_nat (m_loadedTextures s))%nat ->
       m_textureIDs s !! i = Some t ->
       gl_texture_binding (gl s') !! Z.of_nat i = Some (ID t)) /\
    (forall u : Z, ~ (0 <= u < m_loadedTextures s)%Z ->
       gl_texture_binding (gl s') !! u = gl_texture_binding (gl s) !! u) /\
    trace s' =
      (trace s ++
       BindGLTextures_calls (m_textureIDs s) 0
         (Z.to_nat (m_loadedTextures s)))%list /\
    gl_texture_image (gl s') = gl_texture_image (gl s) /\
    m_textureIDs s' = m_textureIDs s /\
    m_loadedTextures s' = m_loadedTextures s /\
    same_surroundings s s' /\
    ((m_loadedTextures s <= 0)%Z -> s' = s).
Proof.
  intros Hfit. unfold BindGLTextures, for_loop.
  rewrite (bind_Done _ _ s (m_loadedTextures s) s) by reflexivity.
  destruct (BindGLTextures_loop (Z.to_nat (m_loadedTextures s)) 0 s Hfit)
    as (s' & Hrun & Hsur & Harr & Hn & _ & Himg & Hbind & Htr).
  exists s'. split; [exact Hrun|]. split.
  { intros i t Hi Ht. rewrite Hbind, bool_decide_eq_true_2 by lia.
    by rewrite Nat2Z.id, Ht. }
  split.
  { intros u Hu. rewrite Hbind. by rewrite bool_decide_eq_false_2 by lia. }
  do 5 (split; [assumption|]).
  intros Hzero. replace (Z.to_nat (m_loadedTextures s)) with 0%nat in Hrun
    by lia. cbn in Hrun. by injection Hrun.
Qed.

Lemma BindGLTextures_units_witness :
  exists s',
    BindGLTextures sample_state_two_textures = Done tt s' /\
    gl_texture_binding (gl s') !! 0%Z = Some 1%N /\
    gl_texture_binding (gl s') !! 1%Z = Some 2%N.
Proof.
  destruct (BindGLTextures_units sample_state_two_textures)
    as (s' & Hrun & Hbind & _); [vm_compute; lia|].
  exists s'. split; [exact Hrun|]. split.
  - apply (Hbind 0%nat {| ID := 1; tag := "ComputerCase" |});
      [vm_compute; lia | vm_compute; reflexivity].
  - apply (Hbind 1%nat {| ID := 2; tag := "CRTScreen" |});
      [vm_compute; lia | vm_compute; reflexivity].
Defined.

(** ** Choosing a texture *)

Lemma FindTextureSlot_run tag0 s :
  renderable s -> FindTextureSlot tag0 s = Done (texture_slot s tag0) s.
Proof. exact (FindTextureSlot_replay tag0 [] s). Qed.

Lemma exec_run c s :
  renderable s -> exec c s = Done tt (replay (call_events s c) s).
Proof. exact (exec_replay c [] s). Qed.

(** X8: in a renderable state [SetShaderTexture] switches texturing on
    and sets the sampler "objectTexture" to what [FindTextureSlot]
    returns for the tag: the slot index, not the texture name, and -1 for
    a tag that is not loaded; there is no other handling of an unknown
    tag. *)
Theorem SetShaderTexture_sampler textureTag s :
  renderable s ->
  exists r s',
    FindTextureSlot textureTag s = Done r s /\
    SetShaderTexture textureTag s = Done tt s' /\
    uniforms s' !! "bUseTexture" = Some (UInt 1) /\
    uniforms s' !! "objectTexture" = Some (USampler2D r) /\
    (no_texture_tagged textureTag (Z.to_nat (m_loadedTextures s))
       (m_textureIDs s) -> r = (-1)%Z).
Proof.
  intros Hr.
  exists (texture_slot s textureTag),
         (replay (call_events s (Call_SetShaderTexture textureTag)) s).
  split; [by apply FindTextureSlot_run|].
  split; [exact (exec_run (Call_SetShaderTexture textureTag) s Hr)|].
  rewrite !uniforms_replay. do 2 (split; [reflexivity|]).
  intros Hno. unfold texture_slot.
  destruct (find_texture_in _ _ _ _) as [[r t]|] eqn:Hfind; [|reflexivity].
  destruct (find_texture_in_Some _ _ _ _ _ _ (Z.le_refl 0) Hfind)
    as (Hrange & Hslot & Htag & _).
  destruct (Hno (Z.to_nat r) t); [lia | exact Hslot | exact Htag].
Qed.

Lemma SetShaderTexture_sampler_witness :
  exists r s',
    FindTextureSlot "Keyboard" sample_state_prepared
      = Done r sample_state_prepared /\
    SetShaderTexture "Keyboard" sample_state_prepared = Done tt s' /\
    uniforms s' !! "bUseTexture" = Some (UInt 1) /\
    uniforms s' !! "objectTexture" = Some (USampler2D r) /\
    (no_texture_tagged "Keyboard"
       (Z.to_nat (m_loadedTextures sample_state_prepared))
       (m_textureIDs sample_state_prepared) -> r = (-1)%Z).
Proof.
  apply (SetShaderTexture_sampler "Keyboard" sample_state_prepared).
  split; [vm_compute; reflexivity | vm_compute; lia].
Defined.

(** X9: after [BindGLTextures], the sampler that [SetShaderTexture] sets
    for a loaded tag is the texture unit on which the texture of the
    first slot with that tag is bound. *)
Theorem BindGLTextures_then_SetShaderTexture textureTag s r :
  renderable s ->
  FindTextureSlot textureTag s = Done r s ->
  r ≠ (-1)%Z ->
  exists s1 s2 t,
    BindGLTextures s = Done tt s1 /\
    SetShaderTexture textureTag s1 = Done tt s2 /\
    uniforms s2 !! "objectTexture" = Some (USampler2D r) /\
    m_textureIDs s !! Z.to_nat r = Some t /\ tag t = textureTag /\
    gl_texture_binding (gl s2) !! r = Some (ID t).
Proof.
  intros [Hp Hfit] Hfind Hr.
  rewrite (FindTextureSlot_run textureTag s (conj Hp Hfit)) in Hfind.
  injection Hfind as <-. unfold texture_slot in *.
  destruct (find_texture_in (m_textureIDs s) _ 0 textureTag)
    as [[r t]|] eqn:Hsearch; [|done].
  destruct (find_texture_in_Some _ _ _ _ _ _ (Z.le_refl 0) Hsearch)
    as (Hrange & Hslot & Htag & _).
  destruct (BindGLTextures_loop (Z.to_nat (m_loadedTextures s)) 0 s Hfit)
    as (s1 & Hbind & (Hp1 & _) & Harr & Hn & _ & _ & Hunits & _).
  assert (Hr1 : renderable s1).
  { split; [by rewrite Hp1 | by rewrite Harr, Hn]. }
  pose proof (exec_run (Call_SetShaderTexture textureTag) s1 Hr1) as Hset.
  cbn [exec] in Hset.
  eexists s1, _, t. split.
  { unfold BindGLTextures, for_loop.
    by rewrite (bind_Done _ _ s (m_loadedTextures s) s). }
  split; [exact Hset|].
  split.
  { rewrite uniforms_replay. cbn. unfold texture_slot.
    by rewrite Harr, Hn, Hsearch. }
  split; [exact Hslot|]. split; [exact Htag|].
  destruct (replay_frame
              (call_events s1 (Call_SetShaderTexture textureTag)) s1)
    as (_ & _ & _ & _ & ->).
  rewrite Hunits, bool_decide_eq_true_2 by lia. by rewrite Hslot.
Qed.

Lemma BindGLTextures_then_SetShaderTexture_witness :
  exists s1 s2 t,
    BindGLTextures sample_state_two_textures = Done tt s1 /\
    SetShaderTexture "CRTScreen" s1 = Done tt s2 /\
    uniforms s2 !! "objectTexture" = Some (USampler2D 1) /\
    m_textureIDs sample_state_two_textures !! 1%nat = Some t /\
    tag t = "CRTScreen" /\
    gl_texture_binding (gl s2) !! 1%Z = Some (ID t).
Proof.
  apply (BindGLTextures_then_SetShaderTexture "CRTScreen"
           sample_state_two_textures 1%Z).
  - split; [vm_compute; reflexivity | vm_compute; lia].
  - vm_compute. reflexivity.
  - discriminate.
Defined.

(** ** A null shader manager *)

(** X10: with a null shader manager [SetShaderColor],
    [SetShaderTexture] and [SetTextureUVScale] return without any effect;
    [SetShaderMaterial] does so only while no material is defined and is
    undefined otherwise, as is [SetupSceneLights]: neither tests the
    pointer. *)
Theorem null_shader_manager s :
  m_pShaderManager s = NULL ->
  (forall r g b a, SetShaderColor r g b a s = Done tt s) /\
  (forall textureTag, SetShaderTexture textureTag s = Done tt s) /\
  (forall u v, SetTextureUVScale u v s = Done tt s) /\
  (forall materialTag,
     SetShaderMaterial materialTag s =
     match m_objectMaterials s with
     | [] => Done tt s
     | _ => Undefined NullShaderManager
     end) /\
  SetupSceneLights s = Undefined NullShaderManager.
Proof.
  intros Hp.
  split; [|split; [|split; [|split]]].
  - intros r g b a. unfold SetShaderColor.
    erewrite bind_Done by reflexivity. by rewrite Hp.
  - intros t. unfold SetShaderTexture.
    erewrite bind_Done by reflexivity. by rewrite Hp.
  - intros u v. unfold SetTextureUVScale.
    erewrite bind_Done by reflexivity. by rewrite Hp.
  - intros t. unfold SetShaderMaterial, FindMaterial.
    erewrite bind_Done by reflexivity.
    destruct (m_objectMaterials s) as [|m mats] eqn:Hm; [reflexivity|].
    cbn [length Nat.ltb Nat.leb].
    erewrite bind_Done;
      [| erewrite bind_Done by reflexivity; rewrite Hm; reflexivity ].
    unfold setVec3Value, shader_set, mbind, M_bind, get. by rewrite Hp.
  - unfold SetupSceneLights, setBoolValue, shader_set, mbind, M_bind, get.
    by rewrite Hp.
Qed.

Lemma null_shader_manager_witness :
  SetShaderColor 0.1%Q 0.1%Q 0.1%Q 1%Q sample_state_null_materials
    = Done tt sample_state_null_materials /\
  SetShaderMaterial "plastic" sample_state_null_materials
    = Undefined NullShaderManager /\
  SetShaderMaterial "plastic" sample_state_null = Done tt sample_state_null.
Proof.
  destruct (null_shader_manager sample_state_null_materials eq_refl)
    as (Hcolor & _ & _ & Hmat & _).
  destruct (null_shader_manager sample_state_null eq_refl)
    as (_ & _ & _ & Hmat0 & _).
  split; [apply Hcolor|]. split; [exact (Hmat "plastic")|].
  exact (Hmat0 "plastic").
Defined.

(** ** Materials that are found *)

Lemma FindMaterial_loop_first pre m post tag0 material :
  no_material_tagged tag0 pre ->
  material_tag m = tag0 ->
  FindMaterial_loop (pre ++ m :: post) tag0 material =
  {| diffuseColor := diffuseColor m; specularColor := specularColor m;
     shininess := shininess m; material_tag := material_tag material |}.
Proof.
  intros Hno Htag. induction pre as [|p pre IH]; cbn [app FindMaterial_loop].
  - by rewrite (proj2 (String.eqb_eq _ _) Htag).
  - destruct (String.eqb_spec (material_tag p) tag0) as [Heq|_].
    + destruct (Hno p); [apply list_elem_of_here | exact Heq].
    + apply IH. intros m' Hm'. apply Hno. by apply list_elem_of_further.
Qed.

(** X11: [FindMaterial] copies the colours and the shininess of the
    first material with the tag into its output and keeps the output's
    own tag; [SetShaderMaterial], with a shader manager, then sets the
    three material uniforms to these values, writes nothing else and
    leaves the list of materials alone.  Later materials of the same tag
    are never used. *)
Theorem SetShaderMaterial_first_match tag0 s pre m post :
  m_objectMaterials s = (pre ++ m :: post)%list ->
  no_material_tagged tag0 pre ->
  material_tag m = tag0 ->
  (forall material,
     FindMaterial tag0 material s =
     Done (true,
           {| diffuseColor := diffuseColor m;
              specularColor := specularColor m;
              shininess := shininess m;
              material_tag := material_tag material |}) s) /\
  (m_pShaderManager s = NonNull ->
   exists s',
     SetShaderMaterial tag0 s = Done tt s' /\
     uniforms s' !! "material.diffuseColor" = Some (UVec3 (diffuseColor m)) /\
     uniforms s' !! "material.specularColor"
       = Some (UVec3 (specularColor m)) /\
     uniforms s' !! "material.shininess" = Some (UFloat (shininess m)) /\
     (forall name,
        name ≠ "material.diffuseColor" ->
        name ≠ "material.specularColor" ->
        name ≠ "material.shininess" ->
        uniforms s' !! name = uniforms s !! name) /\
     m_objectMaterials s' = m_objectMaterials s).
Proof.
  intros Hmats Hno Htag.
  assert (Hfind : forall material,
            FindMaterial tag0 material s =
            Done (true, FindMaterial_loop (pre ++ m :: post) tag0 material) s).
  { intros material. unfold FindMaterial.
    erewrite bind_Done by reflexivity. rewrite Hmats.
    by destruct pre. }
  split.
  - intros material. rewrite Hfind.
    by rewrite (FindMaterial_loop_first _ _ _ _ _ Hno Htag).
  - intros Hp. unfold SetShaderMaterial.
    erewrite bind_Done by reflexivity. rewrite Hmats.
    replace (0 <? length (pre ++ m :: post))%nat with true
      by (by destruct pre).
    erewrite bind_Done by apply Hfind.
    rewrite (FindMaterial_loop_first _ _ _ _ _ Hno Htag).
    cbn [diffuseColor specularColor shininess].
    change s with (replay [] s) at 1. shader_steps Hp.
    eexists. split; [reflexivity|]. cbn [app].
    rewrite !uniforms_replay. do 3 (split; [reflexivity|]). split.
    + intros name H1 H2 H3. rewrite uniforms_replay. cbn [last_write].
      rewrite !(proj2 (String.eqb_neq _ _)) by done. reflexivity.
    + by destruct (replay_frame
                     [SetUniform "material.diffuseColor"
                        (UVec3 (diffuseColor m));
                      SetUniform "material.specularColor"
                        (UVec3 (specularColor m));
                      SetUniform "material.shininess"
                        (UFloat (shininess m))] s)
        as (_ & _ & _ & -> & _).
Qed.

Lemma SetShaderMaterial_first_match_witness :
  exists s',
    SetShaderMaterial "plastic" sample_state_materials = Done tt s' /\
    uniforms s' !! "material.shininess" = Some (UFloat 2.0%Q).
Proof.
  destruct (SetShaderMaterial_first_match "plastic" sample_state_materials
              [cementMaterial] plasticMaterial [])
    as (_ & Hset).
  - vm_compute. reflexivity.
  - intros m Hm. apply list_elem_of_singleton in Hm as ->. discriminate.
  - reflexivity.
  - destruct (Hset eq_refl) as (s' & Hrun & _ & _ & Hshin & _).
    exists s'. split; [exact Hrun | exact Hshin].
Defined.

(** ** Defining the materials *)

Lemma first_material_app tag0 mats1 mats2 :
  first_material tag0 (mats1 ++ mats2) =
  match first_material tag0 mats1 with
  | Some m => Some m
  | None => first_material tag0 mats2
  end.
Proof.
  unfold first_material.
  induction mats1 as [|m mats1 IH]; cbn [app find]; [reflexivity|].
  destruct (String.eqb (material_tag m) tag0); [reflexivity | exact IH].
Qed.

Lemma DefineObjectMaterials_run s :
  DefineObjectMaterials s =
  Done tt (set_objectMaterials
             (m_objectMaterials s ++ [cementMaterial; plasticMaterial]) s).
Proof.
  unfold DefineObjectMaterials, push_back_material. mrun.
  by rewrite <- app_assoc.
Qed.

Lemma FindMaterial_run tag0 material s :
  FindMaterial tag0 material s =
  Done (match m_objectMaterials s with
        | [] => (false, material)
        | _ => (true,
                match first_material tag0 (m_objectMaterials s) with
                | Some m => with_values_of m material
                | None => material
                end)
        end) s.
Proof.
  unfold FindMaterial. erewrite bind_Done by reflexivity.
  rewrite <- FindMaterial_loop_first_material.
  by destruct (m_objectMaterials s).
Qed.

(** X12: [DefineObjectMaterials] appends the materials "cement" and
    "plastic" to the end of the list and changes nothing else.  A material
    that was in the list under one of these tags stays the one
    [FindMaterial] returns: the new entry is found only when the tag was
    not there before. *)
Theorem DefineObjectMaterials_appends s :
  exists s',
    DefineObjectMaterials s = Done tt s' /\
    m_objectMaterials s' =
      (m_objectMaterials s ++ [cementMaterial; plasticMaterial])%list /\
    m_textureIDs s' = m_textureIDs s /\
    m_loadedTextures s' = m_loadedTextures s /\
    gl s' = gl s /\ uniforms s' = uniforms s /\ trace s' = trace s /\
    forall tag0 material,
      FindMaterial tag0 material s' =
      Done (true,
            match first_material tag0 (m_objectMaterials s) with
            | Some m => with_values_of m material
            | None =>
                if String.eqb tag0 "cement"
                then with_values_of cementMaterial material
                else if String.eqb tag0 "plastic"
                     then with_values_of plasticMaterial material
                     else material
            end) s'.
Proof.
  eexists. split; [apply DefineObjectMaterials_run|].
  cbn [set_objectMaterials m_objectMaterials m_textureIDs m_loadedTextures
       gl uniforms trace].
  do 6 (split; [reflexivity|]).
  intros tag0 material. rewrite FindMaterial_run.
  cbn [set_objectMaterials m_objectMaterials].
  rewrite first_material_app.
  destruct (m_objectMaterials s ++ [cementMaterial; plasticMaterial])%list
    eqn:Happ; [by destruct (m_objectMaterials s)|].
  do 2 f_equal.
  destruct (first_material tag0 (m_objectMaterials s)); [reflexivity|].
  unfold first_material. cbn [find material_tag cementMaterial plasticMaterial].
  rewrite (String.eqb_sym "cement"), (String.eqb_sym "plastic").
  destruct (String.eqb tag0 "cement"); [reflexivity|].
  by destruct (String.eqb tag0 "plastic").
Qed.

(** X13: a second call of [DefineObjectMaterials] makes the list two
    entries longer again, yet no lookup changes: whatever [FindMaterial]
    returned for a tag after the first call it returns after the second. *)
Theorem DefineObjectMaterials_again s s1 s2 :
  DefineObjectMaterials s = Done tt s1 ->
  DefineObjectMaterials s1 = Done tt s2 ->
  length (m_objectMaterials s2) = (length (m_objectMaterials s) + 4)%nat /\
  forall tag0 material r,
    FindMaterial tag0 material s1 = Done r s1 ->
    FindMaterial tag0 material s2 = Done r s2.
Proof.
  rewrite !DefineObjectMaterials_run. intros H1 H2.
  injection H1 as <-. injection H2 as <-.
  cbn [set_objectMaterials m_objectMaterials]. split.
  - rewrite !length_app. cbn [length]. lia.
  - intros tag0 material r. rewrite !FindMaterial_run.
    cbn [set_objectMaterials m_objectMaterials].
    intros Hr. injection Hr as <-. f_equal.
    rewrite (first_material_app tag0 (_ ++ _)).
    destruct ((m_objectMaterials s ++ [cementMaterial; plasticMaterial])
                ++ [cementMaterial; plasticMaterial])%list eqn:Happ2;
      [by destruct (m_objectMaterials s)|].
    destruct (m_objectMaterials s ++ [cementMaterial; plasticMaterial])%list
      eqn:Happ1; [by destruct (m_objectMaterials s)|].
    f_equal. rewrite <- Happ1, first_material_app.
    destruct (first_material tag0 (m_objectMaterials s)); [reflexivity|].
    unfold first_material.
    cbn [find material_tag cementMaterial plasticMaterial].
    destruct (String.eqb "cement" tag0); [reflexivity|].
    by destruct (String.eqb "plastic" tag0).
Qed.

Lemma DefineObjectMaterials_again_witness :
  length (m_objectMaterials
            (state_after DefineObjectMaterials sample_state_materials))
    = (length (m_objectMaterials sample_state) + 4)%nat /\
  forall tag0 material r,
    FindMaterial tag0 material sample_state_materials
      = Done r sample_state_materials ->
    FindMaterial tag0 material
      (state_after DefineObjectMaterials sample_state_materials)
      = Done r (state_after DefineObjectMaterials sample_state_materials).
Proof.
  apply (DefineObjectMaterials_again sample_state).
  - vm_compute. reflexivity.
  - vm_compute. reflexivity.
Defined.

(** ** Rendering without a shader manager *)

Lemma bind_Undefined {A B} (m : M A) (k : A -> M B) s u :
  m s = Undefined u -> (m ≫= k) s = Undefined u.
Proof. intros H. unfold mbind, M_bind. by rewrite H. Qed.

Lemma exec_null c es s :
  m_pShaderManager s = NULL ->
  m_objectMaterials s = [] ->
  exec c (replay es s) = Done tt (replay (es ++ call_draws c) s).
Proof.
  intros Hp Hm.
  destruct (replay_frame es s) as (Hp' & _ & _ & Hmats & _).
  destruct c; cbn [exec call_draws]; rewrite ?app_nil_r.
  - unfold SetTransformations.
    erewrite bind_Done by reflexivity. by rewrite Hp', Hp.
  - unfold SetShaderColor.
    erewrite bind_Done by reflexivity. by rewrite Hp', Hp.
  - unfold SetShaderTexture.
    erewrite bind_Done by reflexivity. by rewrite Hp', Hp.
  - unfold SetTextureUVScale.
    erewrite bind_Done by reflexivity. by rewrite Hp', Hp.
  - unfold SetShaderMaterial.
    erewrite bind_Done by reflexivity. by rewrite Hmats, Hm.
  - unfold DrawMeshCall. by apply emit_replay.
Qed.

Lemma run_null body : forall es s,
  m_pShaderManager s = NULL ->
  m_objectMaterials s = [] ->
  run body (replay es s) =
  Done tt (replay (es ++ map DrawMesh (body_draw_calls body)) s).
Proof.
  induction body as [|c body IH]; intros es s Hp Hm; cbn [run].
  - cbn. by rewrite app_nil_r.
  - erewrite bind_Done by (by apply exec_null).
    rewrite IH by assumption. rewrite <- app_assoc.
    by destruct c.
Qed.

Lemma uniforms_replay_draws meshes s :
  uniforms (replay (map DrawMesh meshes) s) = uniforms s.
Proof.
  revert s. induction meshes as [|m meshes IH]; intros s; [reflexivity|].
  cbn [map replay foldl].
  fold (replay (map DrawMesh meshes) (replay_event s (DrawMesh m))).
  by rewrite IH.
Qed.

(** X14: [RenderScene] on a null shader manager.  While no material is
    defined every shader call is skipped: the 88 draw calls are issued and
    no uniform is written.  Once a material is defined the first
    [SetShaderMaterial], the one for the plane, goes through the null
    pointer, before anything is drawn. *)
Theorem RenderScene_null_shader_manager off ks s :
  m_pShaderManager s = NULL ->
  match m_objectMaterials s with
  | [] =>
      exists s',
        run (RenderScene off ks) s = Done tt s' /\
        trace s' = (trace s ++ map DrawMesh scene_draw_calls)%list /\
        uniforms s' = uniforms s
  | _ => run (RenderScene off ks) s = Undefined NullShaderManager
  end.
Proof.
  intros Hp. destruct (m_objectMaterials s) as [|m mats] eqn:Hm.
  - eexists. split; [exact (run_null _ [] s Hp Hm)|].
    cbn [app]. rewrite trace_replay, uniforms_replay_draws.
    split; [|reflexivity]. apply f_equal. vm_compute. reflexivity.
  - unfold RenderScene. cbn [app run].
    erewrite bind_Done; cycle 1.
    { cbn [exec]. unfold SetTransformations. erewrite bind_Done by reflexivity.
      rewrite Hp. reflexivity. }
    erewrite bind_Done; cycle 1.
    { cbn [exec]. unfold SetShaderTexture. erewrite bind_Done by reflexivity.
      rewrite Hp. reflexivity. }
    apply bind_Undefined. cbn [exec].
    unfold SetShaderMaterial, FindMaterial.
    erewrite bind_Done by reflexivity. rewrite Hm.
    cbn [length Nat.ltb Nat.leb].
    erewrite bind_Done;
      [| erewrite bind_Done by reflexivity; rewrite Hm; reflexivity ].
    unfold setVec3Value, shader_set, mbind, M_bind, get. by rewrite Hp.
Qed.

Lemma RenderScene_null_shader_manager_witness :
  run (RenderScene sample_offset sample_keyScale) sample_state_null_materials
    = Undefined NullShaderManager /\
  exists s',
    run (RenderScene sample_offset sample_keyScale) sample_state_null
      = Done tt s' /\
    trace s' = (trace sample_state_null ++ map DrawMesh scene_draw_calls)%list /\
    uniforms s' = uniforms sample_state_null.
Proof.
  split.
  - exact (RenderScene_null_shader_manager sample_offset sample_keyScale
             sample_state_null_materials eq_refl).
  - exact (RenderScene_null_shader_manager sample_offset sample_keyScale
             sample_state_null eq_refl).
Defined.

(** ** Preparing the scene *)

Lemma replay_frame_files es s :
  image_files (replay es s) = image_files s /\
  working_directory (replay es s) = working_directory s.
Proof.
  revert s. induction es as [|e es IH]; intros s; cbn [replay foldl].
  - done.
  - fold (replay es (replay_event s e)).
    destruct (IH (replay_event s e)) as (-> & ->).
    by destruct e.
Qed.

(** One load, with room for it: the result says whether the file decoded
    to three or four channels, and only then a slot is filled. *)
Lemma CreateGLTexture_step filename tag0 s :
  slot_in_bounds s ->
  exists s' name,
    CreateGLTexture filename tag0 s
      = Done (decodes_supported s filename) s' /\
    same_surroundings s s' /\
    m_textureIDs s' =
      loaded_into (decodes_supported s filename) (m_loadedTextures s)
        {| ID := name; tag := tag0 |} (m_textureIDs s) /\
    m_loadedTextures s' =
      (m_loadedTextures s + Z.b2z (decodes_supported s filename))%Z.
Proof.
  intros Hin. destruct (decodes_supported s filename) eqn:Hdec.
  - destruct (decodes_supported_true _ _ Hdec) as (img & Himg & Hch).
    destruct (CreateGLTexture_accepts_gl filename tag0 s img Himg Hch Hin)
      as (s' & before & Hrun & Hsame & _).
    destruct (CreateGLTexture_true_inv _ _ _ _ Hrun) as (_ & Harr & Hn).
    exists s', (gl_next_name (gl s)). split; [exact Hrun|].
    split; [exact Hsame|]. split; [exact Harr|]. exact Hn.
  - unfold decodes_supported in Hdec.
    destruct (image_files s !! filename) as [img|] eqn:Himg.
    + apply orb_false_iff in Hdec as [H3 H4].
      apply Z.eqb_neq in H3, H4.
      destruct (CreateGLTexture_unsupported_gl filename tag0 s img Himg H3 H4)
        as (s' & delta & Hrun & Hsame & Harr & Hn & _).
      exists s', 0%N. split; [exact Hrun|]. split; [exact Hsame|].
      split; [exact Harr|]. rewrite Hn. cbn. lia.
    + destruct (CreateGLTexture_undecoded_gl filename tag0 s Himg)
        as (s' & Hrun & Hsame & Harr & Hn & _).
      exists s', 0%N. split; [exact Hrun|]. split; [exact Hsame|].
      split; [exact Harr|]. rewrite Hn. cbn. lia.
Qed.

Lemma decodes_supported_same s s' filename :
  same_surroundings s s' ->
  decodes_supported s' filename = decodes_supported s filename.
Proof.
  intros (_ & _ & _ & Hfiles & _). unfold decodes_supported.
  by rewrite Hfiles.
Qed.

Lemma length_loaded_into ok i t slots :
  length (loaded_into ok i t slots) = length slots.
Proof. destruct ok; cbn; [apply length_insert | reflexivity]. Qed.

(** The steps of [PrepareScene], with a shader manager and room for three
    textures. *)
Lemma PrepareScene_steps s :
  m_pShaderManager s = NonNull ->
  (0 <= m_loadedTextures s)%Z ->
  (Z.to_nat (m_loadedTextures s) + 3 <= length (m_textureIDs s))%nat ->
  let d1 := decodes_supported s "textures/computer_case_texture_2.jpg" in
  let d2 := decodes_supported s "textures/crt_on_texture_1.jpg" in
  let d3 := decodes_supported s "textures/table_texture_1.jpeg" in
  let n := m_loadedTextures s in
  exists s' lights name1 name2 name3,
    PrepareScene s = Done tt s' /\
    m_pShaderManager s' = NonNull /\
    m_objectMaterials s' =
      (m_objectMaterials s ++ [cementMaterial; plasticMaterial])%list /\
    image_files s' = image_files s /\
    uniforms s' =
      uniforms (replay lights s) /\
    Forall is_light_write lights /\
    last_write "bUseLighting" lights = Some (UBool true) /\
    m_loadedTextures s' = (n + Z.b2z d1 + Z.b2z d2 + Z.b2z d3)%Z /\
    m_textureIDs s' =
      loaded_into d3 (n + Z.b2z d1 + Z.b2z d2)
        {| ID := name3; tag := "TableTexture" |}
        (loaded_into d2 (n + Z.b2z d1)
           {| ID := name2; tag := "CRTScreen" |}
           (loaded_into d1 n {| ID := name1; tag := "ComputerCase" |}
              (m_textureIDs s))).
Proof.
  intros Hp Hn Hlen d1 d2 d3 n.
  set (s0 := set_objectMaterials
               (m_objectMaterials s ++ [cementMaterial; plasticMaterial]) s).
  assert (Hp0 : m_pShaderManager s0 = NonNull) by exact Hp.
  destruct (SetupSceneLights_events s0 Hp0)
    as (lights & Hlights & Hall & _ & _ & _ & _ & Hon).
  set (loads := [LoadMesh PlaneMesh; LoadMesh BoxMesh; LoadMesh PrismMesh;
                 LoadMesh CylinderMesh]).
  set (sL := replay (lights ++ loads) s0).
  destruct (replay_frame (lights ++ loads) s0)
    as (HpL & HarrL & HnL & HmatsL & HglL).
  destruct (replay_frame_files (lights ++ loads) s0) as (HfilesL & _).
  fold sL in HpL, HarrL, HnL, HmatsL, HglL, HfilesL.
  assert (HarrL' : m_textureIDs sL = m_textureIDs s) by exact HarrL.
  assert (HnL' : m_loadedTextures sL = m_loadedTextures s) by exact HnL.
  assert (HdL : forall f, decodes_supported sL f = decodes_supported s f).
  { intros f. unfold decodes_supported. by rewrite HfilesL. }
  destruct (CreateGLTexture_step "textures/computer_case_texture_2.jpg"
              "ComputerCase" sL)
    as (s1 & name1 & Hrun1 & Hsame1 & Harr1 & Hn1).
  { split; rewrite ?HarrL', HnL'; lia_goal. }
  rewrite HdL in Hrun1, Harr1, Hn1. rewrite HarrL', HnL' in Harr1.
  rewrite HnL' in Hn1. fold d1 n in Harr1, Hn1.
  destruct (CreateGLTexture_step "textures/crt_on_texture_1.jpg"
              "CRTScreen" s1)
    as (s2 & name2 & Hrun2 & Hsame2 & Harr2 & Hn2).
  { split; rewrite ?Harr1, ?length_loaded_into, Hn1; subst n;
      destruct d1; cbn; lia_goal. }
  rewrite (decodes_supported_same _ _ _ Hsame1), HdL in Hrun2, Harr2, Hn2.
  fold d2 in Harr2, Hn2. rewrite Harr1, Hn1 in Harr2. rewrite Hn1 in Hn2.
  destruct (CreateGLTexture_step "textures/table_texture_1.jpeg"
              "TableTexture" s2)
    as (s3 & name3 & Hrun3 & Hsame3 & Harr3 & Hn3).
  { split; rewrite ?Harr2, ?length_loaded_into, Hn2; subst n;
      destruct d1, d2; cbn; lia_goal. }
  rewrite (decodes_supported_same _ _ _ Hsame2),
    (decodes_supported_same _ _ _ Hsame1), HdL in Hrun3, Harr3, Hn3.
  fold d3 in Harr3, Hn3. rewrite Harr2, Hn2 in Harr3. rewrite Hn2 in Hn3.
  destruct (BindGLTextures_loop (Z.to_nat (m_loadedTextures s3)) 0 s3)
    as (s' & Hbind & Hsame' & Harr' & Hn' & _).
  { rewrite Harr3, !length_loaded_into, Hn3. subst n.
    destruct d1, d2, d3; cbn; lia_goal. }
  exists s', lights, name1, name2, name3.
  destruct Hsame1 as (Hp1 & Hm1 & _ & Hf1 & Hu1).
  destruct Hsame2 as (Hp2 & Hm2 & _ & Hf2 & Hu2).
  destruct Hsame3 as (Hp3 & Hm3 & _ & Hf3 & Hu3).
  destruct Hsame' as (Hp' & Hm' & _ & Hf' & Hu').
  split.
  { unfold PrepareScene.
    erewrite bind_Done by apply DefineObjectMaterials_run. fold s0.
    erewrite bind_Done by exact Hlights.
    unfold LoadMeshCall.
    do 4 (erewrite bind_Done by (by apply emit_replay)).
    rewrite <- !app_assoc. cbn [app]. fold loads. fold sL.
    erewrite bind_Done by exact Hrun1.
    erewrite bind_Done by exact Hrun2.
    erewrite bind_Done by exact Hrun3.
    unfold BindGLTextures, for_loop.
    by rewrite (bind_Done _ _ s3 (m_loadedTextures s3) s3). }
  split; [by rewrite Hp', Hp3, Hp2, Hp1, HpL|].
  split; [by rewrite Hm', Hm3, Hm2, Hm1, HmatsL|].
  split; [by rewrite Hf', Hf3, Hf2, Hf1, HfilesL|].
  split.
  { rewrite Hu', Hu3, Hu2, Hu1. apply map_eq. intros name.
    unfold sL. rewrite !uniforms_replay, last_write_app.
    cbn [loads last_write]. reflexivity. }
  split; [exact Hall|]. split; [exact Hon|].
  split; [by rewrite Hn', Hn3|]. by rewrite Harr', Harr3.
Qed.

(** X15: with a shader manager and room for three more textures,
    [PrepareScene] returns whatever the three files are: the two materials
    are appended, lighting is switched on, the count grows by the number
    of files that decoded to three or four channels, and the state it
    leaves is one [RenderScene] draws its 88 primitives in.  On a null
    shader manager it is undefined, in [SetupSceneLights]. *)
Theorem PrepareScene_then_RenderScene off ks s :
  (m_pShaderManager s = NonNull ->
   (0 <= m_loadedTextures s)%Z ->
   (Z.to_nat (m_loadedTextures s) + 3 <= length (m_textureIDs s))%nat ->
   exists s' s'',
     PrepareScene s = Done tt s' /\
     m_objectMaterials s' =
       (m_objectMaterials s ++ [cementMaterial; plasticMaterial])%list /\
     uniforms s' !! "bUseLighting" = Some (UBool true) /\
     m_loadedTextures s' =
       (m_loadedTextures s
        + Z.b2z (decodes_supported s "textures/computer_case_texture_2.jpg")
        + Z.b2z (decodes_supported s "textures/crt_on_texture_1.jpg")
        + Z.b2z (decodes_supported s "textures/table_texture_1.jpeg"))%Z /\
     length (m_textureIDs s') = length (m_textureIDs s) /\
     run (RenderScene off ks) s' = Done tt s'' /\
     draw_calls (trace s'') =
       (draw_calls (trace s') ++ scene_draw_calls)%list) /\
  (m_pShaderManager s = NULL ->
   PrepareScene s = Undefined NullShaderManager).
Proof.
  split.
  - intros Hp Hn Hlen.
    destruct (PrepareScene_steps s Hp Hn Hlen)
      as (s' & lights & name1 & name2 & name3 & Hrun & Hp' & Hmats & _ &
          Hu & _ & Hon & Hn' & Harr').
    assert (Hl : length (m_textureIDs s') = length (m_textureIDs s)).
    { by rewrite Harr', !length_loaded_into. }
    assert (Hr : renderable s').
    { split; [exact Hp'|]. rewrite Hl, Hn'.
      destruct (decodes_supported s "textures/computer_case_texture_2.jpg"),
        (decodes_supported s "textures/crt_on_texture_1.jpg"),
        (decodes_supported s "textures/table_texture_1.jpeg"); cbn; lia. }
    exists s', (replay (body_events s' (RenderScene off ks)) s').
    split; [exact Hrun|]. split; [exact Hmats|].
    split; [by rewrite Hu, uniforms_replay, Hon|].
    split; [exact Hn'|]. split; [exact Hl|].
    split; [by apply run_events|].
    rewrite trace_replay, draw_calls_app, draw_calls_body_events.
    apply f_equal. vm_compute. reflexivity.
  - intros Hp. unfold PrepareScene.
    erewrite bind_Done by apply DefineObjectMaterials_run.
    apply bind_Undefined.
    unfold SetupSceneLights, setBoolValue, shader_set, mbind, M_bind, get.
    cbn [set_objectMaterials m_pShaderManager]. by rewrite Hp.
Qed.

Lemma PrepareScene_then_RenderScene_witness :
  (exists s' s'',
     PrepareScene sample_state = Done tt s' /\
     m_objectMaterials s' =
       (m_objectMaterials sample_state
        ++ [cementMaterial; plasticMaterial])%list /\
     uniforms s' !! "bUseLighting" = Some (UBool true) /\
     m_loadedTextures s' =
       (m_loadedTextures sample_state
        + Z.b2z (decodes_supported sample_state
                   "textures/computer_case_texture_2.jpg")
        + Z.b2z (decodes_supported sample_state
                   "textures/crt_on_texture_1.jpg")
        + Z.b2z (decodes_supported sample_state
                   "textures/table_texture_1.jpeg"))%Z /\
     length (m_textureIDs s') = length (m_textureIDs sample_state) /\
     run (RenderScene sample_offset sample_keyScale) s' = Done tt s'' /\
     draw_calls (trace s'') =
       (draw_calls (trace s') ++ scene_draw_calls)%list) /\
  PrepareScene sample_state_null = Undefined NullShaderManager.
Proof.
  split.
  - apply (PrepareScene_then_RenderScene sample_offset sample_keyScale
             sample_state).
    + reflexivity.
    + vm_compute. discriminate.
    + vm_compute. lia.
  - apply (PrepareScene_then_RenderScene sample_offset sample_keyScale
             sample_state_null).
    reflexivity.
Defined.

(** X16: on a scene manager with no texture loaded yet, [PrepareScene]
    gives each texture that loads the next free slot, so the slot of a tag
    is the number of earlier files that loaded: a file that fails moves
    the later textures one slot down, and its own tag is then answered
    with -1 by [FindTextureSlot]. *)
Theorem PrepareScene_slots s :
  m_pShaderManager s = NonNull ->
  m_loadedTextures s = 0%Z ->
  (3 <= length (m_textureIDs s))%nat ->
  let d1 := decodes_supported s "textures/computer_case_texture_2.jpg" in
  let d2 := decodes_supported s "textures/crt_on_texture_1.jpg" in
  let d3 := decodes_supported s "textures/table_texture_1.jpeg" in
  exists s',
    PrepareScene s = Done tt s' /\
    FindTextureSlot "ComputerCase" s' = Done (slot_if d1 0) s' /\
    FindTextureSlot "CRTScreen" s' = Done (slot_if d2 (Z.b2z d1)) s' /\
    FindTextureSlot "TableTexture" s'
      = Done (slot_if d3 (Z.b2z d1 + Z.b2z d2)) s'.
Proof.
  intros Hp Hn Hlen d1 d2 d3.
  destruct (PrepareScene_steps s Hp) as
    (s' & lights & name1 & name2 & name3 & Hrun & Hp' & _ & _ &
     _ & _ & _ & Hn' & Harr'); [lia | rewrite Hn; cbn; lia |].
  fold d1 d2 d3 in Hn', Harr'. rewrite Hn in Hn', Harr'.
  assert (Hr : renderable s').
  { split; [exact Hp'|]. rewrite Harr', !length_loaded_into, Hn'.
    destruct d1, d2, d3; cbn; lia. }
  exists s'. split; [exact Hrun|].
  rewrite !FindTextureSlot_run by exact Hr. unfold texture_slot.
  rewrite Harr', Hn'.
  destruct (m_textureIDs s) as [|t0 [|t1 [|t2 slots]]];
    [cbn in Hlen; lia .. |].
  by destruct d1, d2, d3.
Qed.

Lemma PrepareScene_slots_witness :
  exists s',
    PrepareScene sample_state_missing_file = Done tt s' /\
    FindTextureSlot "ComputerCase" s' = Done (-1)%Z s' /\
    FindTextureSlot "CRTScreen" s' = Done 0%Z s' /\
    FindTextureSlot "TableTexture" s' = Done 1%Z s'.
Proof.
  apply (PrepareScene_slots sample_state_missing_file).
  - reflexivity.
  - reflexivity.
  - vm_compute. lia.
Defined.

(** ** Shader state carried from one draw to the next *)

(** X17: [RenderScene] does not set "UVscale" for the plane: the plane,
    its first draw call, is drawn with the value the uniform had on entry.
    On return the uniform is (2.0, 2.0), left by the ProFile, so that a
    second [RenderScene] draws the plane with that UV scale. *)
Theorem RenderScene_plane_UVscale off ks s :
  renderable s ->
  RenderScene off ks !! 3%nat = Some (Call_DrawMesh PlaneMesh) /\
  body_draw_calls (take 3 (RenderScene off ks)) = [] /\
  exists s1 s' s2,
    run (take 3 (RenderScene off ks)) s = Done tt s1 /\
    uniforms s1 !! "UVscale" = uniforms s !! "UVscale" /\
    run (RenderScene off ks) s = Done tt s' /\
    uniforms s' !! "UVscale" = Some (UVec2 (glm_vec2 2.0%Q 2.0%Q)) /\
    run (take 3 (RenderScene off ks)) s' = Done tt s2 /\
    uniforms s2 !! "UVscale" = Some (UVec2 (glm_vec2 2.0%Q 2.0%Q)).
Proof.
  intros Hr. split; [reflexivity|]. split; [reflexivity|].
  pose proof (renderable_replay (body_events s (RenderScene off ks)) s Hr)
    as Hr'.
  eexists _, _, _.
  split; [by apply run_events|].
  split.
  { rewrite uniforms_replay, last_write_UVscale. reflexivity. }
  split; [by apply run_events|].
  assert (Hexit : uniforms (replay (body_events s (RenderScene off ks)) s)
                    !! "UVscale" = Some (UVec2 (glm_vec2 2.0%Q 2.0%Q))).
  { rewrite uniforms_replay, last_write_UVscale.
    replace (last_uvscale (RenderScene off ks))
      with (Some (glm_vec2 2.0%Q 2.0%Q)) by (vm_compute; reflexivity).
    reflexivity. }
  split; [exact Hexit|].
  split; [by apply run_events|].
  rewrite uniforms_replay, last_write_UVscale. exact Hexit.
Qed.

Lemma RenderScene_plane_UVscale_witness :
  RenderScene sample_offset sample_keyScale !! 3%nat
    = Some (Call_DrawMesh PlaneMesh) /\
  body_draw_calls (take 3 (RenderScene sample_offset sample_keyScale)) = [] /\
  exists s1 s' s2,
    run (take 3 (RenderScene sample_offset sample_keyScale))
      sample_state_prepared = Done tt s1 /\
    uniforms s1 !! "UVscale" = uniforms sample_state_prepared !! "UVscale" /\
    run (RenderScene sample_offset sample_keyScale) sample_state_prepared
      = Done tt s' /\
    uniforms s' !! "UVscale" = Some (UVec2 (glm_vec2 2.0%Q 2.0%Q)) /\
    run (take 3 (RenderScene sample_offset sample_keyScale)) s'
      = Done tt s2 /\
    uniforms s2 !! "UVscale" = Some (UVec2 (glm_vec2 2.0%Q 2.0%Q)).
Proof.
  apply (RenderScene_plane_UVscale sample_offset sample_keyScale
           sample_state_prepared).
  split; [vm_compute; reflexivity | vm_compute; lia].
Defined.

(** X18: the material of [RenderScene]'s draw calls.  The plane is drawn
    with the material found for "cement"; every box, prism and cylinder
    is drawn with the one found for "plastic", also the CRT panel, the
    mouse and the cables, which ask for no material of their own. *)
Theorem RenderScene_draw_materials off ks s k m mat s1 :
  renderable s ->
  RenderScene off ks !! k = Some (Call_DrawMesh m) ->
  first_material (scene_material m) (m_objectMaterials s) = Some mat ->
  run (take k (RenderScene off ks)) s = Done tt s1 ->
  uniforms s1 !! "material.diffuseColor" = Some (UVec3 (diffuseColor mat)) /\
  uniforms s1 !! "material.specularColor"
    = Some (UVec3 (specularColor mat)) /\
  uniforms s1 !! "material.shininess" = Some (UFloat (shininess mat)).
Proof.
  intros Hr Hk Hmat Hrun.
  rewrite run_events in Hrun by exact Hr. injection Hrun as <-.
  assert (Hall : draws_with_scene_material (RenderScene off ks) = true)
    by (vm_compute; reflexivity).
  unfold draws_with_scene_material in Hall.
  rewrite forallb_forall in Hall.
  specialize (Hall k). rewrite Hk in Hall.
  destruct (last_material (take k (RenderScene off ks))) as [t|] eqn:Hlast.
  - assert (Ht : t = scene_material m).
    { apply String.eqb_eq, Hall, in_seq.
      apply lookup_lt_Some in Hk. lia. }
    subst t.
    destruct (last_write_material s _ _ _ Hlast Hmat) as (Hd & Hs & Hsh).
    rewrite !uniforms_replay, Hd, Hs, Hsh. by repeat split.
  - exfalso. enough (false = true) by discriminate.
    apply Hall, in_seq. apply lookup_lt_Some in Hk. lia.
Qed.

Lemma RenderScene_draw_materials_witness :
  let s1 :=
    state_after (run (take 48 (RenderScene sample_offset sample_keyScale)))
      sample_state_prepared in
  RenderScene sample_offset sample_keyScale !! 48%nat
    = Some (Call_DrawMesh BoxMesh) /\
  uniforms s1 !! "objectTexture" = Some (USampler2D 1) /\
  uniforms s1 !! "material.diffuseColor"
    = Some (UVec3 (diffuseColor plasticMaterial)) /\
  uniforms s1 !! "material.specularColor"
    = Some (UVec3 (specularColor plasticMaterial)) /\
  uniforms s1 !! "material.shininess"
    = Some (UFloat (shininess plasticMaterial)).
Proof.
  intros s1. split; [vm_compute; reflexivity|].
  split; [vm_compute; reflexivity|].
  apply (RenderScene_draw_materials sample_offset sample_keyScale
           sample_state_prepared 48 BoxMesh plasticMaterial).
  - split; [vm_compute; reflexivity | vm_compute; lia].
  - vm_compute. reflexivity.
  - vm_compute. reflexivity.
  - vm_compute. reflexivity.
Defined.

(** ** The loops over the loaded textures *)

(** A loop whose body reads slot [i] runs off the array once the count
    goes beyond it. *)
Lemma for_loop_overrun (body : Z -> M unit) :
  (forall (i : nat) s, (i < length (m_textureIDs s))%nat ->
     exists s1, body (Z.of_nat i) s = Done tt s1 /\
                length (m_textureIDs s1) = length (m_textureIDs s)) ->
  (forall (i : nat) s, (length (m_textureIDs s) <= i)%nat ->
     body (Z.of_nat i) s = Undefined TextureSlotOutOfBounds) ->
  forall count (i : nat) s,
    (i <= length (m_textureIDs s))%nat ->
    (length (m_textureIDs s) < i + count)%nat ->
    for_loop_from count (Z.of_nat i) body s
    = Undefined TextureSlotOutOfBounds.
Proof.
  intros Hin Hout.
  induction count as [|count IH]; intros i s Hi Hc; [lia_goal|].
  cbn [for_loop_from].
  destruct (decide (i < length (m_textureIDs s))%nat) as [Hlt|Hge].
  - destruct (Hin i s Hlt) as (s1 & Hstep & Hl).
    erewrite bind_Done by exact Hstep.
    replace (Z.of_nat i + 1)%Z with (Z.of_nat (S i)) by lia_goal.
    apply IH; rewrite Hl; lia_goal.
  - apply bind_Undefined, Hout. lia_goal.
Qed.

(** X19: with a count beyond the array of slots, [BindGLTextures] and
    [DestroyGLTextures] run off the array: after the last slot the next
    round of the loop reads past the end, and the calls are undefined. *)
Theorem texture_loops_overrun s :
  (length (m_textureIDs s) < Z.to_nat (m_loadedTextures s))%nat ->
  BindGLTextures s = Undefined TextureSlotOutOfBounds /\
  DestroyGLTextures s = Undefined TextureSlotOutOfBounds.
Proof.
  intros Hlen. split.
  - unfold BindGLTextures, for_loop.
    erewrite bind_Done by reflexivity.
    apply (for_loop_overrun _) with (i := 0%nat); [| |lia|lia].
    + intros i s0 Hi.
      destruct (lookup_lt_is_Some_2 (m_textureIDs s0) i Hi) as [ti Hti].
      eexists. split.
      * erewrite bind_Done by reflexivity.
        erewrite bind_Done; [reflexivity|].
        apply read_textureIDs_Some; [lia|].
        rewrite Nat2Z.id. exact Hti.
      * reflexivity.
    + intros i s0 Hi.
      erewrite bind_Done by reflexivity.
      apply bind_Undefined, read_textureIDs_out.
      rewrite Nat2Z.id. cbn. lia.
  - unfold DestroyGLTextures, for_loop.
    erewrite bind_Done by reflexivity.
    apply (for_loop_overrun _) with (i := 0%nat); [| |lia|lia].
    + intros i s0 Hi.
      destruct (lookup_lt_is_Some_2 (m_textureIDs s0) i Hi) as [ti Hti].
      eexists. split.
      * erewrite bind_Done by reflexivity.
        apply (write_textureIDs_Some _ _ ti); [lia|].
        rewrite Nat2Z.id. exact Hti.
      * cbn. by rewrite length_insert.
    + intros i s0 Hi.
      erewrite bind_Done by reflexivity.
      apply write_textureIDs_out.
      rewrite Nat2Z.id. cbn. lia.
Qed.

Lemma texture_loops_overrun_witness :
  BindGLTextures sample_state_overrun = Undefined TextureSlotOutOfBounds /\
  DestroyGLTextures sample_state_overrun = Undefined TextureSlotOutOfBounds.
Proof.
  apply (texture_loops_overrun sample_state_overrun).
  vm_compute. lia.
Defined.

Lemma FindTextureSlot_fit tag0 s :
  textures_fit s -> FindTextureSlot tag0 s = Done (texture_slot s tag0) s.
Proof.
  intros Hfit. unfold FindTextureSlot.
  erewrite bind_Done by reflexivity.
  erewrite bind_Done by (by apply find_texture_run).
  reflexivity.
Qed.

Lemma FindTextureID_fit tag0 s :
  textures_fit s ->
  FindTextureID tag0 s =
  Done (match find_texture_in (m_textureIDs s)
                (Z.to_nat (m_loadedTextures s)) 0 tag0 with
        | Some (_, t) => GLuint_to_int (ID t)
        | None => (-1)%Z
        end) s.
Proof.
  intros Hfit. unfold FindTextureID.
  erewrite bind_Done by reflexivity.
  erewrite bind_Done by (by apply find_texture_run).
  reflexivity.
Qed.

(** The search after every slot below [n] has got a new name. *)
Lemma find_texture_in_regenerated slots slots' first n tag0 count :
  forall index,
    (0 <= index)%Z ->
    (Z.to_nat index + count <= n)%nat ->
    (n <= length slots)%nat ->
    (forall j t, slots !! j = Some t ->
       slots' !! j =
         Some (if bool_decide (0 <= j < 0 + n)%nat
               then {| ID := first + N.of_nat (j - 0); tag := tag t |}
               else t)) ->
    find_texture_in slots' count index tag0 =
    (fun found : Z * TEXTURE_INFO =>
       (found.1, {| ID := first + Z.to_N found.1; tag := tag found.2 |}))
      <$> find_texture_in slots count index tag0.
Proof.
  induction count as [|count IH]; intros index Hi Hc Hn Hslots;
    cbn [find_texture_in]; [reflexivity|].
  destruct (lookup_lt_is_Some_2 slots (Z.to_nat index)) as [t Ht];
    [lia_goal|].
  rewrite Ht, (Hslots _ _ Ht), bool_decide_eq_true_2 by lia_goal.
  cbn [tag].
  destruct (String.eqb (tag t) tag0).
  - cbn. do 3 f_equal. lia_goal.
  - apply IH; [lia_goal | lia_goal | exact Hn | exact Hslots].
Qed.

(** X20: [DestroyGLTextures] leaves every tag findable: [FindTextureSlot]
    answers as before, and [FindTextureID] now answers with the newly
    generated name of that slot, a texture object without an image. *)
Theorem DestroyGLTextures_then_find tag0 s :
  textures_fit s ->
  gl_names_generated s ->
  exists s' r,
    DestroyGLTextures s = Done tt s' /\
    FindTextureSlot tag0 s = Done r s /\
    FindTextureSlot tag0 s' = Done r s' /\
    (r ≠ (-1)%Z ->
     let name := (gl_next_name (gl s) + Z.to_N r)%N in
     FindTextureID tag0 s' = Done (GLuint_to_int name) s' /\
     gl_texture_image (gl s') !! name = None).
Proof.
  intros Hfit Hgen.
  destruct (DestroyGLTextures_loop (Z.to_nat (m_loadedTextures s)) 0 s Hfit)
    as (s' & Hrun & Hn & Hl & _ & Himg & Harr & _).
  assert (Hfit' : textures_fit s').
  { unfold textures_fit. by rewrite Hl, Hn. }
  pose proof (find_texture_in_regenerated (m_textureIDs s) (m_textureIDs s')
                (gl_next_name (gl s)) (Z.to_nat (m_loadedTextures s)) tag0
                (Z.to_nat (m_loadedTextures s)) 0 (Z.le_refl 0)
                (Nat.le_refl _) Hfit Harr) as Hfind.
  exists s', (texture_slot s tag0).
  split.
  { unfold DestroyGLTextures, for_loop.
    by rewrite (bind_Done _ _ s (m_loadedTextures s) s). }
  split; [by apply FindTextureSlot_fit|].
  split.
  { rewrite FindTextureSlot_fit by exact Hfit'. f_equal.
    unfold texture_slot. rewrite Hn, Hfind.
    by destruct (find_texture_in (m_textureIDs s) _ 0 tag0) as [[r t]|]. }
  intros Hr name. split.
  - rewrite FindTextureID_fit by exact Hfit'. f_equal.
    rewrite Hn, Hfind. subst name. unfold texture_slot in *.
    by destruct (find_texture_in (m_textureIDs s) _ 0 tag0) as [[r t]|].
  - rewrite Himg. apply Hgen. subst name. lia.
Qed.

Lemma DestroyGLTextures_then_find_witness :
  exists s' r,
    DestroyGLTextures sample_state_two_textures = Done tt s' /\
    FindTextureSlot "CRTScreen" sample_state_two_textures
      = Done r sample_state_two_textures /\
    FindTextureSlot "CRTScreen" s' = Done r s' /\
    (r ≠ (-1)%Z ->
     let name :=
       (gl_next_name (gl sample_state_two_textures) + Z.to_N r)%N in
     FindTextureID "CRTScreen" s' = Done (GLuint_to_int name) s' /\
     gl_texture_image (gl s') !! name = None).
Proof.
  apply (DestroyGLTextures_then_find "CRTScreen" sample_state_two_textures).
  - vm_compute. lia.
  - intros name Hname.
    assert (Himg : exists i3 i4,
              gl_texture_image (gl sample_state_two_textures)
              = <[2%N := i4]> (<[1%N := i3]> ∅))
      by (eexists _, _; vm_compute; reflexivity).
    destruct Himg as (i3 & i4 & ->).
    assert (Hnext : gl_next_name (gl sample_state_two_textures) = 3%N)
      by (vm_compute; reflexivity).
    rewrite Hnext in Hname.
    rewrite !lookup_insert_ne by lia. apply lookup_empty.
Defined.

(** ** A frame, and the next one *)

Lemma body_events_kinds s body :
  forallb is_shader_or_draw (body_events s body) = true.
Proof.
  induction body as [|c body IH]; [reflexivity|].
  cbn [body_events flat_map]. rewrite forallb_app.
  fold (body_events s body). rewrite IH, andb_true_r.
  destruct c; try reflexivity.
  cbn [call_events]. by destruct (m_objectMaterials s).
Qed.

Lemma body_events_same s s' body :
  m_textureIDs s' = m_textureIDs s ->
  m_loadedTextures s' = m_loadedTextures s ->
  m_objectMaterials s' = m_objectMaterials s ->
  body_events s' body = body_events s body.
Proof.
  intros Harr Hn Hm. unfold body_events.
  induction body as [|c body IH]; [reflexivity|].
  cbn [flat_map]. rewrite IH. f_equal.
  destruct c; cbn [call_events]; try reflexivity.
  - unfold texture_slot. by rewrite Harr, Hn.
  - by rewrite Hm.
Qed.

Lemma body_events_writes s name body :
  name ∉ scene_uniforms ->
  last_write name (body_events s body) = None.
Proof.
  intros Hname. unfold scene_uniforms in Hname.
  repeat (apply not_elem_of_cons in Hname as [?%not_eq_sym%String.eqb_neq Hname]).
  induction body as [|c body IH]; [reflexivity|].
  cbn [body_events flat_map]. rewrite last_write_app.
  fold (body_events s body). rewrite IH.
  destruct c; cbn [call_events last_write];
    try destruct (m_objectMaterials s); cbn [last_write];
    repeat match goal with H : String.eqb _ name = false |- _ =>
             rewrite H; clear H end;
    reflexivity.
Qed.

(** X21: in a renderable state [RenderScene] does nothing but write
    uniforms and issue draw calls: no OpenGL texture call, no file access
    and no console output; the texture slots, the count, the materials
    and the texture objects are as before.  The uniforms it writes are
    "model", "bUseTexture", "objectColor", "objectTexture", "UVscale" and
    the three of "material": every other one, the lighting among them,
    keeps its value. *)
Theorem RenderScene_only_shader off ks s :
  renderable s ->
  exists s' es,
    run (RenderScene off ks) s = Done tt s' /\
    trace s' = (trace s ++ es)%list /\
    forallb is_shader_or_draw es = true /\
    (forall name, name ∉ scene_uniforms ->
       uniforms s' !! name = uniforms s !! name) /\
    m_pShaderManager s' = m_pShaderManager s /\
    m_textureIDs s' = m_textureIDs s /\
    m_loadedTextures s' = m_loadedTextures s /\
    m_objectMaterials s' = m_objectMaterials s /\
    gl s' = gl s /\
    image_files s' = image_files s /\
    working_directory s' = working_directory s.
Proof.
  intros Hr. eexists _, _. split; [by apply run_events|].
  split; [apply trace_replay|].
  split; [apply body_events_kinds|].
  split.
  { intros name Hname.
    by rewrite uniforms_replay, body_events_writes. }
  destruct (replay_frame (body_events s (RenderScene off ks)) s)
    as (-> & -> & -> & -> & ->).
  destruct (replay_frame_files (body_events s (RenderScene off ks)) s)
    as (-> & ->).
  by repeat split.
Qed.

Lemma RenderScene_only_shader_witness :
  exists s' es,
    run (RenderScene sample_offset sample_keyScale) sample_state_prepared
      = Done tt s' /\
    trace s' = (trace sample_state_prepared ++ es)%list /\
    forallb is_shader_or_draw es = true /\
    uniforms s' !! "bUseLighting"
      = uniforms sample_state_prepared !! "bUseLighting" /\
    gl s' = gl sample_state_prepared.
Proof.
  destruct (RenderScene_only_shader sample_offset sample_keyScale
              sample_state_prepared)
    as (s' & es & Hrun & Htr & Hkinds & Hother & _ & _ & _ & _ & Hgl & _).
  - split; [vm_compute; reflexivity | vm_compute; lia].
  - exists s', es. split; [exact Hrun|]. split; [exact Htr|].
    split; [exact Hkinds|]. split; [|exact Hgl].
    apply Hother. unfold scene_uniforms.
    intros Hin. repeat (apply elem_of_cons in Hin as [Hin|Hin];
                        [discriminate|]). by apply elem_of_nil in Hin.
Defined.

Lemma first_material_elem_of tag0 mats m :
  first_material tag0 mats = Some m -> m ∈ mats.
Proof.
  unfold first_material. intros Hfind.
  apply find_some in Hfind as [Hin _]. by apply list_elem_of_In.
Qed.

(** With the materials asked for in the list, every write to a material
    uniform is one of the three writes for a material of the list. *)
Lemma body_events_material_writes s body :
  scene_materials_found s ->
  asks_scene_materials body = true ->
  forall name v,
    SetUniform name v ∈ body_events s body ->
    String.prefix "material." name = true ->
    exists m, m ∈ m_objectMaterials s /\ SetUniform name v ∈ material_writes m.
Proof.
  intros Hfound Hasks name v.
  induction body as [|c body IH]; cbn [body_events flat_map];
    [by intros ?%elem_of_nil|].
  cbn [asks_scene_materials forallb] in Hasks.
  apply andb_true_iff in Hasks as [Hc Hasks].
  rewrite elem_of_app. intros [Hin|Hin] Hname; [|by apply IH].
  destruct c; cbn [call_events] in Hin;
    try (repeat (apply elem_of_cons in Hin as [Heq|Hin];
                 [first [ discriminate Heq
                        | injection Heq as -> _; vm_compute in Hname;
                          discriminate Hname ]|]);
         by apply elem_of_nil in Hin).
  destruct Hfound as [Hnil|[[mc Hcement] [mp Hplastic]]].
  { rewrite Hnil in Hin. by apply elem_of_nil in Hin. }
  assert (Hmat : exists m,
            first_material materialTag (m_objectMaterials s) = Some m).
  { apply orb_true_iff in Hc as [->%String.eqb_eq | ->%String.eqb_eq];
      eauto. }
  destruct Hmat as [m Hmat]. exists m.
  split; [by apply (first_material_elem_of materialTag)|].
  revert Hin Hmat.
  destruct (m_objectMaterials s) as [|m0 mats]; intros Hin Hmat;
    [discriminate Hmat|].
  cbv zeta in Hin.
  rewrite FindMaterial_loop_first_material, Hmat in Hin. exact Hin.
Qed.

Lemma RenderScene_asks_scene_materials off ks :
  asks_scene_materials (RenderScene off ks) = true.
Proof. vm_compute. reflexivity. Qed.

(** X22: when the materials "cement" and "plastic" are defined, or no
    material is, a second [RenderScene] repeats the first: it writes the
    same uniforms with the same values and issues the same draw calls, in
    the same order, and leaves every uniform as the first call left it.
    Every value written to a material uniform is that of a material of
    the list, none comes from the uninitialised local of
    [SetShaderMaterial]. *)
Theorem RenderScene_again off ks s :
  renderable s ->
  scene_materials_found s ->
  exists s1 s2 es,
    run (RenderScene off ks) s = Done tt s1 /\
    run (RenderScene off ks) s1 = Done tt s2 /\
    trace s1 = (trace s ++ es)%list /\
    trace s2 = (trace s1 ++ es)%list /\
    uniforms s2 = uniforms s1 /\
    (forall name v,
       SetUniform name v ∈ es ->
       String.prefix "material." name = true ->
       exists m, m ∈ m_objectMaterials s /\
                 SetUniform name v ∈ material_writes m).
Proof.
  intros Hr Hfound.
  set (es := body_events s (RenderScene off ks)).
  pose proof (renderable_replay es s Hr) as Hr1.
  destruct (replay_frame es s) as (_ & Harr & Hn & Hm & _).
  exists (replay es s), (replay es (replay es s)), es.
  split; [by apply run_events|].
  split.
  { rewrite (run_events _ _ Hr1).
    by rewrite (body_events_same s (replay es s) _ Harr Hn Hm). }
  split; [apply trace_replay|]. split; [apply trace_replay|].
  split.
  - apply map_eq. intros name. rewrite uniforms_replay.
    destruct (last_write name es) as [v|] eqn:Hw; [|reflexivity].
    by rewrite uniforms_replay, Hw.
  - apply body_events_material_writes;
      [exact Hfound | apply RenderScene_asks_scene_materials].
Qed.

Lemma RenderScene_again_witness :
  exists s1 s2 es,
    run (RenderScene sample_offset sample_keyScale) sample_state_prepared
      = Done tt s1 /\
    run (RenderScene sample_offset sample_keyScale) s1 = Done tt s2 /\
    trace s1 = (trace sample_state_prepared ++ es)%list /\
    trace s2 = (trace s1 ++ es)%list /\
    uniforms s2 = uniforms s1 /\
    (forall name v,
       SetUniform name v ∈ es ->
       String.prefix "material." name = true ->
       exists m, m ∈ m_objectMaterials sample_state_prepared /\
                 SetUniform name v ∈ material_writes m).
Proof.
  apply (RenderScene_again sample_offset sample_keyScale
           sample_state_prepared).
  - split; [vm_compute; reflexivity | vm_compute; lia].
  - right. split; eexists; vm_compute; reflexivity.
Defined.
